(** * head_impact_IMU: the capture-and-persistence pipeline of
      [sensor_integration.c], embedded in Rocq.

    The embedding follows the C file function by function.  Machine
    integers are [Z] with their wrap-around written out, arrays are lists
    updated by index, structs are records.  Code that talks to hardware
    runs in a small monad over the program's globals and an abstract
    platform (the SPI/TWI drivers and the sensor drivers whose bodies are
    not part of this file). *)

From Stdlib Require Import ZArith Lia Bool String.
From Stdlib Require Import SpecFloat.
From stdpp Require Import base list.

Local Open Scope Z_scope.

(** ** Machine integers *)

(** Value of a C expression stored into a [uint8_t]. *)
Definition uint8 (v : Z) : Z := v mod 256.

(** Value of a C expression stored into a [uint32_t]. *)
Definition uint32 (v : Z) : Z := v mod 2 ^ 32.

(** Value of a C integer stored into an [int16_t] (two's complement
    halfword store). *)
Definition int16 (v : Z) : Z := (v + 32768) mod 65536 - 32768.

(** Value of a C integer stored into an [int8_t]. *)
Definition int8 (v : Z) : Z := (v + 128) mod 256 - 128.

Definition is_uint8 (v : Z) : Prop := 0 <= v < 256.
Definition is_int16 (v : Z) : Prop := -32768 <= v < 32768.
Definition is_uint32 (v : Z) : Prop := 0 <= v < 2 ^ 32.

(** [p[k]] for a [uint8_t*] pointing at a byte buffer; the sources never
    index outside the buffers they declare, the default is only there to
    make the function total. *)
Definition byte_at (p : list Z) (k : nat) : Z := default 0 (p !! k).

(** Object representation of a [uint32_t] on the nRF52832 (Cortex-M4,
    little-endian): byte [k] holds bits [8k .. 8k+7]. *)
Definition uint32_bytes (v : Z) : list Z :=
  [ Z.land v 255;
    Z.land (Z.shiftr v 8) 255;
    Z.land (Z.shiftr v 16) 255;
    Z.land (Z.shiftr v 24) 255 ].

(** Object representation of an [int16_t] (little-endian). *)
Definition int16_bytes (v : Z) : list Z :=
  [ Z.land v 255; Z.land (Z.shiftr v 8) 255 ].

(** The [int16_t] whose object representation is the two bytes [lo], [hi]. *)
Definition int16_of_bytes (lo hi : Z) : Z := int16 (Z.lor (Z.shiftl hi 8) lo).

(** [memcpy(dst, src, n)] on byte buffers: the first [n] bytes of [dst]
    are replaced by the first [n] bytes of [src]. *)
Definition memcpy (dst src : list Z) (n : nat) : list Z :=
  take n src ++ drop n dst.

(** ** Data model (section 3 of the specification) *)

Module adxl372.
(** [adxl372_accel_data_t]: three signed 16-bit axes. *)
Record accel_data_t : Type := Build { x : Z; y : Z; z : Z }.
End adxl372.

Module icm20649.
(** [icm20649_data_t]: low-range acceleration and rotation, signed
    16-bit each. *)
Record data_t : Type := Build {
  accel_x : Z; accel_y : Z; accel_z : Z;
  gyro_x : Z; gyro_y : Z; gyro_z : Z }.
End icm20649.

Module ds1388.
(** [ds1388_data_t] of ds1388.h: eight [uint8_t] fields, in this order. *)
Record data_t : Type := Build {
  year : Z; month : Z; date : Z; day : Z;
  hour : Z; minute : Z; second : Z; hundreth : Z }.

Definition HUNDRED_SEC_REG : Z := 0x00.
Definition SEC_REG : Z := 0x01.
Definition MIN_REG : Z := 0x02.
Definition HOUR_REG : Z := 0x03.
Definition DAY_REG : Z := 0x04.
Definition DATE_REG : Z := 0x05.
Definition MONTH_REG : Z := 0x06.
Definition YEAR_REG : Z := 0x07.
Definition HOUR_MODE_24 : Z := 0x00.
End ds1388.

(** [impact_sample_t]: one capture record. *)
Record impact_sample_t : Type := Build_sample {
  adxl_data : adxl372.accel_data_t;
  icm_data : icm20649.data_t;
  ds_data : ds1388.data_t }.

Definition zero_sample : impact_sample_t :=
  Build_sample (adxl372.Build 0 0 0) (icm20649.Build 0 0 0 0 0 0)
               (ds1388.Build 0 0 0 0 0 0 0 0).

(** Range of the fields of a record as the C types have them. *)
Definition adxl_wf (a : adxl372.accel_data_t) : Prop :=
  is_int16 (adxl372.x a) /\ is_int16 (adxl372.y a) /\ is_int16 (adxl372.z a).

Definition icm_wf (d : icm20649.data_t) : Prop :=
  is_int16 (icm20649.accel_x d) /\ is_int16 (icm20649.accel_y d) /\
  is_int16 (icm20649.accel_z d) /\ is_int16 (icm20649.gyro_x d) /\
  is_int16 (icm20649.gyro_y d) /\ is_int16 (icm20649.gyro_z d).

Definition ds_wf (t : ds1388.data_t) : Prop :=
  is_uint8 (ds1388.year t) /\ is_uint8 (ds1388.month t) /\
  is_uint8 (ds1388.date t) /\ is_uint8 (ds1388.day t) /\
  is_uint8 (ds1388.hour t) /\ is_uint8 (ds1388.minute t) /\
  is_uint8 (ds1388.second t) /\ is_uint8 (ds1388.hundreth t).

Definition sample_wf (s : impact_sample_t) : Prop :=
  adxl_wf (adxl_data s) /\ icm_wf (icm_data s) /\ ds_wf (ds_data s).

(** Modelled from the spec: the declarations of [impact_sample_t],
    [adxl372_accel_data_t] and [icm20649_data_t] (sensors_integration.h
    and the sensor driver headers) are not among the sources.  Section 3
    gives the record as 3+3+3 signed 16-bit values followed by the eight
    timestamp bytes, so its byte image is 26 bytes long and, every member
    having an even size, carries no padding. *)
Definition sample_bytes (s : impact_sample_t) : list Z :=
  let a := adxl_data s in
  let d := icm_data s in
  let t := ds_data s in
  int16_bytes (adxl372.x a) ++ int16_bytes (adxl372.y a) ++
  int16_bytes (adxl372.z a) ++
  int16_bytes (icm20649.accel_x d) ++ int16_bytes (icm20649.accel_y d) ++
  int16_bytes (icm20649.accel_z d) ++
  int16_bytes (icm20649.gyro_x d) ++ int16_bytes (icm20649.gyro_y d) ++
  int16_bytes (icm20649.gyro_z d) ++
  [ ds1388.year t; ds1388.month t; ds1388.date t; ds1388.day t;
    ds1388.hour t; ds1388.minute t; ds1388.second t; ds1388.hundreth t ].

(** Modelled from the spec: [sizeof(impact_sample_t)], from the same
    layout. *)
Definition sizeof_impact_sample_t : Z := 26.

(** Modelled from the spec: the record whose byte image is [b] (the
    inverse of [sample_bytes], used where the code copies raw bytes over a
    record). *)
Definition sample_of_bytes (b : list Z) : impact_sample_t :=
  let h (k : nat) := int16_of_bytes (byte_at b k) (byte_at b (S k)) in
  Build_sample
    (adxl372.Build (h 0%nat) (h 2%nat) (h 4%nat))
    (icm20649.Build (h 6%nat) (h 8%nat) (h 10%nat)
                    (h 12%nat) (h 14%nat) (h 16%nat))
    (ds1388.Build (byte_at b 18) (byte_at b 19) (byte_at b 20)
                  (byte_at b 21) (byte_at b 22) (byte_at b 23)
                  (byte_at b 24) (byte_at b 25)).

(** ** Flash address codec *)

Definition MT25QL256ABA_LOW_128MBIT_SEGMENT_ADDRESS_START : Z := 0x00000000.
Definition MT25QL256ABA_HIGH_128MBIT_SEGMENT_ADDRESS_START : Z := 0x01000000.

(** [convert_4byte_address_to_3byte_address]: the three low bytes of the
    address, read through a byte pointer, are written to the buffer in
    reverse order. *)
Definition convert_4byte_address_to_3byte_address
    (flash_addr : Z) (flash_addr_buf : list Z) : list Z :=
  let flash_addr_ptr := uint32_bytes flash_addr in
  let b0 := <[0%nat := byte_at flash_addr_ptr 2]> flash_addr_buf in
  let b1 := <[1%nat := byte_at flash_addr_ptr 1]> b0 in
  <[2%nat := byte_at flash_addr_ptr 0]> b1.

(** The address a 3-byte device address denotes on the bus (most
    significant byte first); the device side of the codec. *)
Definition device_address (flash_addr_buf : list Z) : Z :=
  byte_at flash_addr_buf 0 * 65536 + byte_at flash_addr_buf 1 * 256 +
  byte_at flash_addr_buf 2.

(** ** Timestamp codec *)

(** [dec2hex]: [val + 6 * (val / 10)], stored back into a [uint8_t]. *)
Definition dec2hex (val : Z) : Z := uint8 (val + 6 * (val / 10)).

(** [hex2dec]: [val - 6 * (val >> 4)], stored back into a [uint8_t]. *)
Definition hex2dec (val : Z) : Z := uint8 (val - 6 * Z.shiftr val 4).

(** ** Unit conversion of the low-range data

    [icm20649_convert_data] computes in C floating point.  The model uses
    the IEEE 754 operations of [SpecFloat]: binary32 for [float], binary64
    for [double] (the arm-none-eabi ABI evaluates every operation in the
    type of its operands). *)

Definition float32 : Z -> Z -> bool -> spec_float := binary_normalize 24 128.
Definition float64 : Z -> Z -> bool -> spec_float := binary_normalize 53 1024.

(** [(float) v] for an integer [v]. *)
Definition float_of_int (v : Z) : spec_float := float32 v 0 false.

(** [(double) v] for an integer [v]. *)
Definition double_of_int (v : Z) : spec_float := float64 v 0 false.

(** A [double] stored into a [float]: rounded to nearest binary32. *)
Definition float_of_double (f : spec_float) : spec_float :=
  match f with
  | S754_finite s m e => float32 (cond_Zopp s (Zpos m)) e s
  | _ => f
  end.

(** A [double] stored into an integer object: the fractional part is
    discarded (C11 6.3.1.4). *)
Definition int_of_double (f : spec_float) : Z :=
  match f with
  | S754_finite s m e =>
      let a := if 0 <=? e then Zpos m * 2 ^ e else Zpos m / 2 ^ (- e) in
      cond_Zopp s a
  | _ => 0
  end.

Definition double_div : spec_float -> spec_float -> spec_float := SFdiv 53 1024.
Definition double_mul : spec_float -> spec_float -> spec_float := SFmul 53 1024.

(** The literal [3.1415]: the binary64 number nearest to 31415/10000. *)
Definition lit_3_1415 : spec_float := double_div (double_of_int 31415) (double_of_int 10000).

(** [float deg2rad = 3.1415/180.0;] *)
Definition deg2rad : spec_float :=
  float_of_double (double_div lit_3_1415 (double_of_int 180)).

(** [((float) v/1024.0)*1000], stored into an [int16_t]. *)
Definition convert_accel (v : Z) : Z :=
  int16 (int_of_double
    (double_mul (double_div (float_of_int v) (double_of_int 1024))
                (double_of_int 1000))).

(** [((float) v / 32767.0) * 2000.0 * deg2rad *1000], stored into an
    [int16_t].  For raw values beyond about 30760 in magnitude the product
    leaves the range of [int16_t], where C leaves the conversion
    undefined; the model takes the halfword store of the truncated
    value. *)
Definition convert_gyro (v : Z) : Z :=
  int16 (int_of_double
    (double_mul
      (double_mul
        (double_mul (double_div (float_of_int v) (double_of_int 32767))
                    (double_of_int 2000))
        deg2rad)
      (double_of_int 1000))).

(** [icm20649_convert_data]: raw LSB to milli-g and milli-radians per
    second, in place. *)
Definition icm20649_convert_data (data : icm20649.data_t) : icm20649.data_t :=
  icm20649.Build
    (convert_accel (icm20649.accel_x data))
    (convert_accel (icm20649.accel_y data))
    (convert_accel (icm20649.accel_z data))
    (convert_gyro (icm20649.gyro_x data))
    (convert_gyro (icm20649.gyro_y data))
    (convert_gyro (icm20649.gyro_z data)).

(** ** Impact threshold *)

(** The condition of the impact-wait loop of [main]:
    [abs(x) >= IMPACT_G_THRESHOLD || abs(y) >= ... || abs(z) >= ...]. *)
Definition impact_threshold_met (IMPACT_G_THRESHOLD : Z)
    (high_g_data : adxl372.accel_data_t) : bool :=
  (IMPACT_G_THRESHOLD <=? Z.abs (adxl372.x high_g_data)) ||
  (IMPACT_G_THRESHOLD <=? Z.abs (adxl372.y high_g_data)) ||
  (IMPACT_G_THRESHOLD <=? Z.abs (adxl372.z high_g_data)).

(** ** Constants of the missing header *)

(** [sensors_integration.h] is not among the sources; the constants it
    defines are parameters of the model. *)
Record config : Type := Config {
  MAX_SAMPLE_BUF_LENGTH : nat;
  IMPACT_G_THRESHOLD : Z;
  IMPACT_DURATION : Z;
  PROX_THRESHOLD : Z;
  (** ADXL372 identity registers and the values they must hold. *)
  ADI_ADXL372_MST_DEVID : Z;
  ADI_ADXL372_DEVID : Z;
  ADI_ADXL372_ADI_DEVID_VAL : Z;
  ADI_ADXL372_MST_DEVID_VAL : Z;
  ADI_ADXL372_DEVID_VAL : Z;
  (** VCNL4040 bus address, registers and configuration bytes. *)
  VCNL4040_ADDR : Z;
  VCNL4040_PS_CONF1 : Z;
  VCNL4040_PS_CONF3 : Z;
  VCNL4040_PS_DATA : Z;
  ps_conf1_data : Z;
  ps_conf2_data : Z;
  ps_conf3_data : Z;
  ps_ms_data : Z;
  (** Initial date and time written to the clock, and the hour format. *)
  init_time : list Z;
  time_format : Z }.

(** ** The platform

    The functions below are called by [sensor_integration.c] and defined
    elsewhere (Nordic SDK, the legacy SPI driver, the flash and ADXL372
    drivers).  A platform gives each of them a meaning on a state [W] of
    the hardware.  A call that fills a caller's buffer takes the buffer's
    old contents and returns the new ones, so that a driver which leaves
    the buffer alone on a failed transfer is a platform too. *)
Class Platform (W : Type) : Type := {
  (** [spi_write_and_read(cs_pin, tx, tx_len, rx, rx_len)]: status and the
      receive buffer after the call. *)
  spi_write_and_read : Z -> list Z -> list Z -> W -> (Z * list Z) * W;
  (** [mt25ql256aba_read_op(command_code, address, address_size,
      reg_data, rx_num_bytes)]: status and [reg_data] after the call. *)
  mt25ql256aba_read_op : Z -> list Z -> list Z -> W -> (Z * list Z) * W;
  (** [mt25ql256aba_write_op(command_code, address, address_size, data,
      data_size)]. *)
  mt25ql256aba_write_op : Z -> list Z -> list Z -> W -> Z * W;
  mt25ql256aba_write_enable : W -> Z * W;
  mt25ql256aba_write_disable : W -> Z * W;
  (** [adxl372_get_accel_data(&data)]: the struct after the call. *)
  adxl372_get_accel_data : adxl372.accel_data_t -> W -> adxl372.accel_data_t * W;
  adxl372_get_dev_ID : W -> Z * W;
  (** [adxl372_read_reg(reg, &val)]: status and [val] after the call. *)
  adxl372_read_reg : Z -> Z -> W -> (Z * Z) * W;
  (** The configuration sequence of [adxl372_init], thirteen calls into
      the ADXL372 driver. *)
  adxl372_init : W -> W;
  (** One blocking TWI write-then-read transfer ([nrf_drv_twi_xfer] with
      an [NRFX_TWI_XFER_TXRX] descriptor, followed by the busy wait):
      device address, bytes sent, length of the receive buffer; the
      receive buffer after the transfer.  The receive buffers of the
      program ([byte], [reg4]) are written by the driver only, so their
      previous contents are part of the platform state. *)
  twi_txrx : Z -> list Z -> nat -> W -> list Z * W;
  (** One blocking TWI write (the flag [m_xfer_done] cleared,
      [nrf_drv_twi_tx], and the wait for the flag): device address and
      bytes sent. *)
  twi_tx : Z -> list Z -> W -> W;
  (** [log_init], [spi_init], [flash_spi_init], [lfclk_request]. *)
  board_init : W -> W;
  (** [twi_init]. *)
  twi_init : W -> W;
  (** [app_timer_init] and [create_timers]. *)
  timers_init : W -> W;
  (** [app_timer_start(m_measurement_timer_id, ticks, handler)]. *)
  app_timer_start : Z -> W -> W;
  app_timer_stop : W -> W;
  (** Whether the measurement timer has expired and its handler is due. *)
  measurement_timer_due : W -> bool * W;
  nrf_delay_ms : Z -> W -> W;
  (** [m_xfer_done = false].  The completion flag is set by
      [twi_handler], in interrupt context, when a transfer is done; it is
      kept with the state of the TWI driver. *)
  twi_xfer_done_clear : W -> W;
  (** The value an automatic [uint8_t] holds before anything is stored
      in it: whatever the stack holds at that place. *)
  uninitialised_uint8 : W -> Z }.

(** ** The machine: globals, diagnostic output, hardware *)

(** One [NRF_LOG_INFO] call: format string and arguments. *)
Record log_line : Type := LOG { log_fmt : string; log_args : list Z }.

(** What the program did on the flash bus, in program order. *)
Inductive bus_event : Type :=
| FlashRead (command_code : Z) (address : list Z) (rx_num_bytes : nat)
| FlashWrite (command_code : Z) (address : list Z) (data : list Z)
| FlashWriteEnable
| FlashWriteDisable.

Record machine (W : Type) : Type := Machine {
  g_sample_set_buf : list impact_sample_t;
  g_flash_output_buf : list impact_sample_t;
  g_buf_index : nat;
  g_measurement_done : bool;
  prox_val : Z;
  nrf_log : list log_line;
  flash_bus : list bus_event;
  world : W }.

Arguments Machine {W}.
Arguments g_sample_set_buf {W}.
Arguments g_flash_output_buf {W}.
Arguments g_buf_index {W}.
Arguments g_measurement_done {W}.
Arguments prox_val {W}.
Arguments nrf_log {W}.
Arguments flash_bus {W}.
Arguments world {W}.

(** How a piece of code ends: it returns, it parks the core in
    [while(1) __WFE();], or a polling loop has not seen its exit condition
    within the number of iterations the model was given. *)
Inductive result (A : Type) : Type :=
| Ret (a : A)
| Halt
| Stall.

Arguments Ret {A}.
Arguments Halt {A}.
Arguments Stall {A}.

Definition M (W A : Type) : Type := machine W -> result A * machine W.

Definition ret {W A} (a : A) : M W A := fun m => (Ret a, m).

Definition bind {W A B} (c : M W A) (k : A -> M W B) : M W B :=
  fun m =>
    match c m with
    | (Ret a, m') => k a m'
    | (Halt, m') => (Halt, m')
    | (Stall, m') => (Stall, m')
    end.

(** [while(1) { __WFE(); }] *)
Definition wait_forever {W A} : M W A := fun m => (Halt, m).

Definition stall {W A} : M W A := fun m => (Stall, m).

Declare Scope prog_scope.
Delimit Scope prog_scope with prog.
Notation "'let*' x ':=' c 'in' k" := (bind c (fun x => k))
  (at level 10, x pattern, c at level 100, k at level 200) : prog_scope.
Notation "c ';;;' k" := (bind c (fun _ => k))
  (at level 100, k at level 200, right associativity) : prog_scope.

(** ** The program *)

Section Program.

Context {W : Type} `{Platform W}.
Variable cfg : config.

Local Open Scope prog_scope.

(** Field updates of the machine. *)
Definition with_world (m : machine W) (w : W) : machine W :=
  Machine (g_sample_set_buf m) (g_flash_output_buf m) (g_buf_index m)
          (g_measurement_done m) (prox_val m) (nrf_log m) (flash_bus m) w.

Definition with_flash_bus (m : machine W) (t : list bus_event) : machine W :=
  Machine (g_sample_set_buf m) (g_flash_output_buf m) (g_buf_index m)
          (g_measurement_done m) (prox_val m) (nrf_log m) t (world m).

Definition with_nrf_log (m : machine W) (o : list log_line) : machine W :=
  Machine (g_sample_set_buf m) (g_flash_output_buf m) (g_buf_index m)
          (g_measurement_done m) (prox_val m) o (flash_bus m) (world m).

Definition with_g_sample_set_buf (m : machine W) (b : list impact_sample_t)
  : machine W :=
  Machine b (g_flash_output_buf m) (g_buf_index m) (g_measurement_done m)
          (prox_val m) (nrf_log m) (flash_bus m) (world m).

Definition with_g_flash_output_buf (m : machine W) (b : list impact_sample_t)
  : machine W :=
  Machine (g_sample_set_buf m) b (g_buf_index m) (g_measurement_done m)
          (prox_val m) (nrf_log m) (flash_bus m) (world m).

Definition with_g_buf_index (m : machine W) (i : nat) : machine W :=
  Machine (g_sample_set_buf m) (g_flash_output_buf m) i
          (g_measurement_done m) (prox_val m) (nrf_log m) (flash_bus m)
          (world m).

Definition with_g_measurement_done (m : machine W) (b : bool) : machine W :=
  Machine (g_sample_set_buf m) (g_flash_output_buf m) (g_buf_index m) b
          (prox_val m) (nrf_log m) (flash_bus m) (world m).

Definition with_prox_val (m : machine W) (v : Z) : machine W :=
  Machine (g_sample_set_buf m) (g_flash_output_buf m) (g_buf_index m)
          (g_measurement_done m) v (nrf_log m) (flash_bus m) (world m).

(** Run a platform call on the hardware state. *)
Definition hw {A} (f : W -> A * W) : M W A :=
  fun m => (Ret (fst (f (world m))), with_world m (snd (f (world m)))).

Definition hw_ (f : W -> W) : M W unit := hw (fun w => (tt, f w)).

(** Record an access to the flash bus. *)
Definition on_bus (e : bus_event) : M W unit :=
  fun m => (Ret tt, with_flash_bus m (flash_bus m ++ [e])).

(** [NRF_LOG_INFO(fmt, args...)]: one line on the diagnostic output. *)
Definition NRF_LOG_INFO (fmt : string) (args : list Z) : M W unit :=
  fun m => (Ret tt, with_nrf_log m (nrf_log m ++ [LOG fmt args])).

Definition get {A} (f : machine W -> A) : M W A := fun m => (Ret (f m), m).

Definition set_g_sample_set_buf (b : list impact_sample_t) : M W unit :=
  fun m => (Ret tt, with_g_sample_set_buf m b).

Definition set_g_flash_output_buf (b : list impact_sample_t) : M W unit :=
  fun m => (Ret tt, with_g_flash_output_buf m b).

Definition set_g_buf_index (i : nat) : M W unit :=
  fun m => (Ret tt, with_g_buf_index m i).

Definition set_g_measurement_done (b : bool) : M W unit :=
  fun m => (Ret tt, with_g_measurement_done m b).

Definition set_prox_val (v : Z) : M W unit :=
  fun m => (Ret tt, with_prox_val m v).

(** *** Flash driver calls, as the program issues them *)

Definition MT25QL256ABA_RESET_ENABLE : Z := 0x66.
Definition MT25QL256ABA_RESET_MEMORY : Z := 0x99.
Definition MT25QL256ABA_READ_ID : Z := 0x9E.
Definition MT25QL256ABA_READ : Z := 0x03.
Definition MT25QL256ABA_READ_STATUS_REGISTER : Z := 0x05.
Definition MT25QL256ABA_PAGE_PROGRAM : Z := 0x02.
Definition MT25QL256ABA_ERASE_4KB_SUBSECTOR : Z := 0x20.
Definition MT25QL256ABA_BULK_ERASE : Z := 0xC7.

Definition flash_read_op (command_code : Z) (address reg_data : list Z)
  : M W (Z * list Z) :=
  on_bus (FlashRead command_code address (length reg_data));;;
  hw (mt25ql256aba_read_op command_code address reg_data).

Definition flash_write_op (command_code : Z) (address data : list Z) : M W Z :=
  on_bus (FlashWrite command_code address data);;;
  hw (mt25ql256aba_write_op command_code address data).

Definition flash_write_enable : M W Z :=
  on_bus FlashWriteEnable;;; hw mt25ql256aba_write_enable.

Definition flash_write_disable : M W Z :=
  on_bus FlashWriteDisable;;; hw mt25ql256aba_write_disable.

(** [spi_ret_check]: a negative status is reported, nothing else. *)
Definition spi_ret_check (r : Z) : M W unit :=
  if r <? 0 then NRF_LOG_INFO "SPI WRITE READ FAIL" [] else ret tt.

(** The do-while loop of [mt25ql256aba_check_ready_flag]: the status
    register is read into the one byte [flash_ready], which is then
    masked in place and tested.  The byte is carried from one iteration
    to the next: a read that fails and leaves it alone is handed the
    masked value of the iteration before.  [fuel] bounds the number of
    reads the model follows. *)
Fixpoint check_ready_loop (fuel : nat) (flash_ready : Z) : M W unit :=
  match fuel with
  | O => stall
  | S fuel' =>
      let* (_, buf) :=
        flash_read_op MT25QL256ABA_READ_STATUS_REGISTER [] [flash_ready] in
      let flash_ready := Z.land (byte_at buf 0) 0x1 in
      if flash_ready =? 1 then check_ready_loop fuel' flash_ready
      else ret tt
  end.

(** [mt25ql256aba_check_ready_flag]: [flash_ready] is declared without
    an initialiser, so the first read is handed whatever the stack
    holds. *)
Definition mt25ql256aba_check_ready_flag (fuel : nat) : M W unit :=
  let* flash_ready := get (fun m => uninitialised_uint8 (world m)) in
  check_ready_loop fuel flash_ready.

(** [reset_device] *)
Definition reset_device (fuel : nat) : M W unit :=
  NRF_LOG_INFO "" [];;;
  NRF_LOG_INFO "RESETING DEVICE...." [];;;
  mt25ql256aba_check_ready_flag fuel;;;
  flash_read_op MT25QL256ABA_RESET_ENABLE [] [];;;
  flash_read_op MT25QL256ABA_RESET_MEMORY [] [];;;
  ret tt.

(** [mt25ql256aba_startup_test]: device id, memory type and memory
    capacity are read in one transfer and checked one after the other. *)
Definition mt25ql256aba_startup_test : M W unit :=
  NRF_LOG_INFO "" [];;;
  NRF_LOG_INFO "PERFORMING FLASH TEST...." [];;;
  let* (r, val) := flash_read_op MT25QL256ABA_READ_ID [] [0; 0; 0] in
  spi_ret_check r;;;
  NRF_LOG_INFO "1: device id = 0x%x (0x20)" [byte_at val 0];;;
  (if negb (byte_at val 0 =? 0x20)
   then NRF_LOG_INFO "FLASH READ TEST FAIL" [];;; wait_forever
   else ret tt);;;
  hw_ (nrf_delay_ms 100);;;
  NRF_LOG_INFO "2:memory type = 0x%x (0xBA)" [byte_at val 1];;;
  (if negb (byte_at val 1 =? 0xBA)
   then NRF_LOG_INFO "FLASH READ TEST FAIL" [];;; wait_forever
   else ret tt);;;
  hw_ (nrf_delay_ms 100);;;
  NRF_LOG_INFO "3:memory capacity = 0x%x (0x19)" [byte_at val 2];;;
  (if negb (byte_at val 2 =? 0x19)
   then NRF_LOG_INFO "FLASH READ TEST FAIL" [];;; wait_forever
   else ret tt).

(** [bulk_erase] *)
Definition bulk_erase : M W unit :=
  NRF_LOG_INFO "" [];;;
  NRF_LOG_INFO "PERFORMING BULK ERASE" [];;;
  flash_write_enable;;;
  flash_write_op MT25QL256ABA_BULK_ERASE [] [];;;
  ret tt.

(** [mt25ql256aba_erase]: erases the 4 KiB subsector at address 0. *)
Definition mt25ql256aba_erase (fuel : nat) : M W unit :=
  let addr := [0x00; 0x00; 0x00] in
  mt25ql256aba_check_ready_flag fuel;;;
  flash_write_enable;;;
  flash_write_op MT25QL256ABA_ERASE_4KB_SUBSECTOR addr [];;;
  flash_write_disable;;;
  ret tt.

(** [flash_read_bytes]: reads [num_bytes] single bytes from address 0 on.
    The byte [data] is declared without an initialiser. *)
Fixpoint flash_read_bytes_loop (fuel count : nat) (flash_addr : Z)
    (addr_buf : list Z) (data : list Z) : M W unit :=
  match count with
  | O => ret tt
  | S count' =>
      mt25ql256aba_check_ready_flag fuel;;;
      let addr_buf := convert_4byte_address_to_3byte_address flash_addr addr_buf in
      let* (r, data) := flash_read_op MT25QL256ABA_READ addr_buf data in
      NRF_LOG_INFO "addr: %d, addr 0x%03x, Data: 0x%02x"
                   [flash_addr; flash_addr; byte_at data 0];;;
      let flash_addr := uint32 (flash_addr + 1) in
      spi_ret_check r;;;
      flash_read_bytes_loop fuel count' flash_addr addr_buf data
  end.

Definition flash_read_bytes (fuel : nat) (num_bytes : nat) : M W unit :=
  NRF_LOG_INFO "" [];;;
  NRF_LOG_INFO "PERFORMING FLASH READ BYTES..." [];;;
  let* data := get (fun m => uninitialised_uint8 (world m)) in
  flash_read_bytes_loop fuel num_bytes 0x00000000 [0; 0; 0] [data].

(** Locals of [mt25ql256aba_store_samples] that live across iterations. *)
Record store_locals : Type := StoreLocals {
  sl_flash_addr : Z;
  sl_flash_addr_buf : list Z;
  sl_buf : list Z;
  sl_out_buf : list Z }.

(** [g_sample_set_buf[i]] and [g_flash_output_buf[i]]. *)
Definition sample_at (b : list impact_sample_t) (i : nat) : impact_sample_t :=
  default zero_sample (b !! i).

(** One iteration of the loop of [mt25ql256aba_store_samples]. *)
Definition store_sample (fuel : nat) (i : nat) (l : store_locals)
  : M W store_locals :=
  let buf_size := 32 in
  let sample_buf_size := Z.to_nat (uint8 sizeof_impact_sample_t) in
  NRF_LOG_INFO "" [];;;
  NRF_LOG_INFO "WRITE: ID: %d, addr: 0x%03x" [Z.of_nat i; sl_flash_addr l];;;
  mt25ql256aba_check_ready_flag fuel;;;
  let* samples := get g_sample_set_buf in
  let buf := memcpy (sl_buf l) (sample_bytes (sample_at samples i)) sample_buf_size in
  let flash_addr_buf :=
    convert_4byte_address_to_3byte_address (sl_flash_addr l) (sl_flash_addr_buf l) in
  flash_write_enable;;;
  flash_write_op MT25QL256ABA_PAGE_PROGRAM flash_addr_buf buf;;;
  flash_write_disable;;;
  mt25ql256aba_check_ready_flag fuel;;;
  let* (_, out_buf) := flash_read_op MT25QL256ABA_READ flash_addr_buf (sl_out_buf l) in
  let* output := get g_flash_output_buf in
  let reread :=
    sample_of_bytes (memcpy (sample_bytes (sample_at output i)) out_buf sample_buf_size) in
  set_g_flash_output_buf (<[i := reread]> output);;;
  NRF_LOG_INFO "READ:  ID: %d, addr: 0x%03x, OUTPUT: %d (%d)"
               [Z.of_nat i; sl_flash_addr l; adxl372.x (adxl_data reread);
                adxl372.x (adxl_data (sample_at samples i))];;;
  ret (StoreLocals (uint32 (sl_flash_addr l + buf_size)) flash_addr_buf buf out_buf).

Fixpoint store_samples_loop (fuel : nat) (i count : nat) (l : store_locals)
  : M W store_locals :=
  match count with
  | O => ret l
  | S count' =>
      let* l' := store_sample fuel i l in
      store_samples_loop fuel (S i) count' l'
  end.

(** [mt25ql256aba_store_samples(&flash_addr)]: the value returned is the
    cursor [*flash_addr] after the call. *)
Definition mt25ql256aba_store_samples (fuel : nat) (flash_addr : Z) : M W Z :=
  NRF_LOG_INFO "" [];;;
  NRF_LOG_INFO "BEGIN STORE SAMPLES..." [];;;
  let* n := get g_buf_index in
  let* l := store_samples_loop fuel 0 n
              (StoreLocals flash_addr [0; 0; 0] (replicate 32 0) (replicate 32 0)) in
  ret (sl_flash_addr l).

(** One iteration of the loop of [mt25ql256aba_retrieve_samples]; the
    loop carries [addr32] and [addr]. *)
Definition retrieve_sample (fuel : nat) (i : nat) (a : Z * list Z)
  : M W (Z * list Z) :=
  let '(addr32, addr) := a in
  let buf_size := 32 in
  mt25ql256aba_check_ready_flag fuel;;;
  let addr := convert_4byte_address_to_3byte_address addr32 addr in
  let* output := get g_flash_output_buf in
  let* (_, bytes) :=
    flash_read_op MT25QL256ABA_READ addr (sample_bytes (sample_at output i)) in
  let reread := sample_of_bytes bytes in
  set_g_flash_output_buf (<[i := reread]> output);;;
  let* samples := get g_sample_set_buf in
  NRF_LOG_INFO "READ: ID: %d, addr: 0x%03x, OUTPUT: %d (%d)"
               [Z.of_nat i; addr32; adxl372.x (adxl_data reread);
                adxl372.x (adxl_data (sample_at samples i))];;;
  ret (uint32 (addr32 + buf_size), addr).

Fixpoint retrieve_samples_loop (fuel : nat) (i count : nat) (a : Z * list Z)
  : M W (Z * list Z) :=
  match count with
  | O => ret a
  | S count' =>
      let* a' := retrieve_sample fuel i a in
      retrieve_samples_loop fuel (S i) count' a'
  end.

(** [mt25ql256aba_retrieve_samples] *)
Definition mt25ql256aba_retrieve_samples (fuel : nat) : M W unit :=
  NRF_LOG_INFO "" [];;;
  NRF_LOG_INFO "BEGIN RETRIEVE SAMPLES" [];;;
  let* n := get g_buf_index in
  retrieve_samples_loop fuel 0 n (0x00000000, [0; 0; 0]);;;
  ret tt.

(** *** Verification report *)

Definition CRLF : string :=
  String (Ascii.ascii_of_nat 13) (String (Ascii.ascii_of_nat 10) EmptyString).

(** The four comparisons of [serial_output_flash_data] between the record
    read back from flash ([f]) and the record sampled ([s]). *)
Definition high_g_match (f s : impact_sample_t) : bool :=
  (adxl372.x (adxl_data f) =? adxl372.x (adxl_data s)) &&
  (adxl372.y (adxl_data f) =? adxl372.y (adxl_data s)) &&
  (adxl372.z (adxl_data f) =? adxl372.z (adxl_data s)).

Definition low_g_match (f s : impact_sample_t) : bool :=
  (icm20649.accel_x (icm_data f) =? icm20649.accel_x (icm_data s)) &&
  (icm20649.accel_y (icm_data f) =? icm20649.accel_y (icm_data s)) &&
  (icm20649.accel_z (icm_data f) =? icm20649.accel_z (icm_data s)).

Definition gyro_match (f s : impact_sample_t) : bool :=
  (icm20649.gyro_x (icm_data f) =? icm20649.gyro_x (icm_data s)) &&
  (icm20649.gyro_y (icm_data f) =? icm20649.gyro_y (icm_data s)) &&
  (icm20649.gyro_z (icm_data f) =? icm20649.gyro_z (icm_data s)).

Definition rtc_match (f s : impact_sample_t) : bool :=
  (ds1388.date (ds_data f) =? ds1388.date (ds_data s)) &&
  (ds1388.day (ds_data f) =? ds1388.day (ds_data s)) &&
  (ds1388.year (ds_data f) =? ds1388.year (ds_data s)) &&
  (ds1388.month (ds_data f) =? ds1388.month (ds_data s)) &&
  (ds1388.hour (ds_data f) =? ds1388.hour (ds_data s)) &&
  (ds1388.minute (ds_data f) =? ds1388.minute (ds_data s)) &&
  (ds1388.second (ds_data f) =? ds1388.second (ds_data s)) &&
  (ds1388.hundreth (ds_data f) =? ds1388.hundreth (ds_data s)).

Definition high_g_line (f : impact_sample_t) : log_line :=
  LOG "      [High-g]: accel x = %d mg, accel y = %d mg, accel z = %d mg"
      [adxl372.x (adxl_data f); adxl372.y (adxl_data f); adxl372.z (adxl_data f)].

Definition low_g_line (f : impact_sample_t) : log_line :=
  LOG "      [Low-g]: accel x = %d mg, accel y = %d mg, accel z = %d mg"
      [icm20649.accel_x (icm_data f); icm20649.accel_y (icm_data f);
       icm20649.accel_z (icm_data f)].

Definition gyro_line (f : impact_sample_t) : log_line :=
  LOG "      [Gyro]: gyro x = %d mrad/s, gyro y = %d mrad/s, gyro z = %d mrad/s"
      [icm20649.gyro_x (icm_data f); icm20649.gyro_y (icm_data f);
       icm20649.gyro_z (icm_data f)].

Definition date_line (f : impact_sample_t) : log_line :=
  LOG "      Month: %d Day: %d Year: 20%d"
      [ds1388.month (ds_data f); ds1388.date (ds_data f); ds1388.year (ds_data f)].

Definition time_line (f : impact_sample_t) : log_line :=
  LOG "      Time: %d:%d:%d:%d"
      [ds1388.hour (ds_data f); ds1388.minute (ds_data f);
       ds1388.second (ds_data f); ds1388.hundreth (ds_data f)].

Definition log_line_of (l : log_line) : M W unit :=
  NRF_LOG_INFO (log_fmt l) (log_args l).

(** Body of the loop of [serial_output_flash_data] for index [i]. *)
Definition output_sample (i : nat) : M W unit :=
  NRF_LOG_INFO "" [];;;
  NRF_LOG_INFO "ID = %d" [Z.of_nat i];;;
  let* output := get g_flash_output_buf in
  let* samples := get g_sample_set_buf in
  let f := sample_at output i in
  let s := sample_at samples i in
  (if high_g_match f s then log_line_of (high_g_line f) else ret tt);;;
  (if low_g_match f s then log_line_of (low_g_line f) else ret tt);;;
  (if gyro_match f s then log_line_of (gyro_line f) else ret tt);;;
  (if rtc_match f s
   then log_line_of (date_line f);;; log_line_of (time_line f)
   else ret tt).

Fixpoint output_loop (i count : nat) : M W unit :=
  match count with
  | O => ret tt
  | S count' => output_sample i;;; output_loop (S i) count'
  end.

(** [serial_output_flash_data] *)
Definition serial_output_flash_data : M W unit :=
  NRF_LOG_INFO
    (CRLF ++ "===================IMPACT DATA OUTPUT===================")%string [];;;
  let* n := get g_buf_index in
  output_loop 0 n;;;
  let* output := get g_flash_output_buf in
  set_g_flash_output_buf (replicate (length output) zero_sample);;;
  NRF_LOG_INFO
    (CRLF ++ "====================DATA OUTPUT FINISH==================")%string [].

(** *** ADXL372 *)

(** [adxl372_startup_test].  The bytes [mst_devid] and [devid] are
    uninitialised in the source; the model hands the driver zero bytes.
    The accumulated status [ret] is never looked at. *)
Definition adxl372_startup_test : M W unit :=
  let r := 0 in
  let* device_id := hw adxl372_get_dev_ID in
  let* (r1, mst_devid) := hw (adxl372_read_reg (ADI_ADXL372_MST_DEVID cfg) 0) in
  let r := int8 (Z.lor r r1) in
  let* (r2, devid) := hw (adxl372_read_reg (ADI_ADXL372_DEVID cfg) 0) in
  let r := int8 (Z.lor r r2) in
  NRF_LOG_INFO "" [];;;
  NRF_LOG_INFO "PERFORMING ADXL TEST...." [];;;
  NRF_LOG_INFO "1: adi device id = 0x%x (0xAD)" [device_id];;;
  (if negb (device_id =? ADI_ADXL372_ADI_DEVID_VAL cfg)
   then NRF_LOG_INFO "ADXL READ TEST FAIL" []
   else ret tt);;;
  NRF_LOG_INFO "2:mst device id2 = 0x%x (0x1D)" [mst_devid];;;
  (if negb (mst_devid =? ADI_ADXL372_MST_DEVID_VAL cfg)
   then NRF_LOG_INFO "ADXL READ TEST FAIL" []
   else ret tt);;;
  NRF_LOG_INFO "3:mems id = 0x%x (0xFA)(372 octal)" [devid];;;
  (if negb (devid =? ADI_ADXL372_DEVID_VAL cfg)
   then NRF_LOG_INFO "ADXL READ TEST FAIL" [];;; wait_forever
   else NRF_LOG_INFO "ADXL READ TEST PASS" []).

(** *** ICM20649 *)

Definition SPI_ICM20649_CS_PIN : Z := 29.

(** [icm20649_write_reg]; [rx_buf] is uninitialised in the source. *)
Definition icm20649_write_reg (address data : Z) : M W Z :=
  let tx_msg := [address; data] in
  let* (r, _) := hw (spi_write_and_read SPI_ICM20649_CS_PIN tx_msg [0; 0]) in
  ret r.

(** [icm20649_read_reg(address, &reg_data)]: status and the byte read. *)
Definition icm20649_read_reg (address : Z) : M W (Z * Z) :=
  let reg_addr := uint8 (Z.lor address 0x80) in
  let* (r, rx_buf) := hw (spi_write_and_read SPI_ICM20649_CS_PIN [reg_addr] [0; 0]) in
  ret (r, byte_at rx_buf 1).

(** [icm20649_multibyte_read_reg(reg_addr, reg_data, num_bytes)]: status
    and [reg_data] after the call.  The scratch array [buf[257]] is
    cleared over its first [num_bytes + 1] bytes and handed to the SPI
    driver with that length. *)
Definition icm20649_multibyte_read_reg (reg_addr : Z) (reg_data : list Z)
    (num_bytes : nat) : M W (Z * list Z) :=
  if (256 <? num_bytes)%nat then ret (-1, reg_data)
  else
    let read_addr := uint8 (Z.lor reg_addr 0x80) in
    let buf := replicate (num_bytes + 1) 0 in
    let* (r, buf) := hw (spi_write_and_read SPI_ICM20649_CS_PIN [read_addr] buf) in
    if r <? 0 then ret (r, reg_data)
    else ret (r, memcpy reg_data (drop 1 buf) num_bytes).

(** [icm20649_read_gyro_accel_data] *)
Definition icm20649_read_gyro_accel_data : M W icm20649.data_t :=
  let rx_buf := replicate 12 0 in
  icm20649_write_reg 0x7F 0x0;;;
  let* (_, rx_buf) := icm20649_multibyte_read_reg 0x2D rx_buf 12 in
  let h (k : nat) :=
    int16 (Z.lor (Z.shiftl (byte_at rx_buf k) 8) (byte_at rx_buf (S k))) in
  ret (icm20649.Build (h 0%nat) (h 2%nat) (h 4%nat) (h 6%nat) (h 8%nat) (h 10%nat)).

(** [icm20649_read_test] *)
Definition icm20649_read_test : M W unit :=
  NRF_LOG_INFO "" [];;;
  NRF_LOG_INFO "PERFORMING ICM READ TEST...." [];;;
  let* (_, who_am_i) := icm20649_read_reg 0x0 in
  NRF_LOG_INFO "1:who_am_i = 0x%x (0xE1)" [who_am_i];;;
  if who_am_i =? 0xE1 then NRF_LOG_INFO "READ SUCCESSFUL" []
  else NRF_LOG_INFO "VAL ERROR: CHECK WIRING!" [];;; wait_forever.

(** [icm20649_write_test] *)
Definition icm20649_write_test : M W unit :=
  NRF_LOG_INFO "" [];;;
  NRF_LOG_INFO "PERFORMING ICM WRITE TEST...." [];;;
  icm20649_write_reg 0x06 0x1;;;
  let* (_, write_read) := icm20649_read_reg 0x06 in
  NRF_LOG_INFO "2:write_read = 0x%x (0x1)" [write_read];;;
  if write_read =? 0x1 then NRF_LOG_INFO "WRITE SUCCESSFUL" []
  else NRF_LOG_INFO "VAL ERROR: CHECK WIRING!" [];;; wait_forever.

(** [icm20649_init] *)
Definition icm20649_init : M W unit :=
  icm20649_write_reg 0x03 0x0;;;
  icm20649_write_reg 0x05 0x0;;;
  icm20649_write_reg 0x06 0x1;;;
  icm20649_write_reg 0x07 0x0;;;
  icm20649_write_reg 0x7F 0x20;;;
  icm20649_write_reg 0x1 0x4;;;
  icm20649_write_reg 0x2 0x0;;;
  icm20649_write_reg 0x14 0x6;;;
  icm20649_write_reg 0x7F 0x0;;;
  ret tt.

(** *** DS1388 real-time clock *)

Definition DS1388_ADDRESS : Z := 0x68.
Definition CONTROL_REG : Z := 0x0C.
Definition EN_OSCILLATOR : Z := 0x00.
Definition DIS_WD_COUNTER : Z := 0x00.

(** [ds_config] *)
Definition ds_config : M W unit :=
  let reg0 := [CONTROL_REG; Z.lor EN_OSCILLATOR DIS_WD_COUNTER] in
  hw_ (twi_tx DS1388_ADDRESS reg0);;;
  let t (k : nat) := byte_at (init_time cfg) k in
  let reg1 :=
    [ ds1388.HUNDRED_SEC_REG;
      dec2hex (t 7%nat); dec2hex (t 6%nat); dec2hex (t 5%nat);
      uint8 (Z.lor (dec2hex (t 4%nat)) (time_format cfg));
      dec2hex (t 3%nat); dec2hex (t 2%nat); dec2hex (t 1%nat); dec2hex (t 0%nat) ] in
  hw_ (twi_tx DS1388_ADDRESS reg1);;;
  NRF_LOG_INFO "RTC initialized" [].

(** [readRegister]: one register of the clock.  The wait for the
    completion flag that precedes the transfer is not followed: the
    model covers the calls entered with [m_xfer_done] set, as it is
    after [ds_config] and after every transfer that is done. *)
Definition readRegister (reg_addr : Z) : M W Z :=
  let* rx := hw (twi_txrx DS1388_ADDRESS [reg_addr] 1) in
  ret (byte_at rx 0).

(** [get_time(&date)]: the hour-mode code returned and the struct after
    the call. *)
Definition get_time : M W (Z * ds1388.data_t) :=
  let* year := readRegister ds1388.YEAR_REG in
  let* month := readRegister ds1388.MONTH_REG in
  let* date := readRegister ds1388.DATE_REG in
  let* day := readRegister ds1388.DAY_REG in
  let* hour := readRegister ds1388.HOUR_REG in
  let* minute := readRegister ds1388.MIN_REG in
  let* second := readRegister ds1388.SEC_REG in
  let* hundreth := readRegister ds1388.HUNDRED_SEC_REG in
  let year := hex2dec year in
  let month := hex2dec month in
  let date := hex2dec date in
  let minute := hex2dec minute in
  let second := hex2dec second in
  let hundreth := hex2dec hundreth in
  if Z.land hour 0x40 =? ds1388.HOUR_MODE_24
  then ret (2, ds1388.Build year month date day (hex2dec hour)
                            minute second hundreth)
  else ret (Z.shiftr (Z.land hour 0x20) 5,
            ds1388.Build year month date day (hex2dec (Z.land hour 0x1F))
                         minute second hundreth).

(** *** VCNL4040 proximity sensor *)

(** [vcnl_config] *)
Definition vcnl_config : M W unit :=
  NRF_LOG_INFO "Configuring VCNL..." [];;;
  let reg1 := [VCNL4040_PS_CONF3 cfg; ps_conf3_data cfg; ps_ms_data cfg] in
  hw_ (twi_tx (VCNL4040_ADDR cfg) reg1);;;
  let reg2 := [VCNL4040_PS_CONF1 cfg; ps_conf1_data cfg; ps_conf2_data cfg] in
  hw_ (twi_tx (VCNL4040_ADDR cfg) reg2).

(** The loop of [read_sensor_data]: polls the proximity value while it
    is at or below the threshold. *)
Fixpoint read_sensor_data_loop (fuel : nat) : M W unit :=
  let* prox := get prox_val in
  if prox <=? PROX_THRESHOLD cfg then
    match fuel with
    | O => stall
    | S fuel' =>
        let reg3 := [VCNL4040_PS_DATA cfg; VCNL4040_ADDR cfg] in
        let* reg4 := hw (twi_txrx (VCNL4040_ADDR cfg) reg3 2) in
        let m_sample_lsb := byte_at reg4 0 in
        let m_sample_msb := byte_at reg4 1 in
        let m_sample := Z.lor (Z.shiftl m_sample_msb 8) m_sample_lsb mod 65536 in
        set_prox_val m_sample;;;
        NRF_LOG_INFO "Proximity: %d" [m_sample];;;
        read_sensor_data_loop fuel'
    end
  else ret tt.

(** [read_sensor_data]: the completion flag is cleared, then the loop
    runs. *)
Definition read_sensor_data (fuel : nat) : M W unit :=
  hw_ twi_xfer_done_clear;;;
  read_sensor_data_loop fuel.

(** *** Sampling *)

(** The locals of [main] that [sample_impact_data] works on. *)
Record sample_locals : Type := SampleLocals {
  high_g_data : adxl372.accel_data_t;
  low_g_gyro_data : icm20649.data_t;
  rtc_data : ds1388.data_t }.

(** [sample_impact_data(&high_g_data, &low_g_gyro_data, &rtc_data)] *)
Definition sample_impact_data (l : sample_locals) : M W sample_locals :=
  let* high_g := hw (adxl372_get_accel_data (high_g_data l)) in
  let* low_g := icm20649_read_gyro_accel_data in
  let low_g := icm20649_convert_data low_g in
  let* (_, rtc) := get_time in
  let* idx := get g_buf_index in
  (if (idx <? MAX_SAMPLE_BUF_LENGTH cfg)%nat then
     let* samples := get g_sample_set_buf in
     set_g_sample_set_buf (<[idx := Build_sample high_g low_g rtc]> samples);;;
     set_g_buf_index (S idx)
   else ret tt);;;
  ret (SampleLocals high_g low_g rtc).

(** *** [main] *)

(** [measurement_timer_handler] *)
Definition measurement_timer_handler : M W unit := set_g_measurement_done true.

(** Reading the volatile flag [g_measurement_done]: a timer expiry that
    is due runs its handler first. *)
Definition read_g_measurement_done : M W bool :=
  let* due := hw measurement_timer_due in
  (if due then measurement_timer_handler else ret tt);;;
  get g_measurement_done.

(** [while(g_measurement_done == false) sample_impact_data(...);] *)
Fixpoint capture_loop (fuel : nat) (l : sample_locals) : M W sample_locals :=
  let* done := read_g_measurement_done in
  if done then ret l
  else
    match fuel with
    | O => stall
    | S fuel' =>
        let* l' := sample_impact_data l in
        capture_loop fuel' l'
    end.

(** The body of the [if] in the impact-wait loop: capture, store, read
    back, report, and park. *)
Definition capture_episode (fuel : nat) (l : sample_locals) (flash_addr : Z)
  : M W unit :=
  NRF_LOG_INFO "" [];;;
  NRF_LOG_INFO "BEGIN MEASUREMENT" [];;;
  hw_ (app_timer_start (IMPACT_DURATION cfg));;;
  capture_loop fuel l;;;
  hw_ app_timer_stop;;;
  set_g_measurement_done false;;;
  mt25ql256aba_store_samples fuel flash_addr;;;
  mt25ql256aba_retrieve_samples fuel;;;
  serial_output_flash_data;;;
  wait_forever.

(** The outer [while(1)] of [main]; [polls] bounds the number of
    threshold polls the model follows. *)
Fixpoint impact_wait_loop (fuel polls : nat) (l : sample_locals)
    (flash_addr : Z) : M W unit :=
  match polls with
  | O => stall
  | S polls' =>
      hw_ (nrf_delay_ms 500);;;
      let* high_g := hw (adxl372_get_accel_data (high_g_data l)) in
      let l := SampleLocals high_g (low_g_gyro_data l) (rtc_data l) in
      if impact_threshold_met (IMPACT_G_THRESHOLD cfg) high_g
      then capture_episode fuel l flash_addr
      else impact_wait_loop fuel polls' l flash_addr
  end.

(** The start-up tests of [main], in its order. *)
Definition startup_tests : M W unit :=
  mt25ql256aba_startup_test;;;
  icm20649_read_test;;;
  icm20649_write_test;;;
  adxl372_startup_test.

(** [main], built with [USE_PROX] defined.  The locals are uninitialised
    in the source and zero in the model. *)
Definition main (fuel : nat) : M W unit :=
  hw_ board_init;;;
  NRF_LOG_INFO "SPI start" [];;;
  NRF_LOG_INFO "" [];;;
  NRF_LOG_INFO "Sensors test" [];;;
  startup_tests;;;
  icm20649_init;;;
  hw_ adxl372_init;;;
  NRF_LOG_INFO "I2C start" [];;;
  hw_ twi_init;;;
  ds_config;;;
  NRF_LOG_INFO "RTC configured" [];;;
  mt25ql256aba_erase fuel;;;
  NRF_LOG_INFO "Flash Erased" [];;;
  vcnl_config;;;
  NRF_LOG_INFO "VCNL configured" [];;;
  hw_ timers_init;;;
  let l := SampleLocals (adxl_data zero_sample) (icm_data zero_sample)
                        (ds_data zero_sample) in
  let flash_addr := MT25QL256ABA_LOW_128MBIT_SEGMENT_ADDRESS_START in
  read_sensor_data fuel;;;
  NRF_LOG_INFO "Proximity threshold met" [];;;
  NRF_LOG_INFO "Waiting for impact threshold to be met" [];;;
  impact_wait_loop fuel fuel l flash_addr.

(** ** Observations used to state the properties *)

(** [n] successive calls of [sample_impact_data], as the capture loop of
    [main] makes them while the measurement flag stays clear. *)
Fixpoint sample_times (n : nat) (l : sample_locals) : M W sample_locals :=
  match n with
  | O => ret l
  | S n' =>
      let* l' := sample_impact_data l in
      sample_times n' l'
  end.

(** The three sensor reads of one call of [sample_impact_data], with the
    low-range values left as the registers gave them. *)
Definition acquire (l : sample_locals) : M W sample_locals :=
  let* high_g := hw (adxl372_get_accel_data (high_g_data l)) in
  let* low_g := icm20649_read_gyro_accel_data in
  let* (_, rtc) := get_time in
  ret (SampleLocals high_g low_g rtc).

(** The raw readings of [n] successive acquisitions. *)
Fixpoint acquisitions (n : nat) (l : sample_locals) (m : machine W)
  : list sample_locals :=
  match n with
  | O => []
  | S n' =>
      match acquire l m with
      | (Ret r, m') => r :: acquisitions n' r m'
      | _ => []
      end
  end.

(** The record made of a raw reading by one conversion. *)
Definition converted (r : sample_locals) : impact_sample_t :=
  Build_sample (high_g_data r) (icm20649_convert_data (low_g_gyro_data r))
               (rtc_data r).

(** The sample buffer after [sample_impact_data] has offered it the
    record [s]: stored at [g_buf_index] and counted while the index is
    below [MAX_SAMPLE_BUF_LENGTH], otherwise left as it is. *)
Definition append_sample (m : machine W) (s : impact_sample_t) : machine W :=
  if (g_buf_index m <? MAX_SAMPLE_BUF_LENGTH cfg)%nat
  then with_g_buf_index
         (with_g_sample_set_buf m (<[g_buf_index m := s]> (g_sample_set_buf m)))
         (S (g_buf_index m))
  else m.

(** The page programs among the accesses to the flash bus: device address
    and data of each, in program order. *)
Definition page_program_of (e : bus_event) : option (list Z * list Z) :=
  match e with
  | FlashWrite command_code address data =>
      if command_code =? MT25QL256ABA_PAGE_PROGRAM then Some (address, data)
      else None
  | _ => None
  end.

Definition page_programs (t : list bus_event) : list (list Z * list Z) :=
  omap page_program_of t.

(** The device address of the [k]-th 32-byte slot from [base] on. *)
Definition flash_slot (base : Z) (k : nat) : list Z :=
  convert_4byte_address_to_3byte_address (uint32 (base + 32 * Z.of_nat k))
                                         [0; 0; 0].

(** The 32 bytes programmed for a record: its byte image, then the six
    bytes of the page buffer the copy does not reach, which stay zero. *)
Definition flash_image (s : impact_sample_t) : list Z :=
  sample_bytes s ++ replicate 6 0.

(** The lines [serial_output_flash_data] prints for index [i], given the
    record read back [f] and the record sampled [s]. *)
Definition record_report (i : nat) (f s : impact_sample_t) : list log_line :=
  [LOG "" []; LOG "ID = %d" [Z.of_nat i]] ++
  (if high_g_match f s then [high_g_line f] else []) ++
  (if low_g_match f s then [low_g_line f] else []) ++
  (if gyro_match f s then [gyro_line f] else []) ++
  (if rtc_match f s then [date_line f; time_line f] else []).

(** A computation that returns and touches the hardware state only. *)
Definition world_only {A} (c : M W A) : Prop :=
  forall m : machine W, exists (a : A) (w' : W), c m = (Ret a, with_world m w').

(** A computation that, however it ends, leaves the sample buffer and
    its length as they were. *)
Definition keeps_samples {A} (c : M W A) : Prop :=
  forall m : machine W,
    g_sample_set_buf (snd (c m)) = g_sample_set_buf m /\
    g_buf_index (snd (c m)) = g_buf_index m.

(** [m'] differs from [m] by accesses to the flash bus other than page
    programs, and by the hardware state. *)
Definition polled (m m' : machine W) : Prop :=
  exists (t : list bus_event) (w' : W),
    m' = with_world (with_flash_bus m (flash_bus m ++ t)) w' /\
    page_programs t = [].

(** The flash answers every ready poll within [fuel] reads of its status
    register, whatever state the machine is in. *)
Definition flash_answers_within (fuel : nat) : Prop :=
  forall m : machine W,
    exists m', mt25ql256aba_check_ready_flag fuel m = (Ret tt, m').

End Program.


(** ** A bench platform

    A small executable platform on which the program can be run: a flash
    that remembers what was programmed at each address, sensors that
    answer from a script, and one status code returned by every SPI
    transaction (a negative one makes every transfer fail and leave the
    caller's buffer as it was).  After a page program the flash reports
    busy on the next status read.  An uninitialised byte holds zero. *)
Record bench : Type := Bench {
  bench_status : Z;
  bench_flash_busy : bool;
  bench_flash_id : list Z;
  bench_flash : list (list Z * list Z);
  bench_adxl_ids : list Z;
  bench_accel : list adxl372.accel_data_t;
  bench_icm : list Z;
  bench_twi : Z;
  bench_timer : option nat }.

Definition bench_set_flash (b : bench) (busy : bool)
    (f : list (list Z * list Z)) : bench :=
  Bench (bench_status b) busy (bench_flash_id b) f (bench_adxl_ids b)
        (bench_accel b) (bench_icm b) (bench_twi b) (bench_timer b).

Definition bench_set_accel (b : bench) (a : list adxl372.accel_data_t) : bench :=
  Bench (bench_status b) (bench_flash_busy b) (bench_flash_id b)
        (bench_flash b) (bench_adxl_ids b) a (bench_icm b) (bench_twi b)
        (bench_timer b).

Definition bench_set_timer (b : bench) (t : option nat) : bench :=
  Bench (bench_status b) (bench_flash_busy b) (bench_flash_id b)
        (bench_flash b) (bench_adxl_ids b) (bench_accel b) (bench_icm b)
        (bench_twi b) t.

Definition list_Z_eqb (a b : list Z) : bool :=
  bool_decide (a = b).

Fixpoint bench_lookup (f : list (list Z * list Z)) (address : list Z)
  : option (list Z) :=
  match f with
  | [] => None
  | (a, d) :: f' => if list_Z_eqb a address then Some d else bench_lookup f' address
  end.

Definition bench_read_op (command_code : Z) (address reg_data : list Z)
    (b : bench) : (Z * list Z) * bench :=
  if bench_status b <? 0 then ((bench_status b, reg_data), b)
  else if command_code =? 0x05 then
    if bench_flash_busy b
    then ((bench_status b, [1]), bench_set_flash b false (bench_flash b))
    else ((bench_status b, [0]), b)
  else if command_code =? 0x9E then ((bench_status b, bench_flash_id b), b)
  else if command_code =? 0x03 then
    match bench_lookup (bench_flash b) address with
    | Some d => ((bench_status b, memcpy reg_data d (length reg_data)), b)
    | None => ((bench_status b, replicate (length reg_data) 0xFF), b)
    end
  else ((bench_status b, reg_data), b).

Definition bench_write_op (command_code : Z) (address data : list Z)
    (b : bench) : Z * bench :=
  if bench_status b <? 0 then (bench_status b, b)
  else if command_code =? 0x02
  then (bench_status b, bench_set_flash b true ((address, data) :: bench_flash b))
  else (bench_status b, b).

Definition bench_spi (cs : Z) (tx rx : list Z) (b : bench) : (Z * list Z) * bench :=
  if bench_status b <? 0 then ((bench_status b, rx), b)
  else
    match tx with
    | [a] =>
        if a =? 0x80 then ((bench_status b, [0; 0xE1]), b)
        else if a =? 0x86 then ((bench_status b, [0; 0x01]), b)
        else ((bench_status b, memcpy rx (0 :: bench_icm b) (length rx)), b)
    | _ => ((bench_status b, rx), b)
    end.

Definition bench_get_accel (old : adxl372.accel_data_t) (b : bench)
  : adxl372.accel_data_t * bench :=
  match bench_accel b with
  | [] => (old, b)
  | a :: rest => (a, bench_set_accel b rest)
  end.

Definition bench_timer_due (b : bench) : bool * bench :=
  match bench_timer b with
  | None => (false, b)
  | Some O => (true, bench_set_timer b None)
  | Some (S k) => (false, bench_set_timer b (Some k))
  end.

#[export] Instance bench_platform : Platform bench := {|
  spi_write_and_read := bench_spi;
  mt25ql256aba_read_op := bench_read_op;
  mt25ql256aba_write_op := bench_write_op;
  mt25ql256aba_write_enable := fun b => (bench_status b, b);
  mt25ql256aba_write_disable := fun b => (bench_status b, b);
  adxl372_get_accel_data := bench_get_accel;
  adxl372_get_dev_ID := fun b => (byte_at (bench_adxl_ids b) 0, b);
  adxl372_read_reg := fun reg old b =>
    if bench_status b <? 0 then ((bench_status b, old), b)
    else ((bench_status b, byte_at (bench_adxl_ids b) (Z.to_nat reg)), b);
  adxl372_init := fun b => b;
  twi_txrx := fun dev tx n b => (replicate n (bench_twi b), b);
  twi_tx := fun dev tx b => b;
  board_init := fun b => b;
  twi_init := fun b => b;
  timers_init := fun b => b;
  app_timer_start := fun ms b => bench_set_timer b (Some (Z.to_nat ms));
  app_timer_stop := fun b => bench_set_timer b None;
  measurement_timer_due := bench_timer_due;
  nrf_delay_ms := fun ms b => b;
  twi_xfer_done_clear := fun b => b;
  uninitialised_uint8 := fun b => 0 |}.

(** The constants as the comments of the sources give them: a 30 g
    impact threshold, identity values 0xAD, 0x1D and 0xFA in the ADXL372
    registers 0, 1 and 2, the VCNL4040 configuration bytes of
    vcnl4040.c.  The buffer length and the window are bench values. *)
Definition bench_config (capacity : nat) (window : Z) : config := {|
  MAX_SAMPLE_BUF_LENGTH := capacity;
  IMPACT_G_THRESHOLD := 30;
  IMPACT_DURATION := window;
  PROX_THRESHOLD := 10;
  ADI_ADXL372_MST_DEVID := 0x01;
  ADI_ADXL372_DEVID := 0x02;
  ADI_ADXL372_ADI_DEVID_VAL := 0xAD;
  ADI_ADXL372_MST_DEVID_VAL := 0x1D;
  ADI_ADXL372_DEVID_VAL := 0xFA;
  VCNL4040_ADDR := 0x60;
  VCNL4040_PS_CONF1 := 0x03;
  VCNL4040_PS_CONF3 := 0x04;
  VCNL4040_PS_DATA := 0x08;
  ps_conf1_data := 0x0E;
  ps_conf2_data := 0x08;
  ps_conf3_data := 0x10;
  ps_ms_data := 0x07;
  init_time := [20; 1; 1; 3; 0; 0; 0; 0];
  time_format := 0 |}.

(** The machine at reset: both record arrays zeroed, over the hardware
    state [w]. *)
Definition reset_machine {W} (cfg : config) (w : W) : machine W :=
  Machine (replicate (MAX_SAMPLE_BUF_LENGTH cfg) zero_sample)
          (replicate (MAX_SAMPLE_BUF_LENGTH cfg) zero_sample)
          0%nat false 0 [] [] w.

(** A healthy bench: every transfer succeeds, every identity register
    holds its expected value; [accel] is the script of high-range
    readings. *)
Definition healthy_bench (accel : list adxl372.accel_data_t) : bench :=
  Bench 0 false [0x20; 0xBA; 0x19] [] [0xAD; 0x1D; 0xFA] accel
        [0x04; 0x00; 0xFC; 0x00; 0x00; 0x10; 0x00; 0x64; 0xFF; 0x9C; 0x7F; 0xFF]
        0x12 None.

(** ** A bus that dies

    The flash answers one status read, with its busy bit set, and from
    then on every transfer on the bus fails with status -1 and leaves
    the caller's buffer as it was.  The state is whether the bus is
    still alive.  An uninitialised byte holds zero while it is, and
    0xFF once it is dead. *)
#[export] Instance dying_bus_platform : Platform bool := {|
  spi_write_and_read := fun cs tx rx alive => ((-1, rx), alive);
  mt25ql256aba_read_op := fun c a d alive =>
    if alive && (c =? 0x05) then ((0, [1]), false) else ((-1, d), alive);
  mt25ql256aba_write_op := fun c a d alive => (-1, alive);
  mt25ql256aba_write_enable := fun alive => (-1, alive);
  mt25ql256aba_write_disable := fun alive => (-1, alive);
  adxl372_get_accel_data := fun old alive => (old, alive);
  adxl372_get_dev_ID := fun alive => (0, alive);
  adxl372_read_reg := fun reg old alive => ((-1, old), alive);
  adxl372_init := fun alive => alive;
  twi_txrx := fun dev tx n alive => (replicate n 0, alive);
  twi_tx := fun dev tx alive => alive;
  board_init := fun alive => alive;
  twi_init := fun alive => alive;
  timers_init := fun alive => alive;
  app_timer_start := fun ms alive => alive;
  app_timer_stop := fun alive => alive;
  measurement_timer_due := fun alive => (true, alive);
  nrf_delay_ms := fun ms alive => alive;
  twi_xfer_done_clear := fun alive => alive;
  uninitialised_uint8 := fun alive => if alive then 0 else 0xFF |}.

(** ** Further functions and observations *)

(** The two bytes of a 16-bit register pair of the ICM20649, high byte
    first. *)
Definition register_pair (v : Z) : list Z :=
  [Z.land (Z.shiftr v 8) 255; Z.land v 255].

(** A byte holding two decimal digits, one per nibble. *)
Definition is_bcd (b : Z) : Prop :=
  0 <= b < 256 /\ Z.shiftr b 4 <= 9 /\ Z.land b 15 <= 9.

(** A read of the flash status register, as [mt25ql256aba_check_ready_flag]
    issues it. *)
Definition status_read : bus_event := FlashRead 0x05 [] 1.

(** The memory reads among the accesses to the flash bus: device address
    and length of each, in program order. *)
Definition flash_read_of (e : bus_event) : option (list Z * nat) :=
  match e with
  | FlashRead command_code address rx_num_bytes =>
      if command_code =? 0x03 then Some (address, rx_num_bytes) else None
  | _ => None
  end.

Definition flash_reads (t : list bus_event) : list (list Z * nat) :=
  omap flash_read_of t.

(** The report of a record whose four groups all match. *)
Definition full_report (i : nat) (f : impact_sample_t) : list log_line :=
  [LOG "" []; LOG "ID = %d" [Z.of_nat i];
   high_g_line f; low_g_line f; gyro_line f; date_line f; time_line f].

(** The lines [mt25ql256aba_store_samples] prints for record [k] when
    the read back returns the record [s] that was stored. *)
Definition store_report (base : Z) (k : nat) (s : impact_sample_t)
  : list log_line :=
  [ LOG "" [];
    LOG "WRITE: ID: %d, addr: 0x%03x"
        [Z.of_nat k; uint32 (base + 32 * Z.of_nat k)];
    LOG "READ:  ID: %d, addr: 0x%03x, OUTPUT: %d (%d)"
        [Z.of_nat k; uint32 (base + 32 * Z.of_nat k);
         adxl372.x (adxl_data s); adxl372.x (adxl_data s)] ].

(** The line [mt25ql256aba_retrieve_samples] prints for record [k]: the
    record read [f] and the record sampled [s]. *)
Definition retrieve_line (k : nat) (f s : impact_sample_t) : log_line :=
  LOG "READ: ID: %d, addr: 0x%03x, OUTPUT: %d (%d)"
      [Z.of_nat k; uint32 (32 * Z.of_nat k);
       adxl372.x (adxl_data f); adxl372.x (adxl_data s)].

(** A record for the bench. *)
Definition bench_sample : impact_sample_t :=
  Build_sample (adxl372.Build 5 (-6) 7) (icm20649.Build 1 2 3 (-4) 5 6)
               (ds1388.Build 20 1 2 3 4 5 6 7).

(** A platform that is nothing but a DS1388 register file: a TWI
    write-then-read returns the registers from the one addressed on, a
    TWI write stores its bytes from the register addressed on, every SPI
    transfer fails. *)
Definition registers_from (regs : Z -> Z) (r : Z) (n : nat) : list Z :=
  map (fun k => regs (r + Z.of_nat k)) (seq 0 n).

Fixpoint registers_write (regs : Z -> Z) (r : Z) (data : list Z) : Z -> Z :=
  match data with
  | [] => regs
  | b :: data' =>
      registers_write (fun k => if k =? r then b else regs k) (r + 1) data'
  end.

#[export] Instance register_file_platform : Platform (Z -> Z) := {|
  spi_write_and_read := fun cs tx rx regs => ((-1, rx), regs);
  mt25ql256aba_read_op := fun c a d regs => ((-1, d), regs);
  mt25ql256aba_write_op := fun c a d regs => (-1, regs);
  mt25ql256aba_write_enable := fun regs => (-1, regs);
  mt25ql256aba_write_disable := fun regs => (-1, regs);
  adxl372_get_accel_data := fun old regs => (old, regs);
  adxl372_get_dev_ID := fun regs => (0, regs);
  adxl372_read_reg := fun reg old regs => ((-1, old), regs);
  adxl372_init := fun regs => regs;
  twi_txrx := fun dev tx n regs => (registers_from regs (byte_at tx 0) n, regs);
  twi_tx := fun dev tx regs => registers_write regs (byte_at tx 0) (drop 1 tx);
  board_init := fun regs => regs;
  twi_init := fun regs => regs;
  timers_init := fun regs => regs;
  app_timer_start := fun ms regs => regs;
  app_timer_stop := fun regs => regs;
  measurement_timer_due := fun regs => (true, regs);
  nrf_delay_ms := fun ms regs => regs;
  twi_xfer_done_clear := fun regs => regs;
  uninitialised_uint8 := fun regs => 0 |}.

(** The DS1388 registers holding the time [t] the way [ds_config] writes
    a time: every field as packed decimal digits, the hour register
    carrying the format bits [hour_flags] as well. *)
Definition ds1388_registers (t : ds1388.data_t) (hour_flags : Z) : Z -> Z :=
  fun r =>
    if r =? ds1388.HUNDRED_SEC_REG then dec2hex (ds1388.hundreth t)
    else if r =? ds1388.SEC_REG then dec2hex (ds1388.second t)
    else if r =? ds1388.MIN_REG then dec2hex (ds1388.minute t)
    else if r =? ds1388.HOUR_REG
         then uint8 (Z.lor (dec2hex (ds1388.hour t)) hour_flags)
    else if r =? ds1388.DAY_REG then dec2hex (ds1388.day t)
    else if r =? ds1388.DATE_REG then dec2hex (ds1388.date t)
    else if r =? ds1388.MONTH_REG then dec2hex (ds1388.month t)
    else if r =? ds1388.YEAR_REG then dec2hex (ds1388.year t)
    else 0.

(** What [get_time] makes of the contents [regs] of the clock registers:
    the hour-mode code and the time. *)
Definition time_of_registers (regs : Z -> Z) : Z * ds1388.data_t :=
  let hour := regs ds1388.HOUR_REG in
  if Z.land hour 0x40 =? ds1388.HOUR_MODE_24
  then (2, ds1388.Build (hex2dec (regs ds1388.YEAR_REG))
                        (hex2dec (regs ds1388.MONTH_REG))
                        (hex2dec (regs ds1388.DATE_REG))
                        (regs ds1388.DAY_REG)
                        (hex2dec hour)
                        (hex2dec (regs ds1388.MIN_REG))
                        (hex2dec (regs ds1388.SEC_REG))
                        (hex2dec (regs ds1388.HUNDRED_SEC_REG)))
  else (Z.shiftr (Z.land hour 0x20) 5,
        ds1388.Build (hex2dec (regs ds1388.YEAR_REG))
                     (hex2dec (regs ds1388.MONTH_REG))
                     (hex2dec (regs ds1388.DATE_REG))
                     (regs ds1388.DAY_REG)
                     (hex2dec (Z.land hour 0x1F))
                     (hex2dec (regs ds1388.MIN_REG))
                     (hex2dec (regs ds1388.SEC_REG))
                     (hex2dec (regs ds1388.HUNDRED_SEC_REG))).

Section MoreObservations.

Context {W : Type} `{Platform W}.

(** On the hardware states of [P], which the reads do not leave, a
    one-byte read of clock register [r] returns [regs r]. *)
Definition clock_holds (P : W -> Prop) (regs : Z -> Z) : Prop :=
  forall (r : Z) (w : W),
    P w ->
    fst (twi_txrx DS1388_ADDRESS [r] 1 w) = [regs r] /\
    P (snd (twi_txrx DS1388_ADDRESS [r] 1 w)).

(** A computation that never returns: it parks the core or is still
    running when the model stops following it. *)
Definition never_returns {A} (c : M W A) : Prop :=
  forall (m : machine W) (a : A), fst (c m) <> Ret a.

(** The hardware state after one read of the flash status register
    into a byte holding [b]. *)
Definition status_poll (b : Z) (w : W) : W :=
  snd (mt25ql256aba_read_op 0x05 [] [b] w).

(** The hardware state after [k] reads of one ready poll: the first read
    is handed the byte [b], every later one the masked busy bit 1 that
    made the loop go round. *)
Fixpoint polled_world (k : nat) (b : Z) (w : W) : W :=
  match k with
  | O => w
  | S k' => polled_world k' 1 (status_poll b w)
  end.

(** On the hardware states of [P], which no status read leaves, every
    read of the status register fails: it returns a negative status and
    leaves the caller's byte as it was. *)
Definition status_reads_fail (P : W -> Prop) : Prop :=
  forall (b : Z) (w : W), P w ->
    fst (fst (mt25ql256aba_read_op 0x05 [] [b] w)) < 0 /\
    snd (fst (mt25ql256aba_read_op 0x05 [] [b] w)) = [b] /\
    P (snd (mt25ql256aba_read_op 0x05 [] [b] w)).

(** A flash that remembers: on the hardware states of [inv], which no
    flash access leaves, [stored w a] is the data last programmed at the
    device address [a]; status reads, write enable and write disable do
    not change it, a page program records its data at its address and
    leaves the other addresses alone, and a memory read at an address
    holding data fills the buffer with the first bytes of that data. *)
Record remembering_flash (inv : W -> Prop)
    (stored : W -> list Z -> option (list Z)) : Prop := RememberingFlash {
  rf_poll :
    forall b w, inv w ->
      inv (status_poll b w) /\
      forall a, stored (status_poll b w) a = stored w a;
  rf_write_enable :
    forall w, inv w ->
      inv (snd (mt25ql256aba_write_enable w)) /\
      forall a, stored (snd (mt25ql256aba_write_enable w)) a = stored w a;
  rf_write_disable :
    forall w, inv w ->
      inv (snd (mt25ql256aba_write_disable w)) /\
      forall a, stored (snd (mt25ql256aba_write_disable w)) a = stored w a;
  rf_program :
    forall w a d, inv w ->
      inv (snd (mt25ql256aba_write_op 0x02 a d w)) /\
      stored (snd (mt25ql256aba_write_op 0x02 a d w)) a = Some d /\
      forall a', a' <> a ->
        stored (snd (mt25ql256aba_write_op 0x02 a d w)) a' = stored w a';
  rf_read :
    forall w a buf d, inv w -> stored w a = Some d ->
      (length buf <= length d)%nat ->
      inv (snd (mt25ql256aba_read_op 0x03 a buf w)) /\
      (forall a', stored (snd (mt25ql256aba_read_op 0x03 a buf w)) a' =
                  stored w a') /\
      snd (fst (mt25ql256aba_read_op 0x03 a buf w)) = take (length buf) d }.

End MoreObservations.

(** * Properties *)

(** ** Address codec *)

Lemma land_255 (v : Z) : Z.land v 255 = v mod 256.
Proof. change 255 with (Z.ones 8). rewrite Z.land_ones by lia. reflexivity. Qed.

Lemma uint32_bytes_div (v : Z) :
  uint32_bytes v =
  [v mod 256; (v / 256) mod 256; (v / 65536) mod 256; (v / 16777216) mod 256].
Proof.
  unfold uint32_bytes. rewrite !land_255, !Z.shiftr_div_pow2 by lia.
  reflexivity.
Qed.

Lemma convert_address_bytes (A : Z) (buf : list Z) :
  length buf = 3%nat ->
  convert_4byte_address_to_3byte_address A buf =
  [(A / 65536) mod 256; (A / 256) mod 256; A mod 256].
Proof.
  intros Hlen.
  destruct buf as [|b0 [|b1 [|b2 [|b3 buf]]]]; try discriminate Hlen.
  unfold convert_4byte_address_to_3byte_address.
  rewrite uint32_bytes_div. reflexivity.
Qed.

Lemma convert_address_length (A : Z) (buf : list Z) :
  length (convert_4byte_address_to_3byte_address A buf) = length buf.
Proof.
  unfold convert_4byte_address_to_3byte_address. cbv zeta.
  rewrite !length_insert. reflexivity.
Qed.

Lemma low_24_bits_bytes (v : Z) :
  [(v / 65536) mod 256; (v / 256) mod 256; v mod 256] =
  [(v mod 2 ^ 24) / 2 ^ 16; (v mod 2 ^ 24) / 2 ^ 8 mod 2 ^ 8;
   v mod 2 ^ 24 mod 2 ^ 8].
Proof.
  change (2 ^ 24) with 16777216. change (2 ^ 16) with 65536.
  change (2 ^ 8) with 256.
  pose proof (Z.div_mod v 16777216 ltac:(lia)) as E.
  pose proof (Z.mod_pos_bound v 16777216 ltac:(lia)) as Hb.
  generalize dependent (v mod 16777216). generalize dependent (v / 16777216).
  intros q r E Hb.
  assert (H1 : v / 65536 = q * 256 + r / 65536).
  { rewrite E. replace (16777216 * q + r) with (r + q * 256 * 65536) by lia.
    rewrite Z.div_add by lia. lia. }
  assert (H2 : v / 256 = q * 65536 + r / 256).
  { rewrite E. replace (16777216 * q + r) with (r + q * 65536 * 256) by lia.
    rewrite Z.div_add by lia. lia. }
  assert (H3 : v mod 256 = r mod 256).
  { rewrite E. replace (16777216 * q + r) with (r + q * 65536 * 256) by lia.
    apply Z.mod_add. lia. }
  rewrite H1, H2, H3.
  f_equal; [| f_equal].
  - rewrite Z.add_comm, Z.mod_add by lia.
    apply Z.mod_small. split; [apply Z.div_pos; lia|].
    apply Z.div_lt_upper_bound; lia.
  - rewrite Z.add_comm.
    replace (q * 65536) with (q * 256 * 256) by lia.
    rewrite Z.mod_add by lia. reflexivity.
Qed.

(** C2.  For every 32-bit address [A], the three bytes written by
    [convert_4byte_address_to_3byte_address] are the low 24 bits of [A],
    most significant byte first, the top byte of [A] being dropped; read
    back as a device address they give [A mod 2^24]; and two addresses
    with the same low 24 bits give the same three bytes. *)
Theorem address_codec_low_24_bits (A : Z) (buf : list Z) :
  is_uint32 A ->
  length buf = 3%nat ->
  convert_4byte_address_to_3byte_address A buf =
    [(A mod 2 ^ 24) / 2 ^ 16; (A mod 2 ^ 24) / 2 ^ 8 mod 2 ^ 8;
     A mod 2 ^ 24 mod 2 ^ 8]
  /\ device_address (convert_4byte_address_to_3byte_address A buf) = A mod 2 ^ 24
  /\ (forall B : Z,
        is_uint32 B -> B mod 2 ^ 24 = A mod 2 ^ 24 ->
        convert_4byte_address_to_3byte_address B buf =
        convert_4byte_address_to_3byte_address A buf).
Proof.
  intros HA Hlen.
  rewrite convert_address_bytes by exact Hlen.
  split; [apply low_24_bits_bytes|]. split.
  - unfold device_address, byte_at.
    cbn [lookup list_lookup default id from_option].
    change (2 ^ 24) with 16777216.
    pose proof (Z.div_mod A 256 ltac:(lia)) as E2.
    pose proof (Z.div_mod (A / 256) 256 ltac:(lia)) as E3.
    rewrite Z.div_div in E3 by lia. change (256 * 256) with 65536 in E3.
    pose proof (Z.div_mod (A / 65536) 256 ltac:(lia)) as E4.
    rewrite Z.div_div in E4 by lia. change (65536 * 256) with 16777216 in E4.
    pose proof (Z.div_mod A 16777216 ltac:(lia)) as E5.
    lia.
  - intros B HB HAB. rewrite convert_address_bytes by exact Hlen.
    rewrite (low_24_bits_bytes B), (low_24_bits_bytes A), HAB. reflexivity.
Qed.

(** The address 0x01ABCDEF of the high segment yields AB CD EF, as does
    0x00ABCDEF of the low segment. *)
Lemma address_codec_low_24_bits_witness :
  convert_4byte_address_to_3byte_address 0x01ABCDEF [0; 0; 0] = [0xAB; 0xCD; 0xEF]
  /\ device_address (convert_4byte_address_to_3byte_address 0x01ABCDEF [0; 0; 0])
     = 0xABCDEF
  /\ convert_4byte_address_to_3byte_address 0x00ABCDEF [0; 0; 0] =
     convert_4byte_address_to_3byte_address 0x01ABCDEF [0; 0; 0].
Proof.
  destruct (address_codec_low_24_bits 0x01ABCDEF [0; 0; 0]) as (H1 & H2 & H3).
  - unfold is_uint32. lia.
  - reflexivity.
  - split; [exact H1|]. split; [exact H2|].
    apply H3; [unfold is_uint32; lia | reflexivity].
Defined.

(** ** Timestamp codec *)

(** C9.  On the two-digit range the BCD codecs are mutually inverse:
    [hex2dec (dec2hex v) = v] for every [v] from 0 to 99. *)
Theorem timestamp_codec_inverse (v : Z) :
  0 <= v <= 99 -> hex2dec (dec2hex v) = v.
Proof.
  intros Hv. unfold hex2dec, dec2hex, uint8.
  pose proof (Z.div_mod v 10 ltac:(lia)) as E.
  pose proof (Z.mod_pos_bound v 10 ltac:(lia)) as Hr.
  assert (Hq : 0 <= v / 10 <= 9).
  { split; [apply Z.div_pos; lia|].
    enough (v / 10 < 10) by lia. apply Z.div_lt_upper_bound; lia. }
  generalize dependent (v mod 10). generalize dependent (v / 10).
  intros q Hq r E Hr.
  replace (v + 6 * q) with (r + q * 16) by lia.
  rewrite (Z.mod_small (r + q * 16)) by lia.
  rewrite Z.shiftr_div_pow2 by lia. change (2 ^ 4) with 16.
  rewrite Z.div_add by lia. rewrite Z.div_small by lia.
  rewrite Z.mod_small by lia. lia.
Qed.

(** 59 is written as 0x59 and read back as 59. *)
Lemma timestamp_codec_inverse_witness :
  dec2hex 59 = 0x59 /\ hex2dec (dec2hex 59) = 59.
Proof.
  split; [reflexivity|]. apply (timestamp_codec_inverse 59). lia.
Defined.

(** ** Running programs *)

Section Running.

Context {W : Type} `{Platform W}.

Lemma bind_run {A B} (c : M W A) (k : A -> M W B) (m m' : machine W) (a : A) :
  c m = (Ret a, m') -> bind c k m = k a m'.
Proof. intros E. unfold bind. rewrite E. reflexivity. Qed.

Lemma bind_halt {A B} (c : M W A) (k : A -> M W B) (m m' : machine W) :
  c m = (Halt, m') -> bind c k m = (Halt, m').
Proof. intros E. unfold bind. rewrite E. reflexivity. Qed.

Lemma bind_stall {A B} (c : M W A) (k : A -> M W B) (m m' : machine W) :
  c m = (Stall, m') -> bind c k m = (Stall, m').
Proof. intros E. unfold bind. rewrite E. reflexivity. Qed.

End Running.

(** Projections of an explicit machine. *)
Ltac machine_simpl :=
  cbn [g_sample_set_buf g_flash_output_buf g_buf_index g_measurement_done
       prox_val nrf_log flash_bus world
       with_world with_flash_bus with_nrf_log with_g_sample_set_buf
       with_g_flash_output_buf with_g_buf_index with_g_measurement_done
       with_prox_val] in *.

(** ** Impact wait *)

Section ImpactWait.

Context {W : Type} `{Platform W}.
Variable cfg : config.

Lemma impact_threshold_met_true (T : Z) (r : adxl372.accel_data_t) :
  impact_threshold_met T r = true <->
  T <= Z.abs (adxl372.x r) \/ T <= Z.abs (adxl372.y r) \/ T <= Z.abs (adxl372.z r).
Proof.
  unfold impact_threshold_met.
  rewrite !orb_true_iff, !Z.leb_le. tauto.
Qed.

Lemma impact_threshold_met_false (T : Z) (r : adxl372.accel_data_t) :
  impact_threshold_met T r = false <->
  Z.abs (adxl372.x r) < T /\ Z.abs (adxl372.y r) < T /\ Z.abs (adxl372.z r) < T.
Proof.
  unfold impact_threshold_met.
  rewrite !orb_false_iff, !Z.leb_gt. tauto.
Qed.

(** C8, as the code has it.  One poll of the impact-wait loop reads the
    high-range accelerometer after the 500 ms delay; either some axis has
    an absolute value greater than or equal to the threshold and the loop
    goes on to the capture episode, or every axis is strictly below the
    threshold and the loop polls again. *)
Theorem impact_wait_transition (fuel polls : nat) (l : sample_locals)
    (flash_addr : Z) (m : machine W) :
  let reading :=
    adxl372_get_accel_data (high_g_data l) (nrf_delay_ms 500 (world m)) in
  let r := fst reading in
  let l1 := SampleLocals r (low_g_gyro_data l) (rtc_data l) in
  let m1 := with_world m (snd reading) in
  let T := IMPACT_G_THRESHOLD cfg in
  ((T <= Z.abs (adxl372.x r) \/ T <= Z.abs (adxl372.y r) \/
    T <= Z.abs (adxl372.z r))
   /\ impact_wait_loop cfg fuel (S polls) l flash_addr m =
      capture_episode cfg fuel l1 flash_addr m1)
  \/
  ((Z.abs (adxl372.x r) < T /\ Z.abs (adxl372.y r) < T /\
    Z.abs (adxl372.z r) < T)
   /\ impact_wait_loop cfg fuel (S polls) l flash_addr m =
      impact_wait_loop cfg fuel polls l1 flash_addr m1).
Proof.
  intros reading r l1 m1 T.
  assert (Hstep : impact_wait_loop cfg fuel (S polls) l flash_addr m =
            (if impact_threshold_met T r
             then capture_episode cfg fuel l1 flash_addr
             else impact_wait_loop cfg fuel polls l1 flash_addr) m1).
  { destruct m; reflexivity. }
  rewrite Hstep.
  destruct (impact_threshold_met T r) eqn:Hmet.
  - left. split; [apply impact_threshold_met_true; exact Hmet | reflexivity].
  - right. split; [apply impact_threshold_met_false; exact Hmet | reflexivity].
Qed.

End ImpactWait.

(** A reading of 31 against a threshold of 30 takes the loop into the
    capture episode. *)
Lemma impact_wait_transition_witness :
  let cfg := bench_config 4 3 in
  let r := adxl372.Build 31 0 0 in
  let l := SampleLocals (adxl_data zero_sample) (icm_data zero_sample)
                        (ds_data zero_sample) in
  let m := reset_machine cfg (healthy_bench [r]) in
  impact_wait_loop cfg 8 1 l 0 m =
  capture_episode cfg 8 (SampleLocals r (low_g_gyro_data l) (rtc_data l)) 0
                  (reset_machine cfg (healthy_bench [])).
Proof.
  cbv zeta.
  destruct (impact_wait_transition (bench_config 4 3) 8 0
              (SampleLocals (adxl_data zero_sample) (icm_data zero_sample)
                            (ds_data zero_sample))
              0 (reset_machine (bench_config 4 3)
                               (healthy_bench [adxl372.Build 31 0 0])))
    as [[_ E]|[[Hx _] _]].
  - exact E.
  - exfalso. cbn in Hx. lia.
Defined.

(** A reading of exactly 30 on one axis, against a threshold of 30: no
    axis exceeds the threshold, and the single poll allowed still leaves
    the wait loop, announces the measurement and captures records. *)
Lemma impact_wait_at_threshold_counterexample :
  let cfg := bench_config 4 3 in
  let r := adxl372.Build 30 0 0 in
  let l := SampleLocals (adxl_data zero_sample) (icm_data zero_sample)
                        (ds_data zero_sample) in
  let run := impact_wait_loop cfg 8 1 l 0 (reset_machine cfg (healthy_bench [r; r; r])) in
  ~ (IMPACT_G_THRESHOLD cfg < Z.abs (adxl372.x r) \/
     IMPACT_G_THRESHOLD cfg < Z.abs (adxl372.y r) \/
     IMPACT_G_THRESHOLD cfg < Z.abs (adxl372.z r))
  /\ fst run = Halt
  /\ nrf_log (snd run) !! 1%nat = Some (LOG "BEGIN MEASUREMENT" [])
  /\ g_buf_index (snd run) = 3%nat.
Proof.
  cbv zeta. split.
  - cbn. lia.
  - split; [vm_compute; reflexivity|]. split; vm_compute; reflexivity.
Qed.

(** ** Verification report *)

Section Report.

Context {W : Type} `{Platform W}.

Lemma high_g_match_true (f s : impact_sample_t) :
  high_g_match f s = true <-> adxl_data f = adxl_data s.
Proof.
  unfold high_g_match. destruct (adxl_data f), (adxl_data s). cbn.
  rewrite !andb_true_iff, !Z.eqb_eq. split.
  - intros [[-> ->] ->]. reflexivity.
  - intros E. injection E as -> -> ->. auto.
Qed.

Lemma low_g_match_true (f s : impact_sample_t) :
  low_g_match f s = true <->
  icm20649.accel_x (icm_data f) = icm20649.accel_x (icm_data s) /\
  icm20649.accel_y (icm_data f) = icm20649.accel_y (icm_data s) /\
  icm20649.accel_z (icm_data f) = icm20649.accel_z (icm_data s).
Proof.
  unfold low_g_match. rewrite !andb_true_iff, !Z.eqb_eq. tauto.
Qed.

Lemma gyro_match_true (f s : impact_sample_t) :
  gyro_match f s = true <->
  icm20649.gyro_x (icm_data f) = icm20649.gyro_x (icm_data s) /\
  icm20649.gyro_y (icm_data f) = icm20649.gyro_y (icm_data s) /\
  icm20649.gyro_z (icm_data f) = icm20649.gyro_z (icm_data s).
Proof.
  unfold gyro_match. rewrite !andb_true_iff, !Z.eqb_eq. tauto.
Qed.

Lemma rtc_match_true (f s : impact_sample_t) :
  rtc_match f s = true <-> ds_data f = ds_data s.
Proof.
  unfold rtc_match. destruct (ds_data f), (ds_data s). cbn.
  rewrite !andb_true_iff, !Z.eqb_eq. split.
  - intros [[[[[[[-> ->] ->] ->] ->] ->] ->] ->]. reflexivity.
  - intros E. injection E as -> -> -> -> -> -> -> ->. repeat split.
Qed.

(** A computation that returns after printing the lines [ls]. *)
Lemma prints_line (l : log_line) (m : machine W) :
  log_line_of l m = (Ret tt, with_nrf_log m (nrf_log m ++ [l])).
Proof. destruct l. reflexivity. Qed.

Lemma prints_when (b : bool) (c : M W unit) (ls : list log_line) :
  (forall m, c m = (Ret tt, with_nrf_log m (nrf_log m ++ ls))) ->
  forall m,
    (if b then c else ret tt) m =
    (Ret tt, with_nrf_log m (nrf_log m ++ (if b then ls else []))).
Proof.
  intros Hc m. destruct b; [apply Hc|].
  rewrite app_nil_r. destruct m; reflexivity.
Qed.

Lemma prints_then (c1 c2 : M W unit) (l1 l2 : list log_line) :
  (forall m, c1 m = (Ret tt, with_nrf_log m (nrf_log m ++ l1))) ->
  (forall m, c2 m = (Ret tt, with_nrf_log m (nrf_log m ++ l2))) ->
  forall m,
    bind c1 (fun _ => c2) m = (Ret tt, with_nrf_log m (nrf_log m ++ l1 ++ l2)).
Proof.
  intros H1 H2 m. rewrite (bind_run _ _ _ _ _ (H1 m)), H2.
  destruct m; machine_simpl. rewrite <- app_assoc. reflexivity.
Qed.

Lemma output_sample_run (i : nat) (m : machine W) :
  output_sample i m =
  (Ret tt,
   with_nrf_log m
     (nrf_log m ++
      record_report i (sample_at (g_flash_output_buf m) i)
                      (sample_at (g_sample_set_buf m) i))).
Proof.
  unfold output_sample, record_report.
  erewrite bind_run by reflexivity.
  erewrite bind_run by reflexivity.
  erewrite bind_run by reflexivity.
  erewrite bind_run by reflexivity.
  machine_simpl.
  generalize (sample_at (g_flash_output_buf m) i)
             (sample_at (g_sample_set_buf m) i).
  intros f s.
  rewrite (prints_then _ _
             (if high_g_match f s then [high_g_line f] else [])
             ((if low_g_match f s then [low_g_line f] else []) ++
              (if gyro_match f s then [gyro_line f] else []) ++
              (if rtc_match f s then [date_line f; time_line f] else []))).
  - destruct m; machine_simpl. rewrite <- !app_assoc. reflexivity.
  - apply prints_when, prints_line.
  - apply prints_then; [apply prints_when, prints_line|].
    apply prints_then; [apply prints_when, prints_line|].
    apply prints_when.
    apply (prints_then _ _ [date_line f] [time_line f]); apply prints_line.
Qed.

Lemma output_loop_run (count i : nat) (m : machine W) :
  output_loop i count m =
  (Ret tt,
   with_nrf_log m
     (nrf_log m ++
      concat (map (fun j => record_report j (sample_at (g_flash_output_buf m) j)
                                            (sample_at (g_sample_set_buf m) j))
                  (seq i count)))).
Proof.
  revert i m. induction count as [|count IH]; intros i m.
  - cbn. rewrite app_nil_r. destruct m; reflexivity.
  - cbn [output_loop seq map concat].
    rewrite (bind_run _ _ _ _ _ (output_sample_run i m)).
    rewrite IH. destruct m; cbn. rewrite <- app_assoc. reflexivity.
Qed.

Lemma record_report_lines (i : nat) (f s : impact_sample_t) :
  In (LOG "ID = %d" [Z.of_nat i]) (record_report i f s)
  /\ (In (high_g_line f) (record_report i f s) <-> high_g_match f s = true)
  /\ (In (low_g_line f) (record_report i f s) <-> low_g_match f s = true)
  /\ (In (gyro_line f) (record_report i f s) <-> gyro_match f s = true)
  /\ (In (date_line f) (record_report i f s) <-> rtc_match f s = true)
  /\ (In (time_line f) (record_report i f s) <-> rtc_match f s = true).
Proof.
  unfold record_report, high_g_line, low_g_line, gyro_line, date_line, time_line.
  destruct (high_g_match f s), (low_g_match f s), (gyro_match f s),
    (rtc_match f s);
    cbn [app In];
    (split; [tauto|]);
    repeat split; intros Hin;
    first
      [ reflexivity
      | discriminate Hin
      | solve [repeat (first [left; reflexivity | right])]
      | exfalso;
        repeat (destruct Hin as [Hin|Hin]; [discriminate Hin|]);
        exact Hin ].
Qed.

Lemma serial_output_flash_data_run (m : machine W) :
  serial_output_flash_data m =
  (Ret tt,
   with_nrf_log
     (with_g_flash_output_buf m
        (replicate (length (g_flash_output_buf m)) zero_sample))
     (nrf_log m ++
      [LOG (CRLF ++ "===================IMPACT DATA OUTPUT===================") []] ++
      concat (map (fun i => record_report i (sample_at (g_flash_output_buf m) i)
                                            (sample_at (g_sample_set_buf m) i))
                  (seq 0 (g_buf_index m))) ++
      [LOG (CRLF ++ "====================DATA OUTPUT FINISH==================") []])).
Proof.
  unfold serial_output_flash_data.
  erewrite bind_run by reflexivity.
  erewrite bind_run by reflexivity.
  erewrite bind_run by apply output_loop_run.
  erewrite bind_run by reflexivity.
  erewrite bind_run by reflexivity.
  unfold NRF_LOG_INFO. destruct m. machine_simpl.
  rewrite <- !app_assoc. reflexivity.
Qed.

(** C1, as the code has it.  [serial_output_flash_data] returns, and
    between its two banners the output holds, for each index below the
    buffer length in order, the lines of that index alone: the blank line
    and the ID line always; the high-g line exactly when the three high-g
    axes of the record read back equal those of the record sampled; the
    low-g line exactly when the three low-g axes are equal; the gyro line
    exactly when the three gyro axes are equal; the date and time lines
    exactly when all eight timestamp fields are equal.  A mismatch removes
    the lines of its own group only, and the lines of an index depend on
    the two records at that index only. *)
Theorem verification_report_per_group (m : machine W) :
  exists m' : machine W,
    serial_output_flash_data m = (Ret tt, m')
    /\ nrf_log m' =
       nrf_log m ++
       [LOG (CRLF ++ "===================IMPACT DATA OUTPUT===================") []] ++
       concat (map (fun i => record_report i (sample_at (g_flash_output_buf m) i)
                                             (sample_at (g_sample_set_buf m) i))
                   (seq 0 (g_buf_index m))) ++
       [LOG (CRLF ++ "====================DATA OUTPUT FINISH==================") []]
    /\ g_sample_set_buf m' = g_sample_set_buf m
    /\ forall (i : nat) (f s : impact_sample_t),
         In (LOG "" []) (record_report i f s)
         /\ In (LOG "ID = %d" [Z.of_nat i]) (record_report i f s)
         /\ (In (high_g_line f) (record_report i f s) <->
             adxl_data f = adxl_data s)
         /\ (In (low_g_line f) (record_report i f s) <->
             icm20649.accel_x (icm_data f) = icm20649.accel_x (icm_data s) /\
             icm20649.accel_y (icm_data f) = icm20649.accel_y (icm_data s) /\
             icm20649.accel_z (icm_data f) = icm20649.accel_z (icm_data s))
         /\ (In (gyro_line f) (record_report i f s) <->
             icm20649.gyro_x (icm_data f) = icm20649.gyro_x (icm_data s) /\
             icm20649.gyro_y (icm_data f) = icm20649.gyro_y (icm_data s) /\
             icm20649.gyro_z (icm_data f) = icm20649.gyro_z (icm_data s))
         /\ (In (date_line f) (record_report i f s) <-> ds_data f = ds_data s)
         /\ (In (time_line f) (record_report i f s) <-> ds_data f = ds_data s).
Proof.
  eexists. split; [apply serial_output_flash_data_run|].
  split; [reflexivity|]. split; [reflexivity|].
  intros i f s.
    destruct (record_report_lines i f s) as (Hid & Hh & Hl & Hg & Hd & Ht).
    rewrite Hh, Hl, Hg, Hd, Ht.
    rewrite high_g_match_true, low_g_match_true, gyro_match_true, rtc_match_true.
  split; [left; reflexivity|]. split; [exact Hid|]. tauto.
Qed.

End Report.

(** With one high-g axis corrupted, the report of the record keeps its
    low-g line and loses its high-g line. *)
Lemma verification_report_per_group_witness :
  let s := Build_sample (adxl372.Build 5 6 7) (icm20649.Build 1 2 3 4 5 6)
                        (ds1388.Build 20 1 2 3 4 5 6 7) in
  let f := Build_sample (adxl372.Build 0 6 7) (icm_data s) (ds_data s) in
  In (low_g_line f) (record_report 0 f s)
  /\ ~ In (high_g_line f) (record_report 0 f s).
Proof.
  cbv zeta.
  destruct (verification_report_per_group
              (reset_machine (bench_config 1 1) (healthy_bench [])))
    as (m' & _ & _ & _ & Hlines).
  destruct (Hlines 0%nat
              (Build_sample (adxl372.Build 0 6 7) (icm20649.Build 1 2 3 4 5 6)
                            (ds1388.Build 20 1 2 3 4 5 6 7))
              (Build_sample (adxl372.Build 5 6 7) (icm20649.Build 1 2 3 4 5 6)
                            (ds1388.Build 20 1 2 3 4 5 6 7)))
    as (_ & _ & Hh & Hl & _).
  split.
  - apply Hl. cbn. auto.
  - intros Hin. apply Hh in Hin. discriminate Hin.
Defined.

(** One high-g axis differs between the record sampled and the record
    read back, every other field agrees: the low-g, gyro, date and time
    lines of the record are printed all the same. *)
Lemma verification_report_counterexample :
  let s := Build_sample (adxl372.Build 5 6 7) (icm20649.Build 1 2 3 4 5 6)
                        (ds1388.Build 20 1 2 3 4 5 6 7) in
  let f := Build_sample (adxl372.Build 0 6 7) (icm_data s) (ds_data s) in
  let m := Machine [s] [f] 1%nat false 0 [] [] (healthy_bench []) in
  adxl372.x (adxl_data f) <> adxl372.x (adxl_data s)
  /\ nrf_log (snd (serial_output_flash_data m)) =
     [ LOG (CRLF ++ "===================IMPACT DATA OUTPUT===================") [];
       LOG "" []; LOG "ID = %d" [0];
       low_g_line f; gyro_line f; date_line f; time_line f;
       LOG (CRLF ++ "====================DATA OUTPUT FINISH==================") [] ].
Proof.
  cbv zeta. split; [cbn; lia|]. vm_compute. reflexivity.
Qed.

(** ** Sampling *)

Section Sampling.

Context {W : Type} `{Platform W}.
Variable cfg : config.

Lemma world_only_ret {A} (a : A) : world_only (W := W) (ret a).
Proof. intros m. exists a, (world m). destruct m; reflexivity. Qed.

Lemma world_only_hw {A} (f : W -> A * W) : world_only (hw f).
Proof. intros m. eexists _, _. reflexivity. Qed.

Lemma world_only_bind {A B} (c : M W A) (k : A -> M W B) :
  world_only c -> (forall a, world_only (k a)) -> world_only (bind c k).
Proof.
  intros Hc Hk m.
  destruct (Hc m) as (a & w1 & E1).
  destruct (Hk a (with_world m w1)) as (b & w2 & E2).
  exists b, w2. rewrite (bind_run _ _ _ _ _ E1), E2. reflexivity.
Qed.

Ltac world_only_tac :=
  repeat first
    [ apply world_only_ret
    | apply world_only_hw
    | apply world_only_bind; [|intros]
    | match goal with
      | |- world_only (let (_, _) := ?p in _) => destruct p
      | |- world_only (if ?b then _ else _) => destruct b
      end ].

Lemma world_only_icm20649_write_reg (address data : Z) :
  world_only (icm20649_write_reg address data).
Proof. unfold icm20649_write_reg. world_only_tac. Qed.

Lemma world_only_icm20649_multibyte_read_reg (reg_addr : Z)
    (reg_data : list Z) (num_bytes : nat) :
  world_only (icm20649_multibyte_read_reg reg_addr reg_data num_bytes).
Proof. unfold icm20649_multibyte_read_reg. world_only_tac. Qed.

Lemma world_only_icm20649_read_gyro_accel_data :
  world_only icm20649_read_gyro_accel_data.
Proof.
  unfold icm20649_read_gyro_accel_data.
  apply world_only_bind; [apply world_only_icm20649_write_reg|intros _].
  apply world_only_bind;
    [apply world_only_icm20649_multibyte_read_reg|intros [r rx]].
  apply world_only_ret.
Qed.

Lemma world_only_readRegister (reg_addr : Z) : world_only (readRegister reg_addr).
Proof. unfold readRegister. world_only_tac. Qed.

Lemma world_only_get_time : world_only get_time.
Proof.
  unfold get_time.
  repeat (apply world_only_bind; [apply world_only_readRegister|intros]).
  world_only_tac.
Qed.

(** One call of [sample_impact_data]: the three sensors are read, the
    low-range values are converted once, and the record is offered to
    the buffer. *)
Lemma sample_impact_data_run (l : sample_locals) (m : machine W) :
  exists (r : sample_locals) (w' : W),
    acquire l m = (Ret r, with_world m w')
    /\ sample_impact_data cfg l m =
       (Ret (SampleLocals (high_g_data r)
                          (icm20649_convert_data (low_g_gyro_data r))
                          (rtc_data r)),
        append_sample cfg (with_world m w') (converted r)).
Proof.
  unfold acquire, sample_impact_data.
  rewrite !(bind_run (hw (adxl372_get_accel_data (high_g_data l))) _ m _ _ eq_refl).
  set (m1 := with_world m _).
  set (high_g := fst _).
  destruct (world_only_icm20649_read_gyro_accel_data m1) as (low_g & w2 & E2).
  rewrite !(bind_run _ _ _ _ _ E2).
  destruct (world_only_get_time (with_world m1 w2)) as ([code rtc] & w3 & E3).
  rewrite !(bind_run _ _ _ _ _ E3).
  exists (SampleLocals high_g low_g rtc), w3.
  split; [reflexivity|].
  unfold append_sample, converted. destruct m as [ss fo bi md pv lg fb w].
  subst m1. machine_simpl.
  unfold bind, get, ret. machine_simpl.
  destruct (bi <? MAX_SAMPLE_BUF_LENGTH cfg)%nat; reflexivity.
Qed.

End Sampling.

(** ** What the flash functions leave alone *)

Section Frames.

Context {W : Type} `{Platform W}.
Variable cfg : config.

Lemma keeps_samples_bind {A B} (c : M W A) (k : A -> M W B) :
  keeps_samples (W := W) c -> (forall a, keeps_samples (W := W) (k a)) -> keeps_samples (W := W) (bind c k).
Proof.
  intros Hc Hk m. unfold bind.
  specialize (Hc m). destruct (c m) as [[a| |] m1]; cbn [snd] in *; try exact Hc.
  destruct (Hk a m1) as [E1 E2]. destruct Hc as [E3 E4].
  rewrite E1, E2. auto.
Qed.

Lemma keeps_samples_const {A} (r : result A) :
  keeps_samples (W := W) (fun m => (r, m)).
Proof. intros m. auto. Qed.

Lemma keeps_samples_hw {A} (f : W -> A * W) : keeps_samples (W := W) (hw f).
Proof. intros m. auto. Qed.

Lemma keeps_samples_on_bus (e : bus_event) : keeps_samples (W := W) (on_bus e).
Proof. intros m. auto. Qed.

Lemma keeps_samples_log (fmt : string) (args : list Z) :
  keeps_samples (W := W) (NRF_LOG_INFO fmt args).
Proof. intros m. auto. Qed.

Lemma keeps_samples_get {A} (f : machine W -> A) : keeps_samples (W := W) (get f).
Proof. intros m. auto. Qed.

Lemma keeps_samples_set_output (b : list impact_sample_t) :
  keeps_samples (W := W) (set_g_flash_output_buf b).
Proof. intros m. auto. Qed.

Lemma keeps_samples_set_done (b : bool) :
  keeps_samples (W := W) (set_g_measurement_done b).
Proof. intros m. auto. Qed.

Ltac keeps_tac :=
  repeat first
    [ apply keeps_samples_hw
    | apply keeps_samples_on_bus
    | apply keeps_samples_log
    | apply keeps_samples_get
    | apply keeps_samples_set_output
    | apply keeps_samples_set_done
    | apply (keeps_samples_const (Ret _))
    | apply (keeps_samples_const Halt)
    | apply (keeps_samples_const Stall)
    | assumption
    | apply keeps_samples_bind; [|intros]
    | match goal with
      | |- keeps_samples (let (_, _) := ?p in _) => destruct p
      | |- keeps_samples (if ?b then _ else _) => destruct b
      end ].

Lemma keeps_samples_flash_read_op (c : Z) (a d : list Z) :
  keeps_samples (W := W) (flash_read_op c a d).
Proof. unfold flash_read_op. keeps_tac. Qed.

Lemma keeps_samples_flash_write_op (c : Z) (a d : list Z) :
  keeps_samples (W := W) (flash_write_op c a d).
Proof. unfold flash_write_op. keeps_tac. Qed.

Lemma keeps_samples_flash_write_enable : keeps_samples (W := W) flash_write_enable.
Proof. unfold flash_write_enable. keeps_tac. Qed.

Lemma keeps_samples_flash_write_disable : keeps_samples (W := W) flash_write_disable.
Proof. unfold flash_write_disable. keeps_tac. Qed.

Lemma keeps_samples_check_ready_loop (fuel : nat) (b : Z) :
  keeps_samples (W := W) (check_ready_loop fuel b).
Proof.
  revert b. induction fuel as [|fuel IH]; intros b; cbn [check_ready_loop].
  - apply (keeps_samples_const Stall).
  - apply keeps_samples_bind; [apply keeps_samples_flash_read_op|].
    intros [r buf]. destruct (_ =? 1); [apply IH|].
    apply (keeps_samples_const (Ret tt)).
Qed.

Lemma keeps_samples_check_ready_flag (fuel : nat) :
  keeps_samples (W := W) (mt25ql256aba_check_ready_flag fuel).
Proof.
  unfold mt25ql256aba_check_ready_flag.
  apply keeps_samples_bind; [apply keeps_samples_get|].
  intros b. apply keeps_samples_check_ready_loop.
Qed.

Lemma keeps_samples_store_sample (fuel i : nat) (l : store_locals) :
  keeps_samples (W := W) (store_sample fuel i l).
Proof.
  pose proof (keeps_samples_check_ready_flag fuel).
  pose proof keeps_samples_flash_write_enable.
  pose proof keeps_samples_flash_write_disable.
  unfold store_sample.
  repeat first
    [ apply keeps_samples_flash_write_op
    | apply keeps_samples_flash_read_op
    | progress keeps_tac ].
Qed.

Lemma keeps_samples_store_samples_loop (fuel count i : nat) (l : store_locals) :
  keeps_samples (W := W) (store_samples_loop fuel i count l).
Proof.
  revert i l. induction count as [|count IH]; intros i l;
    cbn [store_samples_loop].
  - apply (keeps_samples_const (Ret l)).
  - apply keeps_samples_bind; [apply keeps_samples_store_sample|].
    intros l'. apply IH.
Qed.

Lemma keeps_samples_store_samples (fuel : nat) (flash_addr : Z) :
  keeps_samples (W := W) (mt25ql256aba_store_samples fuel flash_addr).
Proof.
  unfold mt25ql256aba_store_samples.
  repeat first [ apply keeps_samples_store_samples_loop | progress keeps_tac ].
Qed.

Lemma keeps_samples_retrieve_sample (fuel i : nat) (a : Z * list Z) :
  keeps_samples (W := W) (retrieve_sample fuel i a).
Proof.
  pose proof (keeps_samples_check_ready_flag fuel).
  unfold retrieve_sample. destruct a as [addr32 addr].
  repeat first [ apply keeps_samples_flash_read_op | progress keeps_tac ].
Qed.

Lemma keeps_samples_retrieve_samples_loop (fuel count i : nat) (a : Z * list Z) :
  keeps_samples (W := W) (retrieve_samples_loop fuel i count a).
Proof.
  revert i a. induction count as [|count IH]; intros i a;
    cbn [retrieve_samples_loop].
  - apply (keeps_samples_const (Ret a)).
  - apply keeps_samples_bind; [apply keeps_samples_retrieve_sample|].
    intros a'. apply IH.
Qed.

Lemma keeps_samples_retrieve_samples (fuel : nat) :
  keeps_samples (W := W) (mt25ql256aba_retrieve_samples fuel).
Proof.
  unfold mt25ql256aba_retrieve_samples.
  repeat first [ apply keeps_samples_retrieve_samples_loop | progress keeps_tac ].
Qed.

Lemma keeps_samples_serial_output : keeps_samples (W := W) serial_output_flash_data.
Proof.
  intros m. rewrite serial_output_flash_data_run. auto.
Qed.

End Frames.

(** ** The sample buffer *)

Section Buffer.

Context {W : Type} `{Platform W}.
Variable cfg : config.

Lemma append_sample_index (m : machine W) (s : impact_sample_t) :
  (g_buf_index m <= MAX_SAMPLE_BUF_LENGTH cfg)%nat ->
  g_buf_index (append_sample cfg m s) =
  Nat.min (S (g_buf_index m)) (MAX_SAMPLE_BUF_LENGTH cfg).
Proof.
  intros Hle. unfold append_sample.
  destruct (Nat.ltb_spec (g_buf_index m) (MAX_SAMPLE_BUF_LENGTH cfg));
    machine_simpl; lia.
Qed.

Lemma append_sample_log (m : machine W) (s : impact_sample_t) :
  nrf_log (append_sample cfg m s) = nrf_log m.
Proof. unfold append_sample. destruct (_ <? _)%nat; reflexivity. Qed.

Lemma append_sample_full (m : machine W) (s : impact_sample_t) :
  g_buf_index m = MAX_SAMPLE_BUF_LENGTH cfg -> append_sample cfg m s = m.
Proof.
  intros E. unfold append_sample. rewrite E, Nat.ltb_irrefl. reflexivity.
Qed.

Lemma append_sample_earlier (m : machine W) (s : impact_sample_t) (i : nat) :
  (i < g_buf_index m)%nat ->
  g_sample_set_buf (append_sample cfg m s) !! i = g_sample_set_buf m !! i.
Proof.
  intros Hi. unfold append_sample. destruct (_ <? _)%nat; [|reflexivity].
  machine_simpl. apply list_lookup_insert_ne. lia.
Qed.

Lemma append_sample_stored (m : machine W) (s : impact_sample_t) :
  (g_buf_index m < MAX_SAMPLE_BUF_LENGTH cfg)%nat ->
  (g_buf_index m < length (g_sample_set_buf m))%nat ->
  g_sample_set_buf (append_sample cfg m s) !! g_buf_index m = Some s.
Proof.
  intros Hlt Hlen. unfold append_sample.
  destruct (Nat.ltb_spec (g_buf_index m) (MAX_SAMPLE_BUF_LENGTH cfg)); [|lia].
  machine_simpl. apply list_lookup_insert_eq. exact Hlen.
Qed.

Lemma sample_times_run (n : nat) (l : sample_locals) (m : machine W) :
  (g_buf_index m <= MAX_SAMPLE_BUF_LENGTH cfg)%nat ->
  exists (l' : sample_locals) (m' : machine W),
    sample_times cfg n l m = (Ret l', m')
    /\ g_buf_index m' = Nat.min (g_buf_index m + n) (MAX_SAMPLE_BUF_LENGTH cfg)
    /\ nrf_log m' = nrf_log m.
Proof.
  revert l m. induction n as [|n IH]; intros l m Hle.
  - exists l, m. cbn [sample_times]. split; [reflexivity|]. split; [lia|reflexivity].
  - cbn [sample_times].
    destruct (sample_impact_data_run cfg l m) as (r & w' & _ & E).
    rewrite (bind_run _ _ _ _ _ E).
    set (m1 := append_sample cfg (with_world m w') (converted r)) in *.
    assert (Hidx : g_buf_index m1 =
                   Nat.min (S (g_buf_index m)) (MAX_SAMPLE_BUF_LENGTH cfg)).
    { subst m1. rewrite append_sample_index; machine_simpl; auto. }
    destruct (IH (SampleLocals (high_g_data r)
                    (icm20649_convert_data (low_g_gyro_data r)) (rtc_data r)) m1)
      as (l' & m' & E' & Hi & Hl); [lia|].
    exists l', m'. split; [exact E'|]. split; [lia|].
    rewrite Hl. subst m1. rewrite append_sample_log. reflexivity.
Qed.

(** C3.  Starting from an empty buffer, [n] calls of
    [sample_impact_data] all return, leave the buffer holding
    [min n C] records and print nothing.  A call never takes the length
    above [C]; a call made with the length at [C] returns with the
    buffer, its length and the output as they were (only the hardware
    state has moved on); and storing, reading back and reporting do not
    change the length. *)
Theorem sample_buffer_bounded (n : nat) (l : sample_locals) (m : machine W) :
  g_buf_index m = 0%nat ->
  (exists (l' : sample_locals) (m' : machine W),
     sample_times cfg n l m = (Ret l', m')
     /\ g_buf_index m' = Nat.min n (MAX_SAMPLE_BUF_LENGTH cfg)
     /\ (0 <= g_buf_index m' <= MAX_SAMPLE_BUF_LENGTH cfg)%nat
     /\ nrf_log m' = nrf_log m)
  /\ (forall (l2 : sample_locals) (m2 : machine W),
        (g_buf_index m2 <= MAX_SAMPLE_BUF_LENGTH cfg)%nat ->
        (g_buf_index (snd (sample_impact_data cfg l2 m2)) <=
         MAX_SAMPLE_BUF_LENGTH cfg)%nat)
  /\ (forall (l2 : sample_locals) (m2 : machine W),
        g_buf_index m2 = MAX_SAMPLE_BUF_LENGTH cfg ->
        exists (l3 : sample_locals) (w3 : W),
          sample_impact_data cfg l2 m2 = (Ret l3, with_world m2 w3))
  /\ (forall (fuel : nat) (flash_addr : Z) (m2 : machine W),
        g_buf_index (snd (mt25ql256aba_store_samples fuel flash_addr m2)) =
        g_buf_index m2
        /\ g_buf_index (snd (mt25ql256aba_retrieve_samples fuel m2)) =
           g_buf_index m2
        /\ g_buf_index (snd (serial_output_flash_data m2)) = g_buf_index m2).
Proof.
  intros Hempty. split; [|split; [|split]].
  - destruct (sample_times_run n l m) as (l' & m' & E & Hi & Hl); [lia|].
    exists l', m'. rewrite Hempty in Hi. cbn in Hi.
    split; [exact E|]. split; [exact Hi|]. split; [lia|exact Hl].
  - intros l2 m2 Hle.
    destruct (sample_impact_data_run cfg l2 m2) as (r & w' & _ & E).
    rewrite E. cbn [snd]. rewrite append_sample_index; machine_simpl; lia.
  - intros l2 m2 Hfull.
    destruct (sample_impact_data_run cfg l2 m2) as (r & w' & _ & E).
    eexists _, w'. rewrite E. rewrite append_sample_full; [reflexivity|].
    machine_simpl. exact Hfull.
  - intros fuel flash_addr m2.
    split; [apply keeps_samples_store_samples|].
    split; [apply keeps_samples_retrieve_samples|].
    apply keeps_samples_serial_output.
Qed.

(** C7.  A call of [sample_impact_data] reads the sensors once and
    offers the buffer the record made of that reading by one application
    of [icm20649_convert_data], the conversion coming before the
    clock is read and before the record is stored; when the buffer has
    room the record lands at the current index.  The records stored
    earlier are not touched by the call, and storing, reading back and
    reporting leave the whole buffer as it is, so that no stored record
    is converted again. *)
Theorem conversion_applied_once (l : sample_locals) (m : machine W) :
  (exists (r : sample_locals) (w' : W),
     acquire l m = (Ret r, with_world m w')
     /\ sample_impact_data cfg l m =
        (Ret (SampleLocals (high_g_data r)
                           (icm20649_convert_data (low_g_gyro_data r))
                           (rtc_data r)),
         append_sample cfg (with_world m w') (converted r))
     /\ ((g_buf_index m < MAX_SAMPLE_BUF_LENGTH cfg)%nat ->
         (g_buf_index m < length (g_sample_set_buf m))%nat ->
         g_sample_set_buf (snd (sample_impact_data cfg l m)) !! g_buf_index m =
         Some (Build_sample (high_g_data r)
                            (icm20649_convert_data (low_g_gyro_data r))
                            (rtc_data r))))
  /\ (forall i : nat,
        (i < g_buf_index m)%nat ->
        g_sample_set_buf (snd (sample_impact_data cfg l m)) !! i =
        g_sample_set_buf m !! i)
  /\ (forall (fuel : nat) (flash_addr : Z),
        g_sample_set_buf (snd (mt25ql256aba_store_samples fuel flash_addr m)) =
        g_sample_set_buf m)
  /\ (forall fuel : nat,
        g_sample_set_buf (snd (mt25ql256aba_retrieve_samples fuel m)) =
        g_sample_set_buf m)
  /\ g_sample_set_buf (snd (serial_output_flash_data m)) = g_sample_set_buf m.
Proof.
  destruct (sample_impact_data_run cfg l m) as (r & w' & Ea & E).
  split; [|split; [|split; [|split]]].
  - exists r, w'. split; [exact Ea|]. split; [exact E|].
    intros Hroom Hlen. rewrite E. cbn [snd].
    apply (append_sample_stored (with_world m w')); machine_simpl; assumption.
  - intros i Hi. rewrite E. cbn [snd].
    apply (append_sample_earlier (with_world m w')). machine_simpl. exact Hi.
  - intros fuel flash_addr. apply keeps_samples_store_samples.
  - intros fuel. apply keeps_samples_retrieve_samples.
  - apply keeps_samples_serial_output.
Qed.

End Buffer.

(** Converting twice is not converting once: 1024 LSB are 1000 mg, and
    1000 taken for LSB would be 976 mg. *)
Lemma icm20649_convert_data_twice :
  let raw := icm20649.Build 1024 (-1024) 15 0 0 0 in
  icm20649_convert_data raw = icm20649.Build 1000 (-1000) 14 0 0 0
  /\ icm20649_convert_data (icm20649_convert_data raw) =
     icm20649.Build 976 (-976) 13 0 0 0.
Proof. split; vm_compute; reflexivity. Qed.

(** ** Storing *)

Section Storing.

Context {W : Type} `{Platform W}.
Variable cfg : config.

Lemma flash_read_op_run (c : Z) (a d : list Z) (m : machine W) :
  flash_read_op c a d m =
  (Ret (fst (mt25ql256aba_read_op c a d (world m))),
   with_world (with_flash_bus m (flash_bus m ++ [FlashRead c a (length d)]))
              (snd (mt25ql256aba_read_op c a d (world m)))).
Proof. reflexivity. Qed.

Lemma flash_write_op_run (c : Z) (a d : list Z) (m : machine W) :
  flash_write_op c a d m =
  (Ret (fst (mt25ql256aba_write_op c a d (world m))),
   with_world (with_flash_bus m (flash_bus m ++ [FlashWrite c a d]))
              (snd (mt25ql256aba_write_op c a d (world m)))).
Proof. reflexivity. Qed.

Lemma flash_write_enable_run (m : machine W) :
  flash_write_enable m =
  (Ret (fst (mt25ql256aba_write_enable (world m))),
   with_world (with_flash_bus m (flash_bus m ++ [FlashWriteEnable]))
              (snd (mt25ql256aba_write_enable (world m)))).
Proof. reflexivity. Qed.

Lemma flash_write_disable_run (m : machine W) :
  flash_write_disable m =
  (Ret (fst (mt25ql256aba_write_disable (world m))),
   with_world (with_flash_bus m (flash_bus m ++ [FlashWriteDisable]))
              (snd (mt25ql256aba_write_disable (world m)))).
Proof. reflexivity. Qed.

Lemma page_programs_app (t1 t2 : list bus_event) :
  page_programs (t1 ++ t2) = page_programs t1 ++ page_programs t2.
Proof. apply omap_app. Qed.

Lemma polled_refl (m : machine W) : polled m m.
Proof.
  exists [], (world m). split; [|reflexivity].
  rewrite app_nil_r. destruct m; reflexivity.
Qed.

Lemma polled_read (c : Z) (a d : list Z) (m m' : machine W) :
  polled (snd (flash_read_op c a d m)) m' -> polled m m'.
Proof.
  rewrite flash_read_op_run. cbn [snd].
  intros (t & w' & -> & Ht).
  exists (FlashRead c a (length d) :: t), w'. split.
  - destruct m; machine_simpl. rewrite <- app_assoc. reflexivity.
  - exact Ht.
Qed.

Lemma check_ready_loop_polled (fuel : nat) (b : Z) (m : machine W) :
  polled m (snd (check_ready_loop fuel b m)).
Proof.
  revert b m. induction fuel as [|fuel IH]; intros b m.
  - apply polled_refl.
  - cbn [check_ready_loop].
    apply (polled_read MT25QL256ABA_READ_STATUS_REGISTER [] [b]).
    rewrite (bind_run _ _ _ _ _ (flash_read_op_run _ _ _ m)). cbn [snd].
    destruct (fst (mt25ql256aba_read_op _ _ _ _)) as [r buf].
    destruct (_ =? 1); [apply IH|apply polled_refl].
Qed.

Lemma check_ready_flag_loop (fuel : nat) (m : machine W) :
  mt25ql256aba_check_ready_flag fuel m =
  check_ready_loop fuel (uninitialised_uint8 (world m)) m.
Proof. reflexivity. Qed.

Lemma check_ready_flag_polled (fuel : nat) (m : machine W) :
  polled m (snd (mt25ql256aba_check_ready_flag fuel m)).
Proof. rewrite check_ready_flag_loop. apply check_ready_loop_polled. Qed.

(** A ready poll that is answered: what it leaves behind. *)
Lemma check_ready_flag_answered (fuel : nat) (m : machine W) :
  flash_answers_within (W := W) fuel ->
  exists (t : list bus_event) (w' : W),
    mt25ql256aba_check_ready_flag fuel m =
    (Ret tt, with_world (with_flash_bus m (flash_bus m ++ t)) w')
    /\ page_programs t = [].
Proof.
  intros Hready. destruct (Hready m) as (m' & E).
  pose proof (check_ready_flag_polled fuel m) as (t & w' & Em & Ht).
  rewrite E in Em. cbn [snd] in Em. subst m'.
  exists t, w'. split; [exact E|exact Ht].
Qed.

Lemma sample_bytes_length (s : impact_sample_t) :
  length (sample_bytes s) = 26%nat.
Proof. reflexivity. Qed.

Lemma take_sample_bytes (s : impact_sample_t) :
  take 26 (sample_bytes s) = sample_bytes s.
Proof. apply take_ge. rewrite sample_bytes_length. lia. Qed.

(** One record stored: the cursor, the scratch buffers, the page program
    issued. *)
Lemma store_sample_run (fuel i : nat) (l : store_locals) (m : machine W) :
  flash_answers_within (W := W) fuel ->
  exists (l' : store_locals) (m' : machine W) (reread_x : Z),
    store_sample fuel i l m = (Ret l', m')
    /\ sl_flash_addr l' = uint32 (sl_flash_addr l + 32)
    /\ sl_flash_addr_buf l' =
       convert_4byte_address_to_3byte_address (sl_flash_addr l) (sl_flash_addr_buf l)
    /\ sl_buf l' =
       sample_bytes (sample_at (g_sample_set_buf m) i) ++ drop 26 (sl_buf l)
    /\ g_sample_set_buf m' = g_sample_set_buf m
    /\ g_buf_index m' = g_buf_index m
    /\ page_programs (flash_bus m') =
       page_programs (flash_bus m) ++ [(sl_flash_addr_buf l', sl_buf l')]
    /\ nrf_log m' =
       nrf_log m ++
       [ LOG "" [];
         LOG "WRITE: ID: %d, addr: 0x%03x" [Z.of_nat i; sl_flash_addr l];
         LOG "READ:  ID: %d, addr: 0x%03x, OUTPUT: %d (%d)"
             [Z.of_nat i; sl_flash_addr l; reread_x;
              adxl372.x (adxl_data (sample_at (g_sample_set_buf m) i))] ].
Proof.
  intros Hready. destruct m as [ss fo bi md pv lg fb w].
  unfold store_sample.
  change (Z.to_nat (uint8 sizeof_impact_sample_t)) with 26%nat.
  machine_simpl.
  set (ab := convert_4byte_address_to_3byte_address _ _).
  erewrite bind_run by reflexivity.
  erewrite bind_run by reflexivity.
  machine_simpl.
  match goal with |- context [bind (mt25ql256aba_check_ready_flag fuel) _ ?m0] =>
    destruct (check_ready_flag_answered fuel m0 Hready) as (t1 & w1 & E1 & Ht1)
  end.
  erewrite bind_run by exact E1. clear E1.
  erewrite bind_run by reflexivity.
  machine_simpl.
  unfold memcpy at 1. rewrite take_sample_bytes.
  set (buf := sample_bytes (sample_at ss i) ++ drop 26 (sl_buf l)).
  erewrite bind_run by apply flash_write_enable_run.
  machine_simpl.
  set (w2 := snd (mt25ql256aba_write_enable w1)).
  erewrite bind_run by apply flash_write_op_run.
  machine_simpl.
  set (w3 := snd (mt25ql256aba_write_op _ _ _ w2)).
  erewrite bind_run by apply flash_write_disable_run.
  machine_simpl.
  set (w4 := snd (mt25ql256aba_write_disable w3)).
  match goal with |- context [bind (mt25ql256aba_check_ready_flag fuel) _ ?m0] =>
    destruct (check_ready_flag_answered fuel m0 Hready) as (t2 & w5 & E2 & Ht2)
  end.
  erewrite bind_run by exact E2. clear E2.
  machine_simpl.
  erewrite bind_run by apply flash_read_op_run.
  machine_simpl.
  set (w6 := snd (mt25ql256aba_read_op _ _ _ w5)).
  destruct (fst (mt25ql256aba_read_op _ _ _ w5)) as [r out_buf].
  erewrite bind_run by reflexivity.
  machine_simpl.
  set (reread := sample_of_bytes _).
  erewrite bind_run by reflexivity.
  erewrite bind_run by reflexivity.
  machine_simpl.
  exists (StoreLocals (uint32 (sl_flash_addr l + 32)) ab buf out_buf).
  eexists. exists (adxl372.x (adxl_data reread)).
  split; [reflexivity|].
  machine_simpl. cbn [sl_flash_addr sl_flash_addr_buf sl_buf].
  repeat split.
  - rewrite !page_programs_app, Ht1, Ht2. cbn. rewrite !app_nil_r.
    reflexivity.
  - rewrite <- !app_assoc. reflexivity.
Qed.

Lemma drop_sample_bytes (s : impact_sample_t) (t : list Z) :
  drop 26 (sample_bytes s ++ t) = t.
Proof. reflexivity. Qed.

Lemma uint32_add_idemp (a b : Z) : uint32 (uint32 a + b) = uint32 (a + b).
Proof. unfold uint32. apply Zplus_mod_idemp_l. Qed.

Lemma convert_address_any_buffer (A : Z) (buf : list Z) :
  length buf = 3%nat ->
  convert_4byte_address_to_3byte_address A buf =
  convert_4byte_address_to_3byte_address A [0; 0; 0].
Proof.
  intros Hlen. rewrite !convert_address_bytes by (exact Hlen || reflexivity).
  reflexivity.
Qed.

Lemma store_samples_loop_run (fuel : nat) (base : Z) (count i : nat)
    (l : store_locals) (m : machine W) :
  flash_answers_within (W := W) fuel ->
  sl_flash_addr l = uint32 (base + 32 * Z.of_nat i) ->
  length (sl_flash_addr_buf l) = 3%nat ->
  drop 26 (sl_buf l) = replicate 6 0 ->
  exists (l' : store_locals) (m' : machine W),
    store_samples_loop fuel i count l m = (Ret l', m')
    /\ sl_flash_addr l' = uint32 (base + 32 * Z.of_nat (i + count))
    /\ g_sample_set_buf m' = g_sample_set_buf m
    /\ g_buf_index m' = g_buf_index m
    /\ page_programs (flash_bus m') =
       page_programs (flash_bus m) ++
       map (fun k => (flash_slot base k,
                      flash_image (sample_at (g_sample_set_buf m) k)))
           (seq i count).
Proof.
  intros Hready. revert i l m.
  induction count as [|count IH]; intros i l m Haddr Hlen Hpad.
  - exists l, m. cbn [store_samples_loop seq map].
    rewrite Nat.add_0_r, app_nil_r. auto.
  - cbn [store_samples_loop].
    destruct (store_sample_run fuel i l m Hready)
      as (l1 & m1 & x & E & Ha & Hab & Hb & Hs & Hi & Hp & _).
    rewrite (bind_run _ _ _ _ _ E).
    destruct (IH (S i) l1 m1) as (l' & m' & E' & Ha' & Hs' & Hi' & Hp').
    + rewrite Ha, Haddr, uint32_add_idemp. f_equal. lia.
    + rewrite Hab, convert_address_length. exact Hlen.
    + rewrite Hb, drop_sample_bytes. exact Hpad.
    + exists l', m'. split; [exact E'|].
      split; [rewrite Ha'; f_equal; lia|].
      split; [congruence|]. split; [congruence|].
      rewrite Hp', Hp, Hs. cbn [seq map]. rewrite <- app_assoc.
      f_equal. cbn [app]. f_equal.
      rewrite Hab, Hb, Hpad, Haddr.
      rewrite convert_address_any_buffer by exact Hlen. reflexivity.
Qed.

Lemma store_samples_run (fuel : nat) (flash_addr : Z) (m : machine W) :
  flash_answers_within (W := W) fuel ->
  is_uint32 flash_addr ->
  exists m' : machine W,
    mt25ql256aba_store_samples fuel flash_addr m =
      (Ret (uint32 (flash_addr + 32 * Z.of_nat (g_buf_index m))), m')
    /\ g_sample_set_buf m' = g_sample_set_buf m
    /\ g_buf_index m' = g_buf_index m
    /\ page_programs (flash_bus m') =
       page_programs (flash_bus m) ++
       map (fun k => (flash_slot flash_addr k,
                      flash_image (sample_at (g_sample_set_buf m) k)))
           (seq 0 (g_buf_index m)).
Proof.
  intros Hready Haddr. unfold mt25ql256aba_store_samples.
  erewrite bind_run by reflexivity.
  erewrite bind_run by reflexivity.
  erewrite bind_run by reflexivity.
  match goal with |- context [bind (store_samples_loop fuel 0 ?n ?l) _ ?m0] =>
    destruct (store_samples_loop_run fuel flash_addr n 0 l m0 Hready)
      as (l' & m' & E & Ha & Hs & Hi & Hp)
  end.
  - cbn [sl_flash_addr]. unfold uint32. rewrite Z.mod_small; [lia|].
    unfold is_uint32 in Haddr. lia.
  - reflexivity.
  - reflexivity.
  - rewrite (bind_run _ _ _ _ _ E). exists m'.
    revert E Ha Hs Hi Hp. destruct m; machine_simpl. intros E Ha Hs Hi Hp.
    split; [unfold ret; rewrite Ha; reflexivity|]. auto.
Qed.

(** C4, as the code has it.  Each stored record moves the cursor forward
    by the 32 bytes of the page buffer, not by the 26 bytes of the record:
    when the flash answers its ready polls, storing from [base] returns
    the cursor [base + 32 * n] (reduced to 32 bits) for [n] buffered
    records.  The [k]-th page program goes to the device address of
    [base + 32 * k] and carries the raw byte image of record [k], with no
    header, checksum or length, followed by six zero bytes. *)
Theorem store_cursor_advances_by_page_buffer (fuel : nat) (base : Z)
    (m : machine W) :
  flash_answers_within (W := W) fuel ->
  is_uint32 base ->
  (forall (i : nat) (l : store_locals) (m0 : machine W),
     exists (l' : store_locals) (m1 : machine W),
       store_sample fuel i l m0 = (Ret l', m1)
       /\ sl_flash_addr l' = uint32 (sl_flash_addr l + 32))
  /\ exists m' : machine W,
       mt25ql256aba_store_samples fuel base m =
         (Ret (uint32 (base + 32 * Z.of_nat (g_buf_index m))), m')
       /\ (base + 32 * Z.of_nat (g_buf_index m) < 2 ^ 32 ->
           uint32 (base + 32 * Z.of_nat (g_buf_index m)) =
           base + 32 * Z.of_nat (g_buf_index m))
       /\ page_programs (flash_bus m') =
          page_programs (flash_bus m) ++
          map (fun k => (flash_slot base k,
                         sample_bytes (sample_at (g_sample_set_buf m) k) ++
                         [0; 0; 0; 0; 0; 0]))
              (seq 0 (g_buf_index m)).
Proof.
  intros Hready Hbase. split.
  - intros i l m0.
    destruct (store_sample_run fuel i l m0 Hready)
      as (l' & m1 & x & E & Ha & _).
    exists l', m1. auto.
  - destruct (store_samples_run fuel base m Hready Hbase)
      as (m' & E & _ & _ & Hp).
    exists m'. split; [exact E|]. split; [|exact Hp].
    intros Hfit. unfold uint32. apply Z.mod_small.
    unfold is_uint32 in Hbase. lia.
Qed.

Lemma page_programs_status_reads (k : nat) :
  page_programs (replicate k status_read) = [].
Proof. induction k as [|k IH]; [reflexivity|exact IH]. Qed.

(** A poll entered with the busy bit set in its byte, on a bus whose
    status reads fail, goes round for as long as it is followed. *)
Lemma check_ready_loop_stuck (P : W -> Prop) (fuel : nat) (b : Z)
    (m : machine W) :
  status_reads_fail P ->
  P (world m) ->
  Z.land b 1 = 1 ->
  exists w' : W,
    P w'
    /\ check_ready_loop fuel b m =
       (Stall,
        with_world
          (with_flash_bus m (flash_bus m ++ replicate fuel status_read)) w').
Proof.
  intros Hfail. revert b m. induction fuel as [|fuel IH]; intros b m HP Hb.
  - exists (world m). split; [exact HP|].
    cbn. rewrite app_nil_r. destruct m; reflexivity.
  - cbn [check_ready_loop].
    rewrite (bind_run _ _ _ _ _ (flash_read_op_run _ _ _ m)).
    destruct (Hfail b (world m) HP) as (_ & Hbuf & HP').
    unfold MT25QL256ABA_READ_STATUS_REGISTER.
    destruct (mt25ql256aba_read_op 5 [] [b] (world m)) as [[r buf] w1].
    cbn [fst snd] in *. subst buf.
    change (byte_at [b] 0) with b. rewrite Hb. cbn [Z.eqb Pos.eqb].
    set (m1 := with_world _ _).
    destruct (IH 1 m1) as (w' & HPw & E); [exact HP'|reflexivity|].
    exists w'. split; [exact HPw|]. rewrite E. subst m1.
    destruct m; machine_simpl. rewrite <- app_assoc. reflexivity.
Qed.

(** The store loop behind a poll that does not end: nothing is
    programmed. *)
Lemma store_samples_stuck (P : W -> Prop) (fuel : nat) (base : Z)
    (m : machine W) :
  status_reads_fail P ->
  P (world m) ->
  Z.land (uninitialised_uint8 (world m)) 1 = 1 ->
  (0 < g_buf_index m)%nat ->
  exists m' : machine W,
    mt25ql256aba_store_samples fuel base m = (Stall, m')
    /\ page_programs (flash_bus m') = page_programs (flash_bus m)
    /\ g_sample_set_buf m' = g_sample_set_buf m
    /\ g_buf_index m' = g_buf_index m.
Proof.
  intros Hfail HP Hodd Hn. destruct m as [ss fo bi md pv lg fb w].
  machine_simpl. destruct bi as [|bi]; [lia|].
  unfold mt25ql256aba_store_samples.
  erewrite bind_run by reflexivity.
  erewrite bind_run by reflexivity.
  erewrite bind_run by reflexivity.
  machine_simpl. cbn [store_samples_loop].
  set (l := StoreLocals _ _ _ _).
  assert (E : exists m' : machine W,
            store_sample fuel 0 l
              (Machine ss fo (S bi) md pv
                 ((lg ++ [LOG "" []]) ++ [LOG "BEGIN STORE SAMPLES..." []])
                 fb w) = (Stall, m')
            /\ page_programs (flash_bus m') = page_programs fb
            /\ g_sample_set_buf m' = ss
            /\ g_buf_index m' = S bi).
  { unfold store_sample.
    erewrite bind_run by reflexivity.
    erewrite bind_run by reflexivity.
    machine_simpl.
    match goal with |- context [bind (mt25ql256aba_check_ready_flag fuel) _ ?m0] =>
      destruct (check_ready_loop_stuck P fuel (uninitialised_uint8 w) m0
                  Hfail HP Hodd) as (w' & _ & E)
    end.
    erewrite bind_stall by (rewrite check_ready_flag_loop; exact E).
    eexists. split; [reflexivity|]. machine_simpl.
    rewrite page_programs_app, page_programs_status_reads, app_nil_r.
    auto. }
  destruct E as (m' & E & Hp & Hs & Hi).
  erewrite bind_stall; [|erewrite bind_stall by exact E; reflexivity].
  exists m'. auto.
Qed.

(** C6, as the code has it.  No status returned by a transfer is ever
    treated as fatal, but not every failed transfer is without
    consequence.  [spi_ret_check] returns in every case and, at most,
    prints one line.  Storing looks at no status at all: whatever its
    transfers return, as long as the ready polls end it returns, issues
    exactly one page program per buffered record, in index order, each
    with the bytes of its record, and leaves the sample buffer and its
    length as they were.  The ready poll itself looks at the byte it
    read, not at the status: on a bus whose status reads fail and leave
    the byte alone, a poll entered with bit 0 of the byte set (the
    uninitialised byte, or the busy answer of the read before) is
    repeated for as long as it is followed, and storing then programs
    no record at all.  The one status the program acts on is that of the
    ICM20649 multi-byte read, which on a negative status returns at
    once, its copy skipped; its caller goes on all the same. *)
Theorem negative_status_logged_not_fatal (fuel : nat) (base : Z)
    (m : machine W) :
  (forall (r : Z) (m0 : machine W),
     spi_ret_check r m0 =
     (Ret tt,
      if r <? 0
      then with_nrf_log m0 (nrf_log m0 ++ [LOG "SPI WRITE READ FAIL" []])
      else m0))
  /\ (flash_answers_within (W := W) fuel ->
      is_uint32 base ->
      exists (cursor : Z) (m' : machine W),
        mt25ql256aba_store_samples fuel base m = (Ret cursor, m')
        /\ map snd (page_programs (flash_bus m')) =
           map snd (page_programs (flash_bus m)) ++
           map (fun k => flash_image (sample_at (g_sample_set_buf m) k))
               (seq 0 (g_buf_index m))
        /\ g_sample_set_buf m' = g_sample_set_buf m
        /\ g_buf_index m' = g_buf_index m)
  /\ (forall (P : W -> Prop) (b : Z),
        status_reads_fail P -> P (world m) -> Z.land b 1 = 1 ->
        exists w' : W,
          check_ready_loop fuel b m =
          (Stall,
           with_world
             (with_flash_bus m (flash_bus m ++ replicate fuel status_read))
             w'))
  /\ (forall P : W -> Prop,
        status_reads_fail P -> P (world m) ->
        Z.land (uninitialised_uint8 (world m)) 1 = 1 ->
        (0 < g_buf_index m)%nat ->
        fst (mt25ql256aba_store_samples fuel base m) = Stall
        /\ page_programs
             (flash_bus (snd (mt25ql256aba_store_samples fuel base m))) =
           page_programs (flash_bus m))
  /\ (forall (reg_addr : Z) (reg_data : list Z) (num_bytes : nat)
             (m0 : machine W),
        (num_bytes <= 256)%nat ->
        fst (fst (spi_write_and_read SPI_ICM20649_CS_PIN
                    [uint8 (Z.lor reg_addr 0x80)]
                    (replicate (num_bytes + 1) 0) (world m0))) < 0 ->
        icm20649_multibyte_read_reg reg_addr reg_data num_bytes m0 =
        (Ret (fst (fst (spi_write_and_read SPI_ICM20649_CS_PIN
                          [uint8 (Z.lor reg_addr 0x80)]
                          (replicate (num_bytes + 1) 0) (world m0))),
              reg_data),
         with_world m0
           (snd (spi_write_and_read SPI_ICM20649_CS_PIN
                   [uint8 (Z.lor reg_addr 0x80)]
                   (replicate (num_bytes + 1) 0) (world m0)))))
  /\ (forall m0 : machine W,
        exists (d : icm20649.data_t) (w' : W),
          icm20649_read_gyro_accel_data m0 = (Ret d, with_world m0 w')).
Proof.
  split; [|split; [|split; [|split; [|split]]]].
  - intros r m0. unfold spi_ret_check. destruct (r <? 0); reflexivity.
  - intros Hready Hbase.
    destruct (store_samples_run fuel base m Hready Hbase)
      as (m' & E & Hs & Hi & Hp).
    eexists _, m'. split; [exact E|]. split; [|auto].
    rewrite Hp, map_app, map_map. reflexivity.
  - intros P b Hfail HP Hb.
    destruct (check_ready_loop_stuck P fuel b m Hfail HP Hb) as (w' & _ & E).
    exists w'. exact E.
  - intros P Hfail HP Hodd Hn.
    destruct (store_samples_stuck P fuel base m Hfail HP Hodd Hn)
      as (m' & E & Hp & _).
    rewrite E. cbn [fst snd]. auto.
  - intros reg_addr reg_data num_bytes m0 Hn Hneg.
    unfold icm20649_multibyte_read_reg.
    destruct (Nat.ltb_spec 256 num_bytes) as [Hgt|_]; [lia|].
    erewrite bind_run by reflexivity.
    destruct (spi_write_and_read _ _ _ (world m0)) as [[r buf] w1].
    cbn [fst snd] in *.
    destruct (Z.ltb_spec r 0) as [_|Hge]; [reflexivity|lia].
  - intros m0. apply world_only_icm20649_read_gyro_accel_data.
Qed.

End Storing.

(** ** ICM20649 multi-byte read *)

Section MultibyteRead.

Context {W : Type} `{Platform W}.

(** C10.  [icm20649_multibyte_read_reg] makes one SPI transfer into a
    cleared scratch buffer of [num_bytes + 1] bytes.  When the transfer
    returns a negative status the function returns that status and the
    caller's [reg_data] unchanged.  Otherwise it returns the status and
    [reg_data] with its first [num_bytes] bytes replaced by bytes
    [1 .. num_bytes] of the scratch buffer, every other byte and the
    length being as before. *)
Theorem multibyte_read_atomic_on_failure (reg_addr : Z) (reg_data : list Z)
    (num_bytes : nat) (m : machine W) :
  let xfer :=
    spi_write_and_read SPI_ICM20649_CS_PIN [uint8 (Z.lor reg_addr 0x80)]
                       (replicate (num_bytes + 1) 0) (world m) in
  let status := fst (fst xfer) in
  let buf := snd (fst xfer) in
  (num_bytes <= 255)%nat ->
  length buf = S num_bytes ->
  (num_bytes <= length reg_data)%nat ->
  (status < 0
   /\ icm20649_multibyte_read_reg reg_addr reg_data num_bytes m =
      (Ret (status, reg_data), with_world m (snd xfer)))
  \/
  (0 <= status
   /\ exists reg_data' : list Z,
        icm20649_multibyte_read_reg reg_addr reg_data num_bytes m =
        (Ret (status, reg_data'), with_world m (snd xfer))
        /\ length reg_data' = length reg_data
        /\ (forall i : nat,
              (i < num_bytes)%nat -> reg_data' !! i = buf !! S i)
        /\ (forall i : nat,
              (num_bytes <= i)%nat -> reg_data' !! i = reg_data !! i)).
Proof.
  intros xfer status buf Hn Hbuf Hdata.
  unfold icm20649_multibyte_read_reg.
  destruct (Nat.ltb_spec 256 num_bytes) as [Hbig|_]; [lia|].
  erewrite bind_run by reflexivity.
  fold xfer. destruct (fst xfer) as [r b] eqn:E.
  subst status buf. cbn [fst snd] in *.
  destruct (Z.ltb_spec r 0) as [Hneg|Hpos].
  - left. split; [exact Hneg|reflexivity].
  - right. split; [exact Hpos|].
    exists (memcpy reg_data (drop 1 b) num_bytes).
    split; [reflexivity|]. unfold memcpy.
    assert (Htake : length (take num_bytes (drop 1 b)) = num_bytes).
    { rewrite length_take, length_drop. lia. }
    split; [|split].
    + rewrite length_app, Htake, length_drop. lia.
    + intros i Hi. rewrite lookup_app_l by lia.
      rewrite lookup_take_lt by exact Hi. rewrite lookup_drop. reflexivity.
    + intros i Hi. rewrite lookup_app_r by lia.
      rewrite Htake, lookup_drop. f_equal. lia.
Qed.

End MultibyteRead.

(** ** Start-up tests *)

Section Startup.

Context {W : Type} `{Platform W}.
Variable cfg : config.

(** The flash test parks the core as soon as one of the three identity
    bytes is not the expected one. *)
Lemma mt25ql256aba_startup_test_outcome (m : machine W) :
  let val := snd (fst (mt25ql256aba_read_op MT25QL256ABA_READ_ID [] [0; 0; 0]
                                            (world m))) in
  fst (mt25ql256aba_startup_test m) =
  if (byte_at val 0 =? 0x20) && (byte_at val 1 =? 0xBA) && (byte_at val 2 =? 0x19)
  then Ret tt else Halt.
Proof.
  intros val. unfold mt25ql256aba_startup_test.
  erewrite bind_run by reflexivity.
  erewrite bind_run by reflexivity.
  erewrite bind_run by apply flash_read_op_run.
  subst val. destruct (fst (mt25ql256aba_read_op _ _ _ _)) as [r val].
  cbn [snd].
  unfold spi_ret_check.
  destruct (r <? 0); (erewrite bind_run by reflexivity);
    (erewrite bind_run by reflexivity);
    destruct (byte_at val 0 =? 32); cbn [negb andb]; try reflexivity;
    (erewrite bind_run by reflexivity);
    (erewrite bind_run by reflexivity);
    (erewrite bind_run by reflexivity);
    destruct (byte_at val 1 =? 186); cbn [negb andb]; try reflexivity;
    (erewrite bind_run by reflexivity);
    (erewrite bind_run by reflexivity);
    (erewrite bind_run by reflexivity);
    destruct (byte_at val 2 =? 25); reflexivity.
Qed.

(** The accelerometer test parks the core for a wrong part identity
    only: its outcome does not depend on the first two identities
    read. *)
Lemma adxl372_startup_test_outcome (m : machine W) :
  let w1 := snd (adxl372_get_dev_ID (world m)) in
  let w2 := snd (adxl372_read_reg (ADI_ADXL372_MST_DEVID cfg) 0 w1) in
  let devid := snd (fst (adxl372_read_reg (ADI_ADXL372_DEVID cfg) 0 w2)) in
  fst (adxl372_startup_test cfg m) =
  if devid =? ADI_ADXL372_DEVID_VAL cfg then Ret tt else Halt.
Proof.
  intros w1 w2 devid. unfold adxl372_startup_test.
  erewrite bind_run by reflexivity. machine_simpl. fold w1.
  erewrite bind_run by reflexivity. machine_simpl.
  destruct (fst (adxl372_read_reg (ADI_ADXL372_MST_DEVID cfg) 0 w1))
    as [r1 mst_devid]. fold w2.
  erewrite bind_run by reflexivity. machine_simpl.
  subst devid.
  destruct (fst (adxl372_read_reg (ADI_ADXL372_DEVID cfg) 0 w2)) as [r2 devid].
  cbn [snd].
  erewrite bind_run by reflexivity.
  erewrite bind_run by reflexivity.
  erewrite bind_run by reflexivity.
  destruct (fst (adxl372_get_dev_ID (world m)) =? _); cbn [negb];
    (erewrite bind_run by reflexivity);
    (erewrite bind_run by reflexivity);
    destruct (mst_devid =? _); cbn [negb];
    (erewrite bind_run by reflexivity);
    (erewrite bind_run by reflexivity);
    destruct (devid =? _); reflexivity.
Qed.

End Startup.

(** ** The properties on the bench *)

(** The bench flash answers a ready poll at the second read at the
    latest: at once when the bus fails or the flash is idle, after one
    busy answer otherwise. *)
Lemma bench_flash_answers : flash_answers_within (W := bench) 2.
Proof.
  intros [ss fo bi md pv lg fb [st busy fid fl ids acc icm twi tm]].
  destruct st, busy; eexists; cbv; reflexivity.
Qed.

(** Five acquisitions into a buffer of two. *)
Lemma sample_buffer_bounded_witness :
  let cfg := bench_config 2 3 in
  let l := SampleLocals (adxl_data zero_sample) (icm_data zero_sample)
                        (ds_data zero_sample) in
  let m := reset_machine cfg (healthy_bench []) in
  g_buf_index m = 0%nat
  /\ g_buf_index (snd (sample_times cfg 5 l m)) = 2%nat.
Proof.
  cbv zeta. split; [reflexivity|].
  destruct (sample_buffer_bounded (bench_config 2 3) 5
              (SampleLocals (adxl_data zero_sample) (icm_data zero_sample)
                            (ds_data zero_sample))
              (reset_machine (bench_config 2 3) (healthy_bench [])) eq_refl)
    as [(l' & m' & E & Hi & _) _].
  rewrite E. exact Hi.
Defined.

(** The first acquisition on the bench: the registers give 1024, -1024
    and 16 LSB, the buffer receives 1000, -1000 and 15 mg. *)
Lemma conversion_applied_once_witness :
  let cfg := bench_config 2 3 in
  let l := SampleLocals (adxl_data zero_sample) (icm_data zero_sample)
                        (ds_data zero_sample) in
  let m := reset_machine cfg (healthy_bench []) in
  exists r : sample_locals,
    fst (acquire l m) = Ret r
    /\ icm20649.accel_x (low_g_gyro_data r) = 1024
    /\ g_sample_set_buf (snd (sample_impact_data cfg l m)) !! 0%nat =
       Some (Build_sample (high_g_data r)
                          (icm20649_convert_data (low_g_gyro_data r))
                          (rtc_data r))
    /\ icm20649.accel_x (icm20649_convert_data (low_g_gyro_data r)) = 1000.
Proof.
  cbv zeta.
  destruct (conversion_applied_once (bench_config 2 3)
              (SampleLocals (adxl_data zero_sample) (icm_data zero_sample)
                            (ds_data zero_sample))
              (reset_machine (bench_config 2 3) (healthy_bench [])))
    as [(r & w' & Ea & _ & Hst) _].
  exists r. rewrite Ea. split; [reflexivity|].
  assert (Hr : icm20649.accel_x (low_g_gyro_data r) = 1024).
  { vm_compute in Ea. injection Ea as <- _. reflexivity. }
  split; [exact Hr|]. split.
  - apply Hst; vm_compute; lia.
  - cbn [icm20649_convert_data icm20649.accel_x]. rewrite Hr.
    vm_compute. reflexivity.
Defined.

(** One record stored from address 0: the cursor comes back as 32, not
    as the 26 bytes of the record. *)
Lemma store_cursor_counterexample :
  let s := Build_sample (adxl372.Build 5 6 7) (icm20649.Build 1 2 3 4 5 6)
                        (ds1388.Build 20 1 2 3 4 5 6 7) in
  let m := Machine [s] [zero_sample] 1%nat false 0 [] [] (healthy_bench []) in
  fst (mt25ql256aba_store_samples 2 0 m) = Ret 32
  /\ 32 <> 0 + 1 * sizeof_impact_sample_t.
Proof. cbv zeta. split; [vm_compute; reflexivity|]. unfold sizeof_impact_sample_t. lia. Qed.

(** Two records stored from address 0 on the healthy bench. *)
Lemma store_cursor_advances_by_page_buffer_witness :
  let s0 := Build_sample (adxl372.Build 5 6 7) (icm20649.Build 1 2 3 4 5 6)
                         (ds1388.Build 20 1 2 3 4 5 6 7) in
  let s1 := Build_sample (adxl372.Build 8 9 10) (icm20649.Build 1 2 3 4 5 6)
                         (ds1388.Build 20 1 2 3 4 5 6 8) in
  let m := Machine [s0; s1] [zero_sample; zero_sample] 2%nat false 0 [] []
                   (healthy_bench []) in
  is_uint32 0
  /\ fst (mt25ql256aba_store_samples 2 0 m) = Ret 64
  /\ map fst (page_programs (flash_bus (snd (mt25ql256aba_store_samples 2 0 m))))
     = [[0; 0; 0]; [0; 0; 32]].
Proof.
  cbv zeta.
  assert (Hzero : is_uint32 0) by (unfold is_uint32; lia).
  split; [exact Hzero|].
  destruct (store_cursor_advances_by_page_buffer 2 0
              (Machine [Build_sample (adxl372.Build 5 6 7)
                                     (icm20649.Build 1 2 3 4 5 6)
                                     (ds1388.Build 20 1 2 3 4 5 6 7);
                        Build_sample (adxl372.Build 8 9 10)
                                     (icm20649.Build 1 2 3 4 5 6)
                                     (ds1388.Build 20 1 2 3 4 5 6 8)]
                       [zero_sample; zero_sample] 2%nat false 0 [] []
                       (healthy_bench []))
              bench_flash_answers Hzero)
    as [_ (m' & E & _ & Hp)].
  rewrite E. cbn [fst snd]. split; [reflexivity|].
  rewrite Hp. reflexivity.
Defined.

(** The same two records on a bench whose every transfer fails with
    status -1: the polls end, the byte they start from being zero on
    the bench, and both page programs are issued all the same, in
    order. *)
Lemma negative_status_logged_not_fatal_witness :
  let s0 := Build_sample (adxl372.Build 5 6 7) (icm20649.Build 1 2 3 4 5 6)
                         (ds1388.Build 20 1 2 3 4 5 6 7) in
  let s1 := Build_sample (adxl372.Build 8 9 10) (icm20649.Build 1 2 3 4 5 6)
                         (ds1388.Build 20 1 2 3 4 5 6 8) in
  let nack := Bench (-1) false [] [] [] [] [] 0 None in
  let m := Machine [s0; s1] [zero_sample; zero_sample] 2%nat false 0 [] [] nack in
  is_uint32 0
  /\ (exists cursor : Z, fst (mt25ql256aba_store_samples 2 0 m) = Ret cursor)
  /\ map snd (page_programs (flash_bus (snd (mt25ql256aba_store_samples 2 0 m))))
     = [flash_image s0; flash_image s1].
Proof.
  cbv zeta.
  assert (Hzero : is_uint32 0) by (unfold is_uint32; lia).
  split; [exact Hzero|].
  destruct (negative_status_logged_not_fatal 2 0
              (Machine [Build_sample (adxl372.Build 5 6 7)
                                     (icm20649.Build 1 2 3 4 5 6)
                                     (ds1388.Build 20 1 2 3 4 5 6 7);
                        Build_sample (adxl372.Build 8 9 10)
                                     (icm20649.Build 1 2 3 4 5 6)
                                     (ds1388.Build 20 1 2 3 4 5 6 8)]
                       [zero_sample; zero_sample] 2%nat false 0 [] []
                       (Bench (-1) false [] [] [] [] [] 0 None)))
    as (_ & Hstore & _).
  destruct (Hstore bench_flash_answers Hzero) as (cursor & m' & E & Hp & _).
  rewrite E. cbn [fst snd]. split; [exists cursor; reflexivity|].
  rewrite Hp. reflexivity.
Defined.

(** A bus that dies after the first busy answer: the status reads that
    follow return -1 and leave the byte, which holds the busy bit, so
    the first poll of the store loop is still going round after forty
    reads and neither of the two buffered records has been programmed.
    The claim has the loop process every record whatever a transfer
    returns. *)
Lemma store_loop_stuck_counterexample :
  let s0 := Build_sample (adxl372.Build 5 6 7) (icm20649.Build 1 2 3 4 5 6)
                         (ds1388.Build 20 1 2 3 4 5 6 7) in
  let s1 := Build_sample (adxl372.Build 8 9 10) (icm20649.Build 1 2 3 4 5 6)
                         (ds1388.Build 20 1 2 3 4 5 6 8) in
  let m := Machine [s0; s1] [zero_sample; zero_sample] 2%nat false 0 [] []
                   true in
  fst (mt25ql256aba_read_op 0x05 [] [1] false) = (-1, [1])
  /\ fst (mt25ql256aba_store_samples 40 0 m) = Stall
  /\ flash_bus (snd (mt25ql256aba_store_samples 40 0 m)) =
     replicate 40 status_read
  /\ page_programs (flash_bus (snd (mt25ql256aba_store_samples 40 0 m))) = [].
Proof. cbv zeta. repeat split; vm_compute; reflexivity. Qed.

(** A failed three-byte read on the bench leaves the caller's buffer as
    it was and hands the status back. *)
Lemma multibyte_read_atomic_on_failure_witness :
  let nack := Bench (-1) false [] [] [] [] [] 0 None in
  let m := reset_machine (bench_config 2 3) nack in
  icm20649_multibyte_read_reg 0x2D [7; 8; 9; 10] 3 m = (Ret (-1, [7; 8; 9; 10]), m).
Proof.
  cbv zeta.
  destruct (multibyte_read_atomic_on_failure 0x2D [7; 8; 9; 10] 3
              (reset_machine (bench_config 2 3)
                             (Bench (-1) false [] [] [] [] [] 0 None)))
    as [[_ E]|[Hpos _]].
  - lia.
  - reflexivity.
  - cbn. lia.
  - exact E.
  - exfalso. cbn in Hpos. lia.
Defined.

(** C5, at the failing input.  On a bench whose ADXL372 answers 0x00 for
    the Analog Devices identity (0xAD expected) and the right values
    everywhere else, [adxl372_startup_test] prints its failure line,
    then its pass line, and returns; [main] goes on through arming and
    the impact wait, captures three records and ends in the final wait
    after the report. *)
Theorem adxl372_identity_mismatch_not_halting :
  let cfg := bench_config 4 3 in
  let b := Bench 0 false [0x20; 0xBA; 0x19] [] [0x00; 0x1D; 0xFA]
                 [adxl372.Build 30 0 0; adxl372.Build 31 0 0]
                 [0x04; 0x00; 0xFC; 0x00; 0x00; 0x10; 0x00; 0x64; 0xFF; 0x9C; 0x7F; 0xFF]
                 0x12 None in
  let test := adxl372_startup_test cfg (reset_machine cfg b) in
  let run := main cfg 8 (reset_machine cfg b) in
  fst test = Ret tt
  /\ nrf_log (snd test) =
     [ LOG "" []; LOG "PERFORMING ADXL TEST...." [];
       LOG "1: adi device id = 0x%x (0xAD)" [0x00];
       LOG "ADXL READ TEST FAIL" [];
       LOG "2:mst device id2 = 0x%x (0x1D)" [0x1D];
       LOG "3:mems id = 0x%x (0xFA)(372 octal)" [0xFA];
       LOG "ADXL READ TEST PASS" [] ]
  /\ nrf_log (snd run) !! 19%nat = Some (LOG "ADXL READ TEST FAIL" [])
  /\ nrf_log (snd run) !! 30%nat = Some (LOG "Proximity threshold met" [])
  /\ nrf_log (snd run) !! 33%nat = Some (LOG "BEGIN MEASUREMENT" [])
  /\ g_buf_index (snd run) = 3%nat.
Proof.
  cbv zeta. repeat split; vm_compute; reflexivity.
Qed.

(** * Further properties *)

(** ** More on the timestamp codec *)

Lemma land_15 (v : Z) : Z.land v 15 = v mod 16.
Proof. change 15 with (Z.ones 4). rewrite Z.land_ones by lia. reflexivity. Qed.

Lemma shiftr_4 (v : Z) : Z.shiftr v 4 = v / 16.
Proof. rewrite Z.shiftr_div_pow2 by lia. reflexivity. Qed.

Lemma dec2hex_digits (v : Z) :
  0 <= v <= 99 -> dec2hex v = 16 * (v / 10) + v mod 10.
Proof.
  intros Hv. unfold dec2hex, uint8.
  pose proof (Z.div_mod v 10 ltac:(lia)) as E.
  pose proof (Z.mod_pos_bound v 10 ltac:(lia)) as Hr.
  assert (Hq : 0 <= v / 10 <= 9).
  { split; [apply Z.div_pos; lia|].
    enough (v / 10 < 10) by lia. apply Z.div_lt_upper_bound; lia. }
  rewrite Z.mod_small; lia.
Qed.

Lemma dec2hex_single_digit (d : Z) : 0 <= d <= 9 -> dec2hex d = d.
Proof.
  intros Hd. rewrite dec2hex_digits by lia.
  rewrite Z.div_small, Z.mod_small by lia. lia.
Qed.

Lemma hex2dec_after_dec2hex (v : Z) : 0 <= v <= 99 -> hex2dec (dec2hex v) = v.
Proof.
  intros Hv. rewrite dec2hex_digits by exact Hv.
  pose proof (Z.div_mod v 10 ltac:(lia)) as E.
  pose proof (Z.mod_pos_bound v 10 ltac:(lia)) as Hr.
  assert (Hq : 0 <= v / 10 <= 9).
  { split; [apply Z.div_pos; lia|].
    enough (v / 10 < 10) by lia. apply Z.div_lt_upper_bound; lia. }
  unfold hex2dec, uint8. rewrite shiftr_4.
  rewrite (Z.add_comm (16 * (v / 10))), (Z.mul_comm 16), Z.div_add by lia.
  rewrite (Z.div_small (v mod 10) 16) by lia.
  rewrite Z.mod_small by lia. lia.
Qed.

(** X1.  For a value of at most two decimal digits [dec2hex] yields a
    packed-decimal byte: the tens digit in the high nibble, the units
    digit in the low nibble. *)
Theorem dec2hex_packed_bcd (v : Z) :
  0 <= v <= 99 ->
  is_bcd (dec2hex v)
  /\ Z.shiftr (dec2hex v) 4 = v / 10
  /\ Z.land (dec2hex v) 15 = v mod 10.
Proof.
  intros Hv. rewrite dec2hex_digits by exact Hv.
  pose proof (Z.mod_pos_bound v 10 ltac:(lia)) as Hr.
  assert (Hq : 0 <= v / 10 <= 9).
  { split; [apply Z.div_pos; lia|].
    enough (v / 10 < 10) by lia. apply Z.div_lt_upper_bound; lia. }
  assert (Hhi : Z.shiftr (16 * (v / 10) + v mod 10) 4 = v / 10).
  { rewrite shiftr_4. rewrite Z.add_comm, Z.mul_comm, Z.div_add by lia.
    rewrite (Z.div_small (v mod 10) 16) by lia. lia. }
  assert (Hlo : Z.land (16 * (v / 10) + v mod 10) 15 = v mod 10).
  { rewrite land_15. rewrite Z.add_comm, Z.mul_comm, Z.mod_add by lia.
    apply Z.mod_small. lia. }
  unfold is_bcd. rewrite Hhi, Hlo. repeat split; lia.
Qed.

(** 47 becomes 0x47. *)
Lemma dec2hex_packed_bcd_witness :
  is_bcd (dec2hex 47) /\ Z.shiftr (dec2hex 47) 4 = 4 /\ Z.land (dec2hex 47) 15 = 7.
Proof. apply (dec2hex_packed_bcd 47). lia. Defined.

(** X2.  On packed-decimal bytes [hex2dec] yields ten times the high
    nibble plus the low nibble, a value of at most 99, and [dec2hex]
    takes it back to the byte. *)
Theorem dec2hex_hex2dec_on_bcd (b : Z) :
  is_bcd b ->
  0 <= hex2dec b <= 99
  /\ hex2dec b = 10 * Z.shiftr b 4 + Z.land b 15
  /\ dec2hex (hex2dec b) = b.
Proof.
  intros (Hb & Hhi & Hlo). rewrite shiftr_4 in Hhi. rewrite land_15 in Hlo.
  pose proof (Z.div_mod b 16 ltac:(lia)) as E.
  pose proof (Z.mod_pos_bound b 16 ltac:(lia)) as Hr.
  assert (Hq : 0 <= b / 16) by (apply Z.div_pos; lia).
  assert (Hd : hex2dec b = 10 * (b / 16) + b mod 16).
  { unfold hex2dec, uint8. rewrite shiftr_4. rewrite Z.mod_small; lia. }
  rewrite shiftr_4, land_15, Hd.
  split; [lia|]. split; [reflexivity|].
  rewrite dec2hex_digits by lia.
  replace ((10 * (b / 16) + b mod 16) / 10) with (b / 16).
  2:{ rewrite (Z.add_comm (10 * (b / 16))), (Z.mul_comm 10), Z.div_add by lia.
      rewrite (Z.div_small (b mod 16) 10) by lia. lia. }
  replace ((10 * (b / 16) + b mod 16) mod 10) with (b mod 16).
  2:{ rewrite (Z.add_comm (10 * (b / 16))), (Z.mul_comm 10), Z.mod_add by lia.
      symmetry. apply Z.mod_small. lia. }
  lia.
Qed.

(** 0x59 is read as 59 and written back as 0x59. *)
Lemma dec2hex_hex2dec_on_bcd_witness :
  hex2dec 0x59 = 59 /\ dec2hex (hex2dec 0x59) = 0x59.
Proof.
  destruct (dec2hex_hex2dec_on_bcd 0x59) as (_ & H1 & H2).
  - unfold is_bcd. rewrite shiftr_4, land_15. change (0x59 / 16) with 5.
    change (0x59 mod 16) with 9. lia.
  - split; [exact H1|exact H2].
Defined.

(** ** Reading the clock *)

Section Clock.

Context {W : Type} `{Platform W}.

Lemma readRegister_run (P : W -> Prop) (regs : Z -> Z) (r : Z) (m : machine W) :
  clock_holds P regs ->
  P (world m) ->
  exists w' : W, readRegister r m = (Ret (regs r), with_world m w') /\ P w'.
Proof.
  intros Hc Hp. destruct (Hc r (world m) Hp) as [E Hp'].
  eexists. split; [|exact Hp'].
  unfold readRegister. erewrite bind_run by reflexivity.
  rewrite E. reflexivity.
Qed.

(** The eight register reads of [get_time], in its order. *)
Lemma get_time_run (P : W -> Prop) (regs : Z -> Z) (m : machine W) :
  clock_holds P regs ->
  P (world m) ->
  exists w' : W,
    P w' /\ get_time m = (Ret (time_of_registers regs), with_world m w').
Proof.
  intros Hc Hp. unfold get_time.
  destruct (readRegister_run P regs ds1388.YEAR_REG m Hc Hp) as (w1 & E1 & P1).
  rewrite (bind_run _ _ _ _ _ E1).
  destruct (readRegister_run P regs ds1388.MONTH_REG (with_world m w1) Hc P1) as (w2 & E2 & P2).
  rewrite (bind_run _ _ _ _ _ E2).
  destruct (readRegister_run P regs ds1388.DATE_REG (with_world (with_world m w1) w2) Hc P2) as (w3 & E3 & P3).
  rewrite (bind_run _ _ _ _ _ E3).
  destruct (readRegister_run P regs ds1388.DAY_REG (with_world (with_world (with_world m w1) w2) w3) Hc P3) as (w4 & E4 & P4).
  rewrite (bind_run _ _ _ _ _ E4).
  destruct (readRegister_run P regs ds1388.HOUR_REG (with_world (with_world (with_world (with_world m w1) w2) w3) w4) Hc P4) as (w5 & E5 & P5).
  rewrite (bind_run _ _ _ _ _ E5).
  destruct (readRegister_run P regs ds1388.MIN_REG (with_world (with_world (with_world (with_world (with_world m w1) w2) w3) w4) w5) Hc P5) as (w6 & E6 & P6).
  rewrite (bind_run _ _ _ _ _ E6).
  destruct (readRegister_run P regs ds1388.SEC_REG (with_world (with_world (with_world (with_world (with_world (with_world m w1) w2) w3) w4) w5) w6) Hc P6) as (w7 & E7 & P7).
  rewrite (bind_run _ _ _ _ _ E7).
  destruct (readRegister_run P regs ds1388.HUNDRED_SEC_REG
              (with_world (with_world (with_world (with_world (with_world (with_world (with_world m w1) w2) w3) w4) w5) w6) w7) Hc P7)
    as (w8 & E8 & P8).
  rewrite (bind_run _ _ _ _ _ E8).
  exists w8. split; [exact P8|].
  unfold time_of_registers. cbv zeta.
  destruct (Z.land (regs ds1388.HOUR_REG) 64 =? ds1388.HOUR_MODE_24);
    reflexivity.
Qed.

Lemma small_hour_cases (h : Z) :
  0 <= h <= 23 ->
  h = 0 \/ h = 1 \/ h = 2 \/ h = 3 \/ h = 4 \/ h = 5 \/ h = 6 \/ h = 7 \/
  h = 8 \/ h = 9 \/ h = 10 \/ h = 11 \/ h = 12 \/ h = 13 \/ h = 14 \/
  h = 15 \/ h = 16 \/ h = 17 \/ h = 18 \/ h = 19 \/ h = 20 \/ h = 21 \/
  h = 22 \/ h = 23.
Proof. lia. Qed.


(** Registers that agree with a packed-decimal time on the eight time
    registers. *)
Lemma time_of_registers_24h (regs : Z -> Z) (t : ds1388.data_t) :
  (forall r : Z, 0 <= r <= 7 -> regs r = ds1388_registers t 0 r) ->
  0 <= ds1388.year t <= 99 -> 0 <= ds1388.month t <= 99 ->
  0 <= ds1388.date t <= 99 -> 0 <= ds1388.day t <= 9 ->
  0 <= ds1388.hour t <= 23 -> 0 <= ds1388.minute t <= 99 ->
  0 <= ds1388.second t <= 99 -> 0 <= ds1388.hundreth t <= 99 ->
  time_of_registers regs = (2, t).
Proof.
  intros Hr Hy Hmo Hd Hdy Hh Hmi Hs Hhs.
  unfold time_of_registers. cbv zeta.
  rewrite (Hr ds1388.YEAR_REG), (Hr ds1388.MONTH_REG), (Hr ds1388.DATE_REG),
    (Hr ds1388.DAY_REG), (Hr ds1388.HOUR_REG), (Hr ds1388.MIN_REG),
    (Hr ds1388.SEC_REG), (Hr ds1388.HUNDRED_SEC_REG)
    by (cbv; split; discriminate).
  assert (Hhour : ds1388_registers t 0 ds1388.HOUR_REG = dec2hex (ds1388.hour t)).
  { unfold ds1388_registers. cbn [Z.eqb ds1388.HOUR_REG ds1388.HUNDRED_SEC_REG
      ds1388.SEC_REG ds1388.MIN_REG Pos.eqb].
    rewrite Z.lor_0_r. unfold uint8, dec2hex, uint8.
    apply Z.mod_small. apply Z.mod_pos_bound. lia. }
  assert (Hmode : Z.land (dec2hex (ds1388.hour t)) 0x40 = 0).
  { destruct (small_hour_cases _ Hh) as
      [E|[E|[E|[E|[E|[E|[E|[E|[E|[E|[E|[E|[E|[E|[E|[E|[E|[E|[E|[E|[E|[E|[E|E]]]]]]]]]]]]]]]]]]]]]]];
      rewrite E; reflexivity. }
  rewrite Hhour, Hmode. cbn [Z.eqb ds1388.HOUR_MODE_24].
  unfold ds1388_registers.
  cbn [Z.eqb Pos.eqb ds1388.HOUR_REG ds1388.HUNDRED_SEC_REG ds1388.SEC_REG
       ds1388.MIN_REG ds1388.DAY_REG ds1388.DATE_REG ds1388.MONTH_REG
       ds1388.YEAR_REG].
  rewrite !hex2dec_after_dec2hex by lia.
  rewrite (dec2hex_single_digit (ds1388.day t)) by lia.
  destruct t; reflexivity.
Qed.


End Clock.

(** The register file answers every one-byte read with the register
    addressed and stays as it is. *)
Lemma register_file_holds (regs : Z -> Z) :
  clock_holds (W := Z -> Z) (fun w => w = regs) regs.
Proof.
  intros r w ->. split; [|reflexivity].
  cbn. rewrite Z.add_0_r. reflexivity.
Qed.

Lemma register_cases (r : Z) :
  0 <= r <= 7 ->
  r = 0 \/ r = 1 \/ r = 2 \/ r = 3 \/ r = 4 \/ r = 5 \/ r = 6 \/ r = 7.
Proof. lia. Qed.

(** X5.  On a clock that is a plain register file, [ds_config] followed
    by [get_time] returns the configured time: with the eight values of
    [init_time] (year, month, date, day, hour, minute, second,
    hundredth) in their ranges and the 24-hour format, the time read is
    the time written, with return code 2. *)
Theorem ds_config_then_get_time (cfg : config) (t : ds1388.data_t)
    (m : machine (Z -> Z)) :
  init_time cfg =
    [ds1388.year t; ds1388.month t; ds1388.date t; ds1388.day t;
     ds1388.hour t; ds1388.minute t; ds1388.second t; ds1388.hundreth t] ->
  time_format cfg = 0 ->
  0 <= ds1388.year t <= 99 -> 0 <= ds1388.month t <= 99 ->
  0 <= ds1388.date t <= 99 -> 0 <= ds1388.day t <= 9 ->
  0 <= ds1388.hour t <= 23 -> 0 <= ds1388.minute t <= 99 ->
  0 <= ds1388.second t <= 99 -> 0 <= ds1388.hundreth t <= 99 ->
  exists m' : machine (Z -> Z),
    bind (ds_config cfg) (fun _ => get_time) m = (Ret (2, t), m')
    /\ nrf_log m' = nrf_log m ++ [LOG "RTC initialized" []].
Proof.
  intros Hinit Hfmt Hy Hmo Hd Hdy Hh Hmi Hs Hhs.
  unfold ds_config.
  erewrite bind_run by (erewrite bind_run by reflexivity;
                        erewrite bind_run by reflexivity; reflexivity).
  match goal with |- context [get_time ?m0] => set (m1 := m0) end.
  destruct (get_time_run (fun w => w = world m1) (world m1) m1
              (register_file_holds _) eq_refl) as (w' & -> & E).
  rewrite E. exists (with_world m1 (world m1)).
  split; [|reflexivity].
  rewrite (time_of_registers_24h _ t); auto.
  intros r Hr. subst m1. machine_simpl.
  rewrite Hinit, Hfmt.
  destruct (register_cases r Hr) as [E'|[E'|[E'|[E'|[E'|[E'|[E'|E']]]]]]];
    rewrite E'; reflexivity.
Qed.

(** The time of the bench configuration, 1 January 2020, written and
    read back. *)
Lemma ds_config_then_get_time_witness :
  let cfg := bench_config 2 3 in
  fst (bind (ds_config cfg) (fun _ => get_time)
            (reset_machine cfg (fun _ : Z => 0))) =
  Ret (2, ds1388.Build 20 1 1 3 0 0 0 0).
Proof.
  cbv zeta.
  destruct (ds_config_then_get_time (bench_config 2 3)
              (ds1388.Build 20 1 1 3 0 0 0 0)
              (reset_machine (bench_config 2 3) (fun _ : Z => 0)))
    as (m' & E & _).
  1, 2: reflexivity.
  1-8: (cbn; lia).
  rewrite E. reflexivity.
Defined.





(** ** Reading the low-range sensor *)

Lemma lor_shiftl_8 (hi lo : Z) :
  0 <= lo < 256 -> Z.lor (Z.shiftl hi 8) lo = hi * 256 + lo.
Proof.
  intros Hlo.
  assert (Hland : Z.land (Z.shiftl hi 8) lo = 0).
  { apply Z.bits_inj'. intros n Hn.
    rewrite Z.land_spec, Z.bits_0.
    destruct (Z_lt_le_dec n 8) as [Hlt|Hge].
    - rewrite Z.shiftl_spec_low by lia. reflexivity.
    - replace (Z.testbit lo n) with false; [apply andb_false_r|].
      symmetry. destruct (Z.eq_dec lo 0) as [->|Hnz]; [apply Z.bits_0|].
      apply Z.bits_above_log2; [lia|].
      apply Z.log2_lt_pow2; [lia|].
      apply Z.lt_le_trans with (2 ^ 8); [lia|].
      apply Z.pow_le_mono_r; lia. }
  pose proof (Z.add_lor_land (Z.shiftl hi 8) lo) as E.
  rewrite Hland, Z.add_0_r in E. rewrite E.
  rewrite Z.shiftl_mul_pow2 by lia. reflexivity.
Qed.

(** A signed 16-bit value put back together from its two bytes. *)
Lemma int16_of_halves (v : Z) :
  is_int16 v ->
  int16 (Z.lor (Z.shiftl (Z.land (Z.shiftr v 8) 255) 8) (Z.land v 255)) = v.
Proof.
  intros Hv. unfold is_int16 in Hv.
  rewrite !land_255, Z.shiftr_div_pow2 by lia. change (2 ^ 8) with 256.
  rewrite lor_shiftl_8 by (apply Z.mod_pos_bound; lia).
  unfold int16.
  pose proof (Z.div_mod v 256 ltac:(lia)) as E1.
  pose proof (Z.mod_pos_bound v 256 ltac:(lia)) as B1.
  pose proof (Z.div_mod (v / 256) 256 ltac:(lia)) as E2.
  pose proof (Z.mod_pos_bound (v / 256) 256 ltac:(lia)) as B2.
  assert (Hq : -128 <= v / 256 < 128).
  { split; [apply Z.div_le_lower_bound; lia|apply Z.div_lt_upper_bound; lia]. }
  assert (Hqq : v / 256 / 256 = -1 \/ v / 256 / 256 = 0).
  { assert (-1 <= v / 256 / 256 < 1); [|lia].
    split; [apply Z.div_le_lower_bound; lia|apply Z.div_lt_upper_bound; lia]. }
  destruct Hqq as [Hn|Hz].
  - replace ((v / 256) mod 256 * 256 + v mod 256 + 32768)
      with (v + 32768 + 1 * 65536) by lia.
    rewrite Z.mod_add by lia. rewrite Z.mod_small by lia. lia.
  - replace ((v / 256) mod 256 * 256 + v mod 256 + 32768)
      with (v + 32768) by lia.
    rewrite Z.mod_small by lia. lia.
Qed.

Section LowRange.

Context {W : Type} `{Platform W}.

Lemma icm20649_write_reg_run (address data : Z) (m : machine W) :
  icm20649_write_reg address data m =
  (Ret (fst (fst (spi_write_and_read SPI_ICM20649_CS_PIN [address; data]
                                     [0; 0] (world m)))),
   with_world m (snd (spi_write_and_read SPI_ICM20649_CS_PIN [address; data]
                                         [0; 0] (world m)))).
Proof.
  unfold icm20649_write_reg. erewrite bind_run by reflexivity.
  destruct (fst (spi_write_and_read _ _ _ _)). reflexivity.
Qed.

(** X6.  When the twelve-byte SPI read of [icm20649_read_gyro_accel_data]
    returns a negative status, the function returns all the same, with a
    record whose six values are zero: nothing tells a failed read from a
    sensor at rest. *)
Theorem icm20649_failed_read_gives_zeros (m : machine W) :
  let w1 := snd (spi_write_and_read SPI_ICM20649_CS_PIN [0x7F; 0x0] [0; 0]
                                    (world m)) in
  let xfer := spi_write_and_read SPI_ICM20649_CS_PIN [uint8 (Z.lor 0x2D 0x80)]
                                 (replicate 13 0) w1 in
  fst (fst xfer) < 0 ->
  icm20649_read_gyro_accel_data m =
  (Ret (icm20649.Build 0 0 0 0 0 0), with_world m (snd xfer)).
Proof.
  intros w1 xfer Hneg. unfold icm20649_read_gyro_accel_data.
  rewrite (bind_run _ _ _ _ _ (icm20649_write_reg_run _ _ m)).
  fold w1. unfold icm20649_multibyte_read_reg.
  change (256 <? 12)%nat with false. cbv iota.
  change (replicate (12 + 1) 0) with (replicate 13 0).
  unfold bind at 1 2. unfold hw at 1. machine_simpl. fold xfer.
  destruct (fst xfer) as [r buf]. cbn [fst] in Hneg.
  destruct (Z.ltb_spec r 0) as [_|Hge]; [|lia].
  reflexivity.
Qed.

(** X7.  When the read succeeds and the sensor has sent the six values
    as register pairs, high byte first, after the dummy byte of the
    address phase, [icm20649_read_gyro_accel_data] returns those six
    values. *)
Theorem icm20649_read_decodes_register_pairs (m : machine W)
    (d : icm20649.data_t) (dummy : Z) :
  let w1 := snd (spi_write_and_read SPI_ICM20649_CS_PIN [0x7F; 0x0] [0; 0]
                                    (world m)) in
  let xfer := spi_write_and_read SPI_ICM20649_CS_PIN [uint8 (Z.lor 0x2D 0x80)]
                                 (replicate 13 0) w1 in
  0 <= fst (fst xfer) ->
  snd (fst xfer) =
    dummy :: register_pair (icm20649.accel_x d) ++
             register_pair (icm20649.accel_y d) ++
             register_pair (icm20649.accel_z d) ++
             register_pair (icm20649.gyro_x d) ++
             register_pair (icm20649.gyro_y d) ++
             register_pair (icm20649.gyro_z d) ->
  icm_wf d ->
  icm20649_read_gyro_accel_data m = (Ret d, with_world m (snd xfer)).
Proof.
  intros w1 xfer Hpos Hbuf (Hax & Hay & Haz & Hgx & Hgy & Hgz).
  unfold icm20649_read_gyro_accel_data.
  rewrite (bind_run _ _ _ _ _ (icm20649_write_reg_run _ _ m)).
  fold w1. unfold icm20649_multibyte_read_reg.
  change (256 <? 12)%nat with false. cbv iota.
  change (replicate (12 + 1) 0) with (replicate 13 0).
  unfold bind at 1 2. unfold hw at 1. machine_simpl. fold xfer.
  destruct (fst xfer) as [r buf]. cbn [fst snd] in Hpos, Hbuf. subst buf.
  destruct (Z.ltb_spec r 0) as [Hlt|_]; [lia|].
  cbv zeta. unfold ret. f_equal. f_equal.
  unfold register_pair, memcpy, byte_at. cbn [app drop take replicate lookup
    list_lookup default id from_option].
  rewrite !int16_of_halves by assumption.
  destruct d; reflexivity.
Qed.

End LowRange.

(** On the bench with a failing bus. *)
Lemma icm20649_failed_read_gives_zeros_witness :
  let m := reset_machine (bench_config 2 3)
                         (Bench (-1) false [] [] [] [] [1; 2; 3] 0 None) in
  fst (icm20649_read_gyro_accel_data m) = Ret (icm20649.Build 0 0 0 0 0 0).
Proof.
  cbv zeta.
  rewrite (icm20649_failed_read_gives_zeros
             (reset_machine (bench_config 2 3)
                            (Bench (-1) false [] [] [] [] [1; 2; 3] 0 None))).
  - reflexivity.
  - vm_compute. reflexivity.
Defined.

(** On the healthy bench, whose sensor sends 04 00 FC 00 00 10 00 64 FF
    9C 7F FF. *)
Lemma icm20649_read_decodes_register_pairs_witness :
  let m := reset_machine (bench_config 2 3) (healthy_bench []) in
  fst (icm20649_read_gyro_accel_data m) =
  Ret (icm20649.Build 1024 (-1024) 16 100 (-100) 32767).
Proof.
  cbv zeta.
  rewrite (icm20649_read_decodes_register_pairs
             (reset_machine (bench_config 2 3) (healthy_bench []))
             (icm20649.Build 1024 (-1024) 16 100 (-100) 32767) 0).
  - reflexivity.
  - vm_compute. discriminate.
  - reflexivity.
  - unfold icm_wf, is_int16. cbn. lia.
Defined.

(** ** The flash protocol on the bus *)

Section FlashProtocol.

Context {W : Type} `{Platform W}.

Lemma flash_reads_status_reads (k : nat) :
  flash_reads (replicate k status_read) = [].
Proof. induction k as [|k IH]; [reflexivity|exact IH]. Qed.

Lemma flash_reads_app (t1 t2 : list bus_event) :
  flash_reads (t1 ++ t2) = flash_reads t1 ++ flash_reads t2.
Proof. apply omap_app. Qed.

Lemma check_ready_loop_status_reads (fuel : nat) (b : Z) (m : machine W) :
  exists k : nat,
    (k <= fuel)%nat
    /\ snd (check_ready_loop fuel b m) =
       with_world (with_flash_bus m (flash_bus m ++ replicate k status_read))
                  (polled_world k b (world m))
    /\ (fst (check_ready_loop fuel b m) = Ret tt /\ (1 <= k)%nat
        \/ fst (check_ready_loop fuel b m) = Stall /\ k = fuel).
Proof.
  revert b m. induction fuel as [|fuel IH]; intros b m.
  - exists 0%nat. split; [lia|]. split; [|right; auto].
    cbn. rewrite app_nil_r. destruct m; reflexivity.
  - cbn [check_ready_loop].
    rewrite (bind_run _ _ _ _ _ (flash_read_op_run _ _ _ m)).
    destruct (fst (mt25ql256aba_read_op _ _ _ _)) as [r buf].
    set (m1 := with_world _ _).
    destruct (Z.eqb_spec (Z.land (byte_at buf 0) 1) 1) as [E1|_].
    + rewrite E1. destruct (IH 1 m1) as (k & Hk & E & Hres).
      exists (S k). split; [lia|]. split.
      * rewrite E. subst m1. cbn [polled_world]. unfold status_poll.
        destruct m; machine_simpl.
        rewrite <- app_assoc. reflexivity.
      * destruct Hres as [[Hr Hk1]|[Hs Hkf]]; [left|right]; split; auto; lia.
    + exists 1%nat. split; [lia|]. split; [|left; split; auto].
      subst m1. destruct m; reflexivity.
Qed.

(** X8.  A ready poll puts nothing on the flash bus but reads of the
    status register, at most as many as the model follows, and changes
    nothing else of the machine but the hardware state: the sample and
    output buffers, the length and the diagnostic output are as before.
    The first read is handed the uninitialised byte, every later one
    the busy bit of the read before.  The poll returns after at least
    one read, or is still polling; it never parks the core.  It looks at
    the byte only, not at the status: on a bus whose status reads fail
    and leave the byte alone, a poll that starts from a byte with bit 0
    set never returns. *)
Theorem check_ready_flag_only_reads_status (fuel : nat) (m : machine W) :
  let run := mt25ql256aba_check_ready_flag fuel m in
  (exists k : nat,
     (k <= fuel)%nat
     /\ flash_bus (snd run) = flash_bus m ++ replicate k status_read
     /\ world (snd run) =
        polled_world k (uninitialised_uint8 (world m)) (world m)
     /\ g_sample_set_buf (snd run) = g_sample_set_buf m
     /\ g_flash_output_buf (snd run) = g_flash_output_buf m
     /\ g_buf_index (snd run) = g_buf_index m
     /\ nrf_log (snd run) = nrf_log m
     /\ page_programs (flash_bus (snd run)) = page_programs (flash_bus m)
     /\ (fst run = Ret tt /\ (1 <= k)%nat \/ fst run = Stall /\ k = fuel))
  /\ (forall P : W -> Prop,
        status_reads_fail P -> P (world m) ->
        Z.land (uninitialised_uint8 (world m)) 1 = 1 ->
        fst run = Stall
        /\ flash_bus (snd run) = flash_bus m ++ replicate fuel status_read).
Proof.
  cbv zeta. rewrite check_ready_flag_loop. split.
  - destruct (check_ready_loop_status_reads fuel
                (uninitialised_uint8 (world m)) m) as (k & Hk & E & Hres).
    exists k. rewrite E. machine_simpl.
    repeat split; try assumption; try reflexivity.
    rewrite page_programs_app, page_programs_status_reads, app_nil_r.
    reflexivity.
  - intros P Hfail HP Hodd.
    destruct (check_ready_loop_stuck P fuel _ m Hfail HP Hodd)
      as (w' & _ & E).
    rewrite E. cbn [fst snd]. machine_simpl. auto.
Qed.

Lemma check_ready_flag_answered_reads (fuel : nat) (m : machine W) :
  flash_answers_within (W := W) fuel ->
  exists k : nat,
    (1 <= k <= fuel)%nat
    /\ mt25ql256aba_check_ready_flag fuel m =
       (Ret tt,
        with_world (with_flash_bus m (flash_bus m ++ replicate k status_read))
                   (polled_world k (uninitialised_uint8 (world m)) (world m))).
Proof.
  intros Hready. destruct (Hready m) as (m' & E).
  destruct (check_ready_loop_status_reads fuel
              (uninitialised_uint8 (world m)) m) as (k & Hk & Em & Hres).
  rewrite <- check_ready_flag_loop in Em, Hres.
  rewrite E in Em, Hres. cbn [fst snd] in Em, Hres. subst m'.
  destruct Hres as [[_ Hk1]|[Hs _]]; [|discriminate Hs].
  exists k. split; [lia|exact E].
Qed.

(** One record stored, step by step. *)
Lemma store_sample_steps (fuel i : nat) (l : store_locals) (m : machine W) :
  flash_answers_within (W := W) fuel ->
  exists k1 k2 : nat,
    (1 <= k1 <= fuel)%nat /\ (1 <= k2 <= fuel)%nat /\
    let ab := convert_4byte_address_to_3byte_address (sl_flash_addr l)
                                                     (sl_flash_addr_buf l) in
    let buf := sample_bytes (sample_at (g_sample_set_buf m) i) ++
               drop 26 (sl_buf l) in
    let w1 := polled_world k1 (uninitialised_uint8 (world m)) (world m) in
    let w2 := snd (mt25ql256aba_write_enable w1) in
    let w3 := snd (mt25ql256aba_write_op 0x02 ab buf w2) in
    let w4 := snd (mt25ql256aba_write_disable w3) in
    let w5 := polled_world k2 (uninitialised_uint8 w4) w4 in
    let rd := mt25ql256aba_read_op 0x03 ab (sl_out_buf l) w5 in
    let out_buf := snd (fst rd) in
    let reread :=
      sample_of_bytes
        (memcpy (sample_bytes (sample_at (g_flash_output_buf m) i)) out_buf 26) in
    store_sample fuel i l m =
    (Ret (StoreLocals (uint32 (sl_flash_addr l + 32)) ab buf out_buf),
     Machine (g_sample_set_buf m) (<[i := reread]> (g_flash_output_buf m))
             (g_buf_index m) (g_measurement_done m) (prox_val m)
             (nrf_log m ++
              [ LOG "" [];
                LOG "WRITE: ID: %d, addr: 0x%03x" [Z.of_nat i; sl_flash_addr l];
                LOG "READ:  ID: %d, addr: 0x%03x, OUTPUT: %d (%d)"
                    [Z.of_nat i; sl_flash_addr l;
                     adxl372.x (adxl_data reread);
                     adxl372.x (adxl_data (sample_at (g_sample_set_buf m) i))] ])
             (flash_bus m ++
              replicate k1 status_read ++
              [ FlashWriteEnable; FlashWrite 0x02 ab buf; FlashWriteDisable ] ++
              replicate k2 status_read ++
              [ FlashRead 0x03 ab (length (sl_out_buf l)) ])
             (snd rd)).
Proof.
  intros Hready. destruct m as [ss fo bi md pv lg fb w].
  unfold store_sample.
  change (Z.to_nat (uint8 sizeof_impact_sample_t)) with 26%nat.
  machine_simpl.
  set (ab := convert_4byte_address_to_3byte_address _ _).
  erewrite bind_run by reflexivity.
  erewrite bind_run by reflexivity.
  machine_simpl.
  match goal with |- context [bind (mt25ql256aba_check_ready_flag fuel) _ ?m0] =>
    destruct (check_ready_flag_answered_reads fuel m0 Hready)
      as (k1 & Hk1 & E1)
  end.
  erewrite bind_run by exact E1. clear E1.
  erewrite bind_run by reflexivity.
  machine_simpl.
  unfold memcpy at 1. rewrite take_sample_bytes.
  set (buf := sample_bytes (sample_at ss i) ++ drop 26 (sl_buf l)).
  set (w1 := polled_world k1 (uninitialised_uint8 w) w).
  erewrite bind_run by apply flash_write_enable_run.
  machine_simpl.
  set (w2 := snd (mt25ql256aba_write_enable w1)).
  erewrite bind_run by apply flash_write_op_run.
  machine_simpl.
  set (w3 := snd (mt25ql256aba_write_op _ _ _ w2)).
  erewrite bind_run by apply flash_write_disable_run.
  machine_simpl.
  set (w4 := snd (mt25ql256aba_write_disable w3)).
  match goal with |- context [bind (mt25ql256aba_check_ready_flag fuel) _ ?m0] =>
    destruct (check_ready_flag_answered_reads fuel m0 Hready)
      as (k2 & Hk2 & E2)
  end.
  erewrite bind_run by exact E2. clear E2.
  machine_simpl.
  set (w5 := polled_world k2 (uninitialised_uint8 w4) w4).
  erewrite bind_run by apply flash_read_op_run.
  machine_simpl.
  exists k1, k2. split; [exact Hk1|]. split; [exact Hk2|].
  cbv zeta.
  change 2 with MT25QL256ABA_PAGE_PROGRAM.
  change 3 with MT25QL256ABA_READ.
  fold ab buf w1 w2 w3 w4 w5.
  destruct (mt25ql256aba_read_op MT25QL256ABA_READ ab (sl_out_buf l) w5)
    as [[r out_buf] w6].
  cbn [fst snd].
  erewrite bind_run by reflexivity.
  erewrite bind_run by reflexivity.
  erewrite bind_run by reflexivity.
  machine_simpl. unfold ret.
  rewrite <- !app_assoc. reflexivity.
Qed.

(** X9.  One record stored, as seen on the flash bus: ready polls, then
    write enable, one page program of the 32-byte page buffer at the
    device address of the cursor, write disable, ready polls again, and
    one read back from the same device address into the read buffer.
    Nothing else is issued, and each poll phase holds at least one
    status read. *)
Theorem store_sample_bus_protocol (fuel i : nat) (l : store_locals)
    (m : machine W) :
  flash_answers_within (W := W) fuel ->
  exists (l' : store_locals) (m' : machine W) (k1 k2 : nat),
    store_sample fuel i l m = (Ret l', m')
    /\ (1 <= k1 <= fuel)%nat /\ (1 <= k2 <= fuel)%nat
    /\ flash_bus m' =
       flash_bus m ++
       replicate k1 status_read ++
       [ FlashWriteEnable;
         FlashWrite MT25QL256ABA_PAGE_PROGRAM (sl_flash_addr_buf l') (sl_buf l');
         FlashWriteDisable ] ++
       replicate k2 status_read ++
       [ FlashRead MT25QL256ABA_READ (sl_flash_addr_buf l')
                   (length (sl_out_buf l)) ]
    /\ sl_flash_addr_buf l' =
       convert_4byte_address_to_3byte_address (sl_flash_addr l)
                                              (sl_flash_addr_buf l)
    /\ sl_buf l' =
       sample_bytes (sample_at (g_sample_set_buf m) i) ++ drop 26 (sl_buf l).
Proof.
  intros Hready.
  destruct (store_sample_steps fuel i l m Hready) as (k1 & k2 & Hk1 & Hk2 & E).
  cbv zeta in E.
  eexists _, _, k1, k2. split; [exact E|].
  split; [exact Hk1|]. split; [exact Hk2|].
  machine_simpl. cbn [sl_flash_addr_buf sl_buf]. auto.
Qed.

End FlashProtocol.

(** On the dead bus every status read fails and leaves the byte. *)
Lemma dead_bus_status_reads_fail :
  status_reads_fail (W := bool) (fun alive => alive = false).
Proof. intros b w ->. cbn. split; [lia|split; reflexivity]. Qed.

(** A poll on the dead bus, where the stack holds 0xFF: seven reads
    followed, seven reads made, and no end. *)
Lemma check_ready_flag_only_reads_status_witness :
  let m := Machine [] [] 0%nat false 0 [] [] false in
  fst (mt25ql256aba_check_ready_flag 7 m) = Stall
  /\ flash_bus (snd (mt25ql256aba_check_ready_flag 7 m)) =
     replicate 7 status_read.
Proof.
  cbv zeta.
  destruct (check_ready_flag_only_reads_status 7
              (Machine [] [] 0%nat false 0 [] [] false)) as [_ Hstuck].
  apply (Hstuck (fun alive => alive = false));
    [exact dead_bus_status_reads_fail|reflexivity|reflexivity].
Defined.

(** On the healthy bench the first poll phase takes one read, the second
    two: the flash is busy once after the page program. *)
Lemma store_sample_bus_protocol_witness :
  let s := Build_sample (adxl372.Build 5 6 7) (icm20649.Build 1 2 3 4 5 6)
                        (ds1388.Build 20 1 2 3 4 5 6 7) in
  let m := Machine [s] [zero_sample] 1%nat false 0 [] [] (healthy_bench []) in
  let l := StoreLocals 0 [0; 0; 0] (replicate 32 0) (replicate 32 0) in
  flash_bus (snd (store_sample 2 0 l m)) =
  [ status_read; FlashWriteEnable;
    FlashWrite 0x02 [0; 0; 0] (flash_image s); FlashWriteDisable;
    status_read; status_read; FlashRead 0x03 [0; 0; 0] 32 ].
Proof.
  cbv zeta.
  destruct (store_sample_bus_protocol 2 0
              (StoreLocals 0 [0; 0; 0] (replicate 32 0) (replicate 32 0))
              (Machine [Build_sample (adxl372.Build 5 6 7)
                                     (icm20649.Build 1 2 3 4 5 6)
                                     (ds1388.Build 20 1 2 3 4 5 6 7)]
                       [zero_sample] 1%nat false 0 [] [] (healthy_bench []))
              bench_flash_answers)
    as (l' & m' & k1 & k2 & E & _ & _ & Hbus & Hab & Hbuf).
  rewrite E. cbn [snd]. rewrite Hbus, Hab, Hbuf.
  vm_compute in E. injection E as _ Em. rewrite <- Em in Hbus.
  vm_compute in Hbus.
  assert (Hk : k1 = 1%nat /\ k2 = 2%nat).
  { destruct k1 as [|[|k1]]; try discriminate Hbus.
    destruct k2 as [|[|[|k2]]]; try discriminate Hbus. auto. }
  destruct Hk as [-> ->]. reflexivity.
Defined.

(** ** Reading back from flash *)

Section Retrieving.
Context {W : Type} `{Platform W}.

Lemma retrieve_sample_steps (fuel i : nat) (addr32 : Z) (addr : list Z)
    (m : machine W) :
  flash_answers_within (W := W) fuel ->
  exists k : nat,
    (1 <= k <= fuel)%nat /\
    let ab := convert_4byte_address_to_3byte_address addr32 addr in
    let w1 := polled_world k (uninitialised_uint8 (world m)) (world m) in
    let rd := mt25ql256aba_read_op 0x03 ab
                (sample_bytes (sample_at (g_flash_output_buf m) i)) w1 in
    let reread := sample_of_bytes (snd (fst rd)) in
    retrieve_sample fuel i (addr32, addr) m =
    (Ret (uint32 (addr32 + 32), ab),
     Machine (g_sample_set_buf m) (<[i := reread]> (g_flash_output_buf m))
             (g_buf_index m) (g_measurement_done m) (prox_val m)
             (nrf_log m ++
              [ LOG "READ: ID: %d, addr: 0x%03x, OUTPUT: %d (%d)"
                    [Z.of_nat i; addr32; adxl372.x (adxl_data reread);
                     adxl372.x (adxl_data (sample_at (g_sample_set_buf m) i))] ])
             (flash_bus m ++ replicate k status_read ++ [FlashRead 0x03 ab 26])
             (snd rd)).
Proof.
  intros Hready. destruct m as [ss fo bi md pv lg fb w].
  unfold retrieve_sample.
  destruct (check_ready_flag_answered_reads fuel
              (Machine ss fo bi md pv lg fb w) Hready) as (k & Hk & E).
  erewrite bind_run by exact E. clear E.
  machine_simpl.
  exists k. split; [exact Hk|]. cbv zeta.
  change 3 with MT25QL256ABA_READ.
  set (ab := convert_4byte_address_to_3byte_address _ _).
  set (w1 := polled_world k (uninitialised_uint8 w) w).
  erewrite bind_run by reflexivity.
  erewrite bind_run by apply flash_read_op_run.
  machine_simpl.
  destruct (mt25ql256aba_read_op MT25QL256ABA_READ ab
              (sample_bytes (sample_at fo i)) w1) as [[r bytes] w2].
  cbn [fst snd].
  erewrite bind_run by reflexivity.
  erewrite bind_run by reflexivity.
  erewrite bind_run by reflexivity.
  machine_simpl. unfold ret.
  rewrite <- !app_assoc. reflexivity.
Qed.

End Retrieving.

Lemma sample_of_bytes_image (s : impact_sample_t) (t : list Z) :
  sample_wf s -> sample_of_bytes (sample_bytes s ++ t) = s.
Proof.
  destruct s as [[x y z] [ax ay az gx gy gz] [yr mo dt dy hr mi se hu]].
  intros ((Hx & Hy & Hz) & (H1 & H2 & H3 & H4 & H5 & H6) & _).
  cbn [adxl_data icm_data ds_data adxl372.x adxl372.y adxl372.z
       icm20649.accel_x icm20649.accel_y icm20649.accel_z
       icm20649.gyro_x icm20649.gyro_y icm20649.gyro_z] in *.
  unfold sample_of_bytes, sample_bytes, int16_bytes, int16_of_bytes, byte_at.
  cbn [adxl_data icm_data ds_data adxl372.x adxl372.y adxl372.z
       icm20649.accel_x icm20649.accel_y icm20649.accel_z
       icm20649.gyro_x icm20649.gyro_y icm20649.gyro_z
       ds1388.year ds1388.month ds1388.date ds1388.day ds1388.hour
       ds1388.minute ds1388.second ds1388.hundreth
       app lookup list_lookup default from_option].
  unfold id. rewrite !int16_of_halves by assumption. reflexivity.
Qed.

Section Remembering.
Context {W : Type} `{Platform W}.
Variable inv : W -> Prop.
Variable stored : W -> list Z -> option (list Z).
Hypothesis Hrf : remembering_flash inv stored.

Lemma polls_remembered (k : nat) (b : Z) (w : W) :
  inv w ->
  inv (polled_world k b w) /\
  forall a, stored (polled_world k b w) a = stored w a.
Proof.
  revert b w. induction k as [|k IH]; intros b w Hw; [split; auto|].
  cbn [polled_world]. destruct (rf_poll _ _ Hrf b w Hw) as [Hi Hs].
  destruct (IH 1 (status_poll b w) Hi) as [Hi' Hs'].
  split; [exact Hi'|]. intros a. rewrite Hs'. apply Hs.
Qed.

Lemma store_sample_remembered (fuel i : nat) (l : store_locals)
    (m : machine W) :
  flash_answers_within (W := W) fuel ->
  inv (world m) ->
  length (sl_buf l) = 32%nat ->
  length (sl_out_buf l) = 32%nat ->
  sample_wf (sample_at (g_sample_set_buf m) i) ->
  let s := sample_at (g_sample_set_buf m) i in
  let ab := convert_4byte_address_to_3byte_address (sl_flash_addr l)
                                                   (sl_flash_addr_buf l) in
  let buf := sample_bytes s ++ drop 26 (sl_buf l) in
  exists m' : machine W,
    store_sample fuel i l m =
      (Ret (StoreLocals (uint32 (sl_flash_addr l + 32)) ab buf buf), m')
    /\ inv (world m')
    /\ stored (world m') ab = Some buf
    /\ (forall a, a <> ab -> stored (world m') a = stored (world m) a)
    /\ g_sample_set_buf m' = g_sample_set_buf m
    /\ g_buf_index m' = g_buf_index m
    /\ g_flash_output_buf m' = <[i := s]> (g_flash_output_buf m)
    /\ nrf_log m' =
       nrf_log m ++
       [ LOG "" [];
         LOG "WRITE: ID: %d, addr: 0x%03x" [Z.of_nat i; sl_flash_addr l];
         LOG "READ:  ID: %d, addr: 0x%03x, OUTPUT: %d (%d)"
             [Z.of_nat i; sl_flash_addr l;
              adxl372.x (adxl_data s); adxl372.x (adxl_data s)] ].
Proof.
  intros Hready Hinv Hlb Hlo Hwf. cbv zeta.
  destruct (store_sample_steps fuel i l m Hready) as (k1 & k2 & _ & _ & E).
  cbv zeta in E.
  set (s := sample_at (g_sample_set_buf m) i) in *.
  set (ab := convert_4byte_address_to_3byte_address _ _) in *.
  set (buf := sample_bytes s ++ drop 26 (sl_buf l)) in *.
  set (w1 := polled_world k1 (uninitialised_uint8 (world m)) (world m)) in *.
  set (w2 := snd (mt25ql256aba_write_enable w1)) in *.
  set (w3 := snd (mt25ql256aba_write_op 2 ab buf w2)) in *.
  set (w4 := snd (mt25ql256aba_write_disable w3)) in *.
  set (w5 := polled_world k2 (uninitialised_uint8 w4) w4) in *.
  destruct (polls_remembered k1 (uninitialised_uint8 (world m)) (world m) Hinv) as [I1 S1]. fold w1 in I1, S1.
  destruct (rf_write_enable _ _ Hrf w1 I1) as [I2 S2]. fold w2 in I2, S2.
  destruct (rf_program _ _ Hrf w2 ab buf I2) as (I3 & S3 & S3'). fold w3 in I3, S3, S3'.
  destruct (rf_write_disable _ _ Hrf w3 I3) as [I4 S4]. fold w4 in I4, S4.
  destruct (polls_remembered k2 (uninitialised_uint8 w4) w4 I4) as [I5 S5]. fold w5 in I5, S5.
  assert (Hbuf : length buf = 32%nat).
  { subst buf. rewrite length_app, sample_bytes_length, length_drop, Hlb.
    reflexivity. }
  destruct (rf_read _ _ Hrf w5 ab (sl_out_buf l) buf I5) as (I6 & S6 & R6).
  { rewrite S5, S4. exact S3. }
  { rewrite Hlo, Hbuf. lia. }
  rewrite Hlo, take_ge in R6 by (rewrite Hbuf; lia).
  rewrite R6 in E.
  assert (Hre : sample_of_bytes
                  (memcpy (sample_bytes (sample_at (g_flash_output_buf m) i))
                          buf 26) = s).
  { unfold memcpy.
    assert (Ht : take 26 buf = sample_bytes s).
    { unfold buf. apply take_app_length'. reflexivity. }
    rewrite Ht.
    apply sample_of_bytes_image. exact Hwf. }
  rewrite Hre in E.
  eexists. split; [exact E|]. machine_simpl.
  split; [exact I6|]. split; [rewrite S6, S5, S4; exact S3|].
  split.
  { intros a Ha. rewrite S6, S5, S4, S3' by exact Ha. rewrite S2. apply S1. }
  auto.
Qed.

Lemma store_samples_loop_remembered (fuel : nat) (base : Z) (count i : nat)
    (l : store_locals) (m : machine W) :
  flash_answers_within (W := W) fuel ->
  inv (world m) ->
  sl_flash_addr l = uint32 (base + 32 * Z.of_nat i) ->
  length (sl_flash_addr_buf l) = 3%nat ->
  drop 26 (sl_buf l) = replicate 6 0 ->
  length (sl_buf l) = 32%nat ->
  length (sl_out_buf l) = 32%nat ->
  (forall k, (i <= k < i + count)%nat ->
     sample_wf (sample_at (g_sample_set_buf m) k)) ->
  (forall j k, (i <= j < i + count)%nat -> (i <= k < i + count)%nat ->
     flash_slot base j = flash_slot base k -> j = k) ->
  exists (l' : store_locals) (m' : machine W),
    store_samples_loop fuel i count l m = (Ret l', m')
    /\ sl_flash_addr l' = uint32 (base + 32 * Z.of_nat (i + count))
    /\ inv (world m')
    /\ (forall k, (i <= k < i + count)%nat ->
          stored (world m') (flash_slot base k) =
          Some (flash_image (sample_at (g_sample_set_buf m) k)))
    /\ (forall a, (forall k, (i <= k < i + count)%nat -> a <> flash_slot base k) ->
          stored (world m') a = stored (world m) a)
    /\ g_sample_set_buf m' = g_sample_set_buf m
    /\ g_buf_index m' = g_buf_index m
    /\ length (g_flash_output_buf m') = length (g_flash_output_buf m)
    /\ (forall k, (i <= k < i + count)%nat ->
          (k < length (g_flash_output_buf m))%nat ->
          g_flash_output_buf m' !! k = Some (sample_at (g_sample_set_buf m) k))
    /\ (forall k, ~ (i <= k < i + count)%nat ->
          g_flash_output_buf m' !! k = g_flash_output_buf m !! k)
    /\ nrf_log m' =
       nrf_log m ++
       concat (map (fun k => store_report base k
                               (sample_at (g_sample_set_buf m) k))
                   (seq i count)).
Proof.
  intros Hready. revert i l m.
  induction count as [|count IH];
    intros i l m Hinv Haddr Hlen Hpad Hlb Hlo Hwf Hdist.
  - exists l, m. cbn [store_samples_loop seq map concat].
    rewrite Nat.add_0_r, app_nil_r.
    repeat split; auto; intros; lia.
  - cbn [store_samples_loop].
    destruct (store_sample_remembered fuel i l m Hready Hinv Hlb Hlo)
      as (m1 & E & I1 & S1 & F1 & Hs1 & Hi1 & Ho1 & Hl1).
    { apply Hwf. lia. }
    rewrite (bind_run _ _ _ _ _ E).
    assert (Hslot : convert_4byte_address_to_3byte_address
                      (sl_flash_addr l) (sl_flash_addr_buf l) =
                    flash_slot base i).
    { rewrite Haddr. apply convert_address_any_buffer. exact Hlen. }
    rewrite Hslot in S1, F1. rewrite Hpad in S1.
    fold (flash_image (sample_at (g_sample_set_buf m) i)) in S1.
    match type of E with _ = (Ret ?l1, _) =>
      destruct (IH (S i) l1 m1) as
        (l' & m' & E' & Ha' & I' & S' & F' & Hs' & Hi' & Hn' & Ho' & Hk' & Hl')
    end.
    + exact I1.
    + cbn [sl_flash_addr]. rewrite Haddr, uint32_add_idemp. f_equal. lia.
    + cbn [sl_flash_addr_buf]. rewrite convert_address_length. exact Hlen.
    + cbn [sl_buf]. rewrite drop_sample_bytes. exact Hpad.
    + cbn [sl_buf]. rewrite length_app, sample_bytes_length, Hpad. reflexivity.
    + cbn [sl_out_buf]. rewrite length_app, sample_bytes_length, Hpad.
      reflexivity.
    + intros k Hk. rewrite Hs1. apply Hwf. lia.
    + intros j k Hj Hk. apply Hdist; lia.
    + exists l', m'. split; [exact E'|].
      split; [rewrite Ha'; f_equal; lia|].
      split; [exact I'|].
      rewrite Hs1 in S', Ho', Hl'. rewrite Ho1 in Hn', Ho', Hk'.
      rewrite length_insert in Hn', Ho'.
      split.
      { intros k Hk. destruct (decide (k = i)) as [->|Hne].
        - rewrite F'; [exact S1|].
          intros j Hj Heq. apply Hdist in Heq; lia.
        - apply S'. lia. }
      split.
      { intros a Ha. rewrite F' by (intros k Hk; apply Ha; lia).
        apply F1. apply Ha. lia. }
      split; [congruence|]. split; [congruence|]. split; [exact Hn'|].
      split.
      { intros k Hk Hlt. destruct (decide (k = i)) as [->|Hne].
        - rewrite Hk' by lia. apply list_lookup_insert_eq. exact Hlt.
        - apply Ho'; lia. }
      split.
      { intros k Hk. rewrite Hk' by lia.
        apply list_lookup_insert_ne. lia. }
      rewrite Hl', Hl1. cbn [seq map concat]. rewrite <- app_assoc.
      f_equal. unfold store_report at 2. rewrite Haddr. reflexivity.
Qed.

Lemma retrieve_sample_remembered (fuel i : nat) (addr32 : Z) (addr d : list Z)
    (m : machine W) :
  flash_answers_within (W := W) fuel ->
  inv (world m) ->
  stored (world m) (convert_4byte_address_to_3byte_address addr32 addr) =
    Some d ->
  (26 <= length d)%nat ->
  let f := sample_of_bytes (take 26 d) in
  exists m' : machine W,
    retrieve_sample fuel i (addr32, addr) m =
      (Ret (uint32 (addr32 + 32),
            convert_4byte_address_to_3byte_address addr32 addr), m')
    /\ inv (world m')
    /\ (forall a, stored (world m') a = stored (world m) a)
    /\ g_sample_set_buf m' = g_sample_set_buf m
    /\ g_buf_index m' = g_buf_index m
    /\ g_flash_output_buf m' = <[i := f]> (g_flash_output_buf m)
    /\ nrf_log m' =
       nrf_log m ++
       [ LOG "READ: ID: %d, addr: 0x%03x, OUTPUT: %d (%d)"
             [Z.of_nat i; addr32; adxl372.x (adxl_data f);
              adxl372.x (adxl_data (sample_at (g_sample_set_buf m) i))] ].
Proof.
  intros Hready Hinv Hst Hd. cbv zeta.
  destruct (retrieve_sample_steps fuel i addr32 addr m Hready) as (k & _ & E).
  cbv zeta in E.
  set (ab := convert_4byte_address_to_3byte_address addr32 addr) in *.
  set (w1 := polled_world k (uninitialised_uint8 (world m)) (world m)) in *.
  destruct (polls_remembered k (uninitialised_uint8 (world m)) (world m) Hinv) as [I1 S1]. fold w1 in I1, S1.
  destruct (rf_read _ _ Hrf w1 ab
              (sample_bytes (sample_at (g_flash_output_buf m) i)) d I1)
    as (I2 & S2 & R2).
  { rewrite S1. exact Hst. }
  { rewrite sample_bytes_length. exact Hd. }
  rewrite sample_bytes_length in R2. rewrite R2 in E.
  eexists. split; [exact E|]. machine_simpl.
  split; [exact I2|]. split; [intros a; rewrite S2; apply S1|]. auto.
Qed.

Lemma retrieve_samples_loop_remembered (fuel : nat) (d : nat -> list Z)
    (count i : nat) (addr : list Z) (m : machine W) :
  flash_answers_within (W := W) fuel ->
  inv (world m) ->
  length addr = 3%nat ->
  (forall k, (i <= k < i + count)%nat ->
     stored (world m) (flash_slot 0 k) = Some (d k) /\ (26 <= length (d k))%nat) ->
  exists (a' : Z * list Z) (m' : machine W),
    retrieve_samples_loop fuel i count (uint32 (32 * Z.of_nat i), addr) m =
      (Ret a', m')
    /\ inv (world m')
    /\ (forall a, stored (world m') a = stored (world m) a)
    /\ g_sample_set_buf m' = g_sample_set_buf m
    /\ g_buf_index m' = g_buf_index m
    /\ length (g_flash_output_buf m') = length (g_flash_output_buf m)
    /\ (forall k, (i <= k < i + count)%nat ->
          (k < length (g_flash_output_buf m))%nat ->
          g_flash_output_buf m' !! k = Some (sample_of_bytes (take 26 (d k))))
    /\ (forall k, ~ (i <= k < i + count)%nat ->
          g_flash_output_buf m' !! k = g_flash_output_buf m !! k)
    /\ nrf_log m' =
       nrf_log m ++
       map (fun k => retrieve_line k (sample_of_bytes (take 26 (d k)))
                                   (sample_at (g_sample_set_buf m) k))
           (seq i count).
Proof.
  intros Hready. revert i addr m.
  induction count as [|count IH]; intros i addr m Hinv Hlen Hst.
  - exists (uint32 (32 * Z.of_nat i), addr), m.
    cbn [retrieve_samples_loop seq map]. rewrite app_nil_r.
    repeat split; auto; intros; lia.
  - cbn [retrieve_samples_loop].
    assert (Hslot : convert_4byte_address_to_3byte_address
                      (uint32 (32 * Z.of_nat i)) addr = flash_slot 0 i).
    { apply convert_address_any_buffer. exact Hlen. }
    destruct (Hst i ltac:(lia)) as [Hsi Hdi].
    destruct (retrieve_sample_remembered fuel i (uint32 (32 * Z.of_nat i))
                addr (d i) m Hready Hinv)
      as (m1 & E & I1 & S1 & Hs1 & Hi1 & Ho1 & Hl1).
    { rewrite Hslot. exact Hsi. }
    { exact Hdi. }
    rewrite (bind_run _ _ _ _ _ E).
    replace (uint32 (uint32 (32 * Z.of_nat i) + 32))
      with (uint32 (32 * Z.of_nat (S i)))
      by (rewrite uint32_add_idemp; f_equal; lia).
    destruct (IH (S i) (convert_4byte_address_to_3byte_address
                          (uint32 (32 * Z.of_nat i)) addr) m1)
      as (a' & m' & E' & I' & S' & Hs' & Hi' & Hn' & Ho' & Hk' & Hl').
    + exact I1.
    + rewrite convert_address_length. exact Hlen.
    + intros k Hk. rewrite S1. apply Hst. lia.
    + exists a', m'. split; [exact E'|]. split; [exact I'|].
      rewrite Hs1 in Hl'. rewrite Ho1 in Hn', Ho', Hk'.
      rewrite length_insert in Hn', Ho'.
      split; [intros a; rewrite S'; apply S1|].
      split; [congruence|]. split; [congruence|]. split; [exact Hn'|].
      split.
      { intros k Hk Hlt. destruct (decide (k = i)) as [->|Hne].
        - rewrite Hk' by lia. apply list_lookup_insert_eq. exact Hlt.
        - apply Ho'; lia. }
      split.
      { intros k Hk. rewrite Hk' by lia.
        apply list_lookup_insert_ne. lia. }
      rewrite Hl', Hl1. cbn [seq map]. rewrite <- app_assoc. reflexivity.
Qed.

Lemma address_bytes_inj (u v : Z) :
  [(u / 65536) mod 256; (u / 256) mod 256; u mod 256] =
  [(v / 65536) mod 256; (v / 256) mod 256; v mod 256] ->
  u mod 2 ^ 24 = v mod 2 ^ 24.
Proof.
  rewrite !low_24_bits_bytes.
  change (2 ^ 24) with 16777216. change (2 ^ 16) with 65536.
  change (2 ^ 8) with 256.
  pose proof (Z.mod_pos_bound u 16777216 ltac:(lia)) as Hu.
  pose proof (Z.mod_pos_bound v 16777216 ltac:(lia)) as Hv.
  generalize dependent (u mod 16777216). generalize dependent (v mod 16777216).
  intros s Hs r Hr E. injection E as E1 E2 E3.
  pose proof (Z.div_mod r 256 ltac:(lia)) as R1.
  pose proof (Z.div_mod (r / 256) 256 ltac:(lia)) as R2.
  pose proof (Z.div_mod s 256 ltac:(lia)) as S1.
  pose proof (Z.div_mod (s / 256) 256 ltac:(lia)) as S2.
  rewrite Z.div_div in R2, S2 by lia.
  change (256 * 256) with 65536 in R2, S2. lia.
Qed.

Lemma flash_slot_inj (base : Z) (j k : nat) :
  32 * Z.of_nat j < 2 ^ 24 -> 32 * Z.of_nat k < 2 ^ 24 ->
  flash_slot base j = flash_slot base k -> j = k.
Proof.
  intros Hj Hk E. unfold flash_slot in E.
  rewrite !convert_address_bytes in E by reflexivity.
  apply address_bytes_inj in E. unfold uint32 in E.
  rewrite !(Z.mod_mod_divide _ (2 ^ 32) (2 ^ 24)) in E
    by (exists (2 ^ 8); reflexivity).
  assert (Hd : (32 * Z.of_nat j - 32 * Z.of_nat k) mod 2 ^ 24 = 0).
  { replace (32 * Z.of_nat j - 32 * Z.of_nat k)
      with ((base + 32 * Z.of_nat j) - (base + 32 * Z.of_nat k)) by lia.
    rewrite Zminus_mod, E, Z.sub_diag. reflexivity. }
  apply Z.mod_divide in Hd; [|lia]. destruct Hd as [c Hc].
  change (2 ^ 24) with 16777216 in *. lia.
Qed.

Lemma record_report_same (i : nat) (s : impact_sample_t) :
  record_report i s s = full_report i s.
Proof.
  unfold record_report, full_report.
  rewrite (proj2 (high_g_match_true s s) eq_refl).
  rewrite (proj2 (low_g_match_true s s)) by auto.
  rewrite (proj2 (gyro_match_true s s)) by auto.
  rewrite (proj2 (rtc_match_true s s) eq_refl). reflexivity.
Qed.

Lemma take_flash_image (s : impact_sample_t) :
  take 26 (flash_image s) = sample_bytes s.
Proof. apply take_app_length'. reflexivity. Qed.

Lemma sample_at_lookup (b : list impact_sample_t) (k : nat) (s : impact_sample_t) :
  b !! k = Some s -> sample_at b k = s.
Proof. unfold sample_at. intros ->. reflexivity. Qed.

(** X12.  Storing on a flash that remembers.  When the flash answers its
    ready polls and keeps what is programmed, the records fit below
    2^24 and are within the ranges of their C types, then after
    [mt25ql256aba_store_samples] from [base] the flash holds at the
    device address of [base + 32 * k] the 32-byte image of record [k],
    the output buffer holds at [k] the record sampled at [k] (the read
    back of each page returns what was programmed), the entries from the
    buffer length on are untouched, and the diagnostic output gained the
    two banner lines and, per record, a blank line, the WRITE line and
    the READ line showing the same high-g x value twice. *)
Theorem store_samples_read_back (fuel : nat) (base : Z) (m : machine W) :
  flash_answers_within (W := W) fuel ->
  inv (world m) ->
  is_uint32 base ->
  32 * Z.of_nat (g_buf_index m) <= 2 ^ 24 ->
  (g_buf_index m <= length (g_flash_output_buf m))%nat ->
  (forall k, (k < g_buf_index m)%nat ->
     sample_wf (sample_at (g_sample_set_buf m) k)) ->
  exists m' : machine W,
    mt25ql256aba_store_samples fuel base m =
      (Ret (uint32 (base + 32 * Z.of_nat (g_buf_index m))), m')
    /\ inv (world m')
    /\ (forall k, (k < g_buf_index m)%nat ->
          stored (world m') (flash_slot base k) =
            Some (flash_image (sample_at (g_sample_set_buf m) k))
          /\ sample_at (g_flash_output_buf m') k =
             sample_at (g_sample_set_buf m) k)
    /\ (forall k, (g_buf_index m <= k)%nat ->
          g_flash_output_buf m' !! k = g_flash_output_buf m !! k)
    /\ g_sample_set_buf m' = g_sample_set_buf m
    /\ nrf_log m' =
       nrf_log m ++
       [LOG "" []; LOG "BEGIN STORE SAMPLES..." []] ++
       concat (map (fun k => store_report base k
                               (sample_at (g_sample_set_buf m) k))
                   (seq 0 (g_buf_index m))).
Proof.
  intros Hready Hinv Hbase Hn Hfo Hwf. unfold mt25ql256aba_store_samples.
  erewrite bind_run by reflexivity.
  erewrite bind_run by reflexivity.
  erewrite bind_run by reflexivity.
  match goal with |- context [bind (store_samples_loop fuel 0 ?n ?l) _ ?m0] =>
    destruct (store_samples_loop_remembered fuel base n 0 l m0 Hready)
      as (l' & m' & E & Ha & I' & S' & F' & Hs' & Hi' & Hn' & Ho' & Hk' & Hl')
  end.
  - destruct m; exact Hinv.
  - cbn [sl_flash_addr]. unfold uint32. rewrite Z.mod_small; [lia|].
    unfold is_uint32 in Hbase. lia.
  - reflexivity.
  - reflexivity.
  - reflexivity.
  - reflexivity.
  - intros k Hk. destruct m; machine_simpl. apply Hwf. lia.
  - intros j k Hj Hk. destruct m; machine_simpl.
    apply flash_slot_inj; lia.
  - rewrite (bind_run _ _ _ _ _ E). exists m'.
    revert E Ha I' S' F' Hs' Hi' Hn' Ho' Hk' Hl'. destruct m; machine_simpl.
    intros E Ha I' S' F' Hs' Hi' Hn' Ho' Hk' Hl'.
    split; [unfold ret; rewrite Ha; reflexivity|].
    split; [exact I'|]. split.
    { intros k Hk. split; [apply S'; lia|].
      apply sample_at_lookup, Ho'; lia. }
    split; [intros k Hk; apply Hk'; lia|].
    split; [exact Hs'|].
    rewrite Hl', <- !app_assoc. reflexivity.
Qed.

(** X13.  [mt25ql256aba_retrieve_samples] reads what the flash holds
    from address 0 on, wherever the records were stored: if slot [k]
    (device address of [32 * k]) holds the data [d k], at least 26 bytes
    long, then afterwards entry [k] of the output buffer is the record
    whose byte image is the first 26 bytes of [d k]; the flash contents
    and the sample buffer are unchanged, and the output gained the two
    banner lines and one READ line per record. *)
Theorem retrieve_samples_reads_flash (fuel : nat) (d : nat -> list Z)
    (m : machine W) :
  flash_answers_within (W := W) fuel ->
  inv (world m) ->
  (forall k, (k < g_buf_index m)%nat ->
     stored (world m) (flash_slot 0 k) = Some (d k) /\
     (26 <= length (d k))%nat) ->
  exists m' : machine W,
    mt25ql256aba_retrieve_samples fuel m = (Ret tt, m')
    /\ inv (world m')
    /\ (forall a, stored (world m') a = stored (world m) a)
    /\ g_sample_set_buf m' = g_sample_set_buf m
    /\ (forall k, (k < g_buf_index m)%nat ->
          (k < length (g_flash_output_buf m))%nat ->
          g_flash_output_buf m' !! k = Some (sample_of_bytes (take 26 (d k))))
    /\ (forall k, (g_buf_index m <= k)%nat ->
          g_flash_output_buf m' !! k = g_flash_output_buf m !! k)
    /\ nrf_log m' =
       nrf_log m ++
       [LOG "" []; LOG "BEGIN RETRIEVE SAMPLES" []] ++
       map (fun k => retrieve_line k (sample_of_bytes (take 26 (d k)))
                                   (sample_at (g_sample_set_buf m) k))
           (seq 0 (g_buf_index m)).
Proof.
  intros Hready Hinv Hst. unfold mt25ql256aba_retrieve_samples.
  erewrite bind_run by reflexivity.
  erewrite bind_run by reflexivity.
  erewrite bind_run by reflexivity.
  match goal with |- context [bind (retrieve_samples_loop fuel 0 ?n _) _ ?m0] =>
    destruct (retrieve_samples_loop_remembered fuel d n 0 [0; 0; 0] m0 Hready)
      as (a' & m' & E & I' & S' & Hs' & Hi' & Hn' & Ho' & Hk' & Hl')
  end.
  - destruct m; exact Hinv.
  - reflexivity.
  - intros k Hk. destruct m; machine_simpl. apply Hst. lia.
  - change (uint32 (32 * Z.of_nat 0)) with 0 in E.
    rewrite (bind_run _ _ _ _ _ E). exists m'.
    revert E I' S' Hs' Hi' Hn' Ho' Hk' Hl'. destruct m; machine_simpl.
    intros E I' S' Hs' Hi' Hn' Ho' Hk' Hl'.
    split; [reflexivity|]. split; [exact I'|]. split; [exact S'|].
    split; [exact Hs'|].
    split; [intros k Hk Hlt; apply Ho'; lia|].
    split; [intros k Hk; apply Hk'; lia|].
    rewrite Hl', <- !app_assoc. reflexivity.
Qed.

(** X14.  Store, read back, report, the tail of a capture episode in
    [main] (which stores from address 0): on a flash that remembers,
    with the records within the ranges of their C types and within the
    output buffer, the three calls return and the report prints all
    seven lines for every record, with the values sampled; the whole
    diagnostic output of the three calls is given.  At the end the
    output buffer is zeroed and the sample buffer is as before. *)
Theorem stored_records_reported_in_full (fuel : nat) (m : machine W) :
  flash_answers_within (W := W) fuel ->
  inv (world m) ->
  32 * Z.of_nat (g_buf_index m) <= 2 ^ 24 ->
  (g_buf_index m <= length (g_flash_output_buf m))%nat ->
  (forall k, (k < g_buf_index m)%nat ->
     sample_wf (sample_at (g_sample_set_buf m) k)) ->
  let s := sample_at (g_sample_set_buf m) in
  exists m' : machine W,
    (mt25ql256aba_store_samples fuel 0;;;
     mt25ql256aba_retrieve_samples fuel;;;
     serial_output_flash_data)%prog m = (Ret tt, m')
    /\ nrf_log m' =
       nrf_log m ++
       ([LOG "" []; LOG "BEGIN STORE SAMPLES..." []] ++
        concat (map (fun k => store_report 0 k (s k)) (seq 0 (g_buf_index m)))) ++
       ([LOG "" []; LOG "BEGIN RETRIEVE SAMPLES" []] ++
        map (fun k => retrieve_line k (s k) (s k)) (seq 0 (g_buf_index m))) ++
       [LOG (CRLF ++ "===================IMPACT DATA OUTPUT===================") []] ++
       concat (map (fun k => full_report k (s k)) (seq 0 (g_buf_index m))) ++
       [LOG (CRLF ++ "====================DATA OUTPUT FINISH==================") []]
    /\ g_sample_set_buf m' = g_sample_set_buf m
    /\ g_buf_index m' = g_buf_index m
    /\ g_flash_output_buf m' =
       replicate (length (g_flash_output_buf m)) zero_sample.
Proof.
  intros Hready Hinv Hn Hfo Hwf. cbv zeta.
  destruct m as [ss fo n md pv lg fb w]. machine_simpl.
  unfold mt25ql256aba_store_samples at 1.
  unfold bind at 1.
  erewrite bind_run by reflexivity.
  erewrite bind_run by reflexivity.
  erewrite bind_run by reflexivity.
  machine_simpl.
  match goal with |- context [bind (store_samples_loop fuel 0 n ?l) _ ?m0] =>
    destruct (store_samples_loop_remembered fuel 0 n 0 l m0 Hready)
      as (l1 & m1 & E1 & _ & I1 & S1 & _ & Hs1 & Hi1 & Hn1 & Ho1 & _ & Hl1);
      [exact Hinv|reflexivity..| | |]
  end.
  { intros k Hk. apply Hwf. lia. }
  { intros j k Hj Hk. apply flash_slot_inj; lia. }
  machine_simpl.
  rewrite (bind_run _ _ _ _ _ E1). unfold ret at 1.
  clear E1.
  destruct m1 as [ss1 fo1 n1 md1 pv1 lg1 fb1 w1]. machine_simpl.
  subst ss1 n1 lg1.
  unfold mt25ql256aba_retrieve_samples at 1.
  unfold bind at 1.
  erewrite bind_run by reflexivity.
  erewrite bind_run by reflexivity.
  erewrite bind_run by reflexivity.
  machine_simpl.
  match goal with |- context [bind (retrieve_samples_loop fuel 0 n _) _ ?m0] =>
    destruct (retrieve_samples_loop_remembered fuel
                (fun k => flash_image (sample_at ss k)) n 0 [0; 0; 0] m0 Hready)
      as (a2 & m2 & E2 & _ & _ & Hs2 & Hi2 & Hn2 & Ho2 & _ & Hl2);
      [exact I1|reflexivity| |]
  end.
  { intros k Hk. machine_simpl. split; [apply S1; lia|].
    unfold flash_image. rewrite length_app, sample_bytes_length. cbn. lia. }
  change (uint32 (32 * Z.of_nat 0)) with 0 in E2.
  rewrite (bind_run _ _ _ _ _ E2). unfold ret at 1.
  clear E2.
  destruct m2 as [ss2 fo2 n2 md2 pv2 lg2 fb2 w2]. machine_simpl.
  subst ss2 n2 lg2.
  rewrite serial_output_flash_data_run. machine_simpl.
  eexists. split; [reflexivity|]. machine_simpl.
  split; [|split; [reflexivity|split; [reflexivity|congruence]]].
  assert (Him : forall k, (k < n)%nat ->
            sample_of_bytes (take 26 (flash_image (sample_at ss k))) =
            sample_at ss k).
  { intros k Hk. rewrite take_flash_image, <- (app_nil_r (sample_bytes _)).
    apply sample_of_bytes_image, Hwf. exact Hk. }
  rewrite (map_ext_in
             (fun k => retrieve_line k
                (sample_of_bytes (take 26 (flash_image (sample_at ss k))))
                (sample_at ss k))
             (fun k => retrieve_line k (sample_at ss k) (sample_at ss k)))
    by (intros k Hk; apply in_seq in Hk; rewrite Him by lia; reflexivity).
  rewrite (map_ext_in
             (fun i => record_report i (sample_at fo2 i) (sample_at ss i))
             (fun k => full_report k (sample_at ss k))).
  - rewrite <- !app_assoc. reflexivity.
  - intros k Hk. apply in_seq in Hk.
    rewrite (sample_at_lookup fo2 k (sample_at ss k)).
    + apply record_report_same.
    + rewrite Ho2 by lia. rewrite Him by lia. reflexivity.
Qed.

End Remembering.

Lemma bench_remembers :
  remembering_flash (W := bench) (fun b => 0 <= bench_status b)
                    (fun b a => bench_lookup (bench_flash b) a).
Proof.
  constructor.
  - intros b0 [st busy fid fl ids acc icm twi tm] Hst. cbn in Hst.
    unfold status_poll. cbn. unfold bench_read_op. cbn.
    destruct (Z.ltb_spec st 0) as [Hlt|_]; [lia|].
    destruct busy; cbn; auto.
  - intros w Hw. cbn. auto.
  - intros w Hw. cbn. auto.
  - intros [st busy fid fl ids acc icm twi tm] a d Hst. cbn in Hst.
    cbn. unfold bench_write_op. cbn.
    destruct (Z.ltb_spec st 0) as [Hlt|_]; [lia|]. cbn.
    split; [exact Hst|]. unfold list_Z_eqb. split.
    + rewrite bool_decide_eq_true_2; reflexivity.
    + intros a' Ha. rewrite bool_decide_eq_false_2; [reflexivity|congruence].
  - intros [st busy fid fl ids acc icm twi tm] a buf d Hst Hd Hlen.
    cbn in Hst, Hd. cbn. unfold bench_read_op. cbn.
    destruct (Z.ltb_spec st 0) as [Hlt|_]; [lia|]. rewrite Hd. cbn.
    split; [exact Hst|]. split; [reflexivity|].
    unfold memcpy. rewrite drop_all. apply app_nil_r.
Qed.

Lemma stored_records_reported_in_full_witness :
  let m := Machine [bench_sample] [zero_sample] 1%nat false 0 [] []
                   (healthy_bench []) in
  exists m' : machine bench,
    (mt25ql256aba_store_samples 2 0;;;
     mt25ql256aba_retrieve_samples 2;;;
     serial_output_flash_data)%prog m = (Ret tt, m')
    /\ nrf_log m' =
       [LOG "" []; LOG "BEGIN STORE SAMPLES..." []] ++
       store_report 0 0 bench_sample ++
       [LOG "" []; LOG "BEGIN RETRIEVE SAMPLES" [];
        retrieve_line 0 bench_sample bench_sample] ++
       [LOG (CRLF ++ "===================IMPACT DATA OUTPUT===================") []] ++
       full_report 0 bench_sample ++
       [LOG (CRLF ++ "====================DATA OUTPUT FINISH==================") []].
Proof.
  cbv zeta.
  destruct (stored_records_reported_in_full
              (fun b => 0 <= bench_status b)
              (fun b a => bench_lookup (bench_flash b) a) bench_remembers 2
              (Machine [bench_sample] [zero_sample] 1%nat false 0 [] []
                       (healthy_bench []))
              bench_flash_answers)
    as (m' & E & Hlog & _).
  - cbn. lia.
  - cbn. lia.
  - cbn. lia.
  - intros k Hk. cbn in Hk. destruct k; [|lia].
    unfold sample_wf, adxl_wf, icm_wf, ds_wf, is_int16, is_uint8. cbn. lia.
  - exists m'. split; [exact E|]. rewrite Hlog. reflexivity.
Defined.

Lemma store_samples_read_back_witness :
  let m := Machine [bench_sample] [zero_sample] 1%nat false 0 [] []
                   (healthy_bench []) in
  let m' := snd (mt25ql256aba_store_samples 2 0x40 m) in
  bench_lookup (bench_flash (world m')) [0; 0; 0x40] =
    Some (flash_image bench_sample)
  /\ g_flash_output_buf m' = [bench_sample].
Proof.
  cbv zeta.
  destruct (store_samples_read_back
              (fun b => 0 <= bench_status b)
              (fun b a => bench_lookup (bench_flash b) a) bench_remembers 2
              0x40
              (Machine [bench_sample] [zero_sample] 1%nat false 0 [] []
                       (healthy_bench []))
              bench_flash_answers)
    as (m' & E & _ & Hk & _).
  - cbn. lia.
  - unfold is_uint32. lia.
  - cbn. lia.
  - cbn. lia.
  - intros k Hk. cbn in Hk. destruct k; [|lia].
    unfold sample_wf, adxl_wf, icm_wf, ds_wf, is_int16, is_uint8. cbn. lia.
  - rewrite E. cbn [snd].
    destruct (Hk 0%nat) as [Hst Hat]; [cbn; lia|].
    split; [exact Hst|].
    vm_compute in E. injection E as <-. reflexivity.
Defined.

Lemma retrieve_samples_reads_flash_witness :
  let w := bench_set_flash (healthy_bench []) false
             [([0; 0; 0], flash_image bench_sample)] in
  let m := Machine [zero_sample] [zero_sample] 1%nat false 0 [] [] w in
  g_flash_output_buf (snd (mt25ql256aba_retrieve_samples 2 m)) !! 0%nat =
  Some bench_sample.
Proof.
  cbv zeta.
  destruct (retrieve_samples_reads_flash
              (fun b => 0 <= bench_status b)
              (fun b a => bench_lookup (bench_flash b) a) bench_remembers 2
              (fun _ => flash_image bench_sample)
              (Machine [zero_sample] [zero_sample] 1%nat false 0 [] []
                 (bench_set_flash (healthy_bench []) false
                    [([0; 0; 0], flash_image bench_sample)]))
              bench_flash_answers)
    as (m' & E & _ & _ & _ & Hk & _).
  - cbn. lia.
  - intros k Hk. cbn in Hk. destruct k; [|lia]. split; [reflexivity|cbn; lia].
  - rewrite E. cbn [snd]. rewrite Hk by (cbn; lia). reflexivity.
Defined.

Section RetrieveBus.
Context {W : Type} `{Platform W}.

Lemma retrieve_samples_loop_bus (fuel : nat) (count i : nat) (addr : list Z)
    (m : machine W) :
  flash_answers_within (W := W) fuel ->
  length addr = 3%nat ->
  exists (a' : Z * list Z) (m' : machine W),
    retrieve_samples_loop fuel i count (uint32 (32 * Z.of_nat i), addr) m =
      (Ret a', m')
    /\ flash_reads (flash_bus m') =
       flash_reads (flash_bus m) ++
       map (fun k => (flash_slot 0 k, 26%nat)) (seq i count)
    /\ page_programs (flash_bus m') = page_programs (flash_bus m)
    /\ g_sample_set_buf m' = g_sample_set_buf m
    /\ g_buf_index m' = g_buf_index m
    /\ length (g_flash_output_buf m') = length (g_flash_output_buf m).
Proof.
  intros Hready. revert i addr m.
  induction count as [|count IH]; intros i addr m Hlen.
  - exists (uint32 (32 * Z.of_nat i), addr), m.
    cbn [retrieve_samples_loop seq map]. rewrite app_nil_r.
    repeat split; reflexivity.
  - cbn [retrieve_samples_loop].
    destruct (retrieve_sample_steps fuel i (uint32 (32 * Z.of_nat i)) addr m
                Hready) as (k & _ & E).
    cbv zeta in E. rewrite (bind_run _ _ _ _ _ E). clear E.
    replace (uint32 (uint32 (32 * Z.of_nat i) + 32))
      with (uint32 (32 * Z.of_nat (S i)))
      by (rewrite uint32_add_idemp; f_equal; lia).
    match goal with |- context [retrieve_samples_loop _ _ _ (_, ?ad) ?m0] =>
      destruct (IH (S i) ad m0) as (a' & m' & E' & Hr & Hp & Hs & Hi & Hn)
    end.
    + rewrite convert_address_length. exact Hlen.
    + exists a', m'. split; [exact E'|]. revert Hr Hp Hs Hi Hn. machine_simpl.
      intros Hr Hp Hs Hi Hn.
      rewrite length_insert in Hn.
      repeat split; try assumption.
      * rewrite Hr, !flash_reads_app, flash_reads_status_reads.
        cbn [seq map app]. rewrite <- app_assoc. f_equal.
        cbn. rewrite convert_address_any_buffer by exact Hlen. reflexivity.
      * rewrite Hp, !page_programs_app, page_programs_status_reads.
        cbn. rewrite app_nil_r. reflexivity.
Qed.

(** X10.  [mt25ql256aba_retrieve_samples] on the flash bus: when the
    flash answers its ready polls the call returns, its memory reads are
    one per buffered record, in order, of 26 bytes at the device address
    of [32 * k], always counted from address 0; it programs nothing and
    leaves the sample buffer, its length and the size of the output
    buffer as they were. *)
Theorem retrieve_samples_reads_slots_from_zero (fuel : nat) (m : machine W) :
  flash_answers_within (W := W) fuel ->
  exists m' : machine W,
    mt25ql256aba_retrieve_samples fuel m = (Ret tt, m')
    /\ flash_reads (flash_bus m') =
       flash_reads (flash_bus m) ++
       map (fun k => (flash_slot 0 k, 26%nat)) (seq 0 (g_buf_index m))
    /\ page_programs (flash_bus m') = page_programs (flash_bus m)
    /\ g_sample_set_buf m' = g_sample_set_buf m
    /\ g_buf_index m' = g_buf_index m
    /\ length (g_flash_output_buf m') = length (g_flash_output_buf m).
Proof.
  intros Hready. unfold mt25ql256aba_retrieve_samples.
  erewrite bind_run by reflexivity.
  erewrite bind_run by reflexivity.
  erewrite bind_run by reflexivity.
  match goal with |- context [bind (retrieve_samples_loop fuel 0 ?n _) _ ?m0] =>
    destruct (retrieve_samples_loop_bus fuel n 0 [0; 0; 0] m0 Hready)
      as (a' & m' & E & Hr & Hp & Hs & Hi & Hn); [reflexivity|]
  end.
  change (uint32 (32 * Z.of_nat 0)) with 0 in E.
  rewrite (bind_run _ _ _ _ _ E). exists m'.
  revert E Hr Hp Hs Hi Hn. destruct m; machine_simpl. intros E Hr Hp Hs Hi Hn.
  split; [reflexivity|]. auto.
Qed.

End RetrieveBus.

Lemma retrieve_samples_reads_slots_from_zero_witness :
  let m := Machine [bench_sample; bench_sample] [zero_sample; zero_sample]
                   2%nat false 0 [] [] (healthy_bench []) in
  flash_reads (flash_bus (snd (mt25ql256aba_retrieve_samples 2 m))) =
  [([0; 0; 0], 26%nat); ([0; 0; 32], 26%nat)].
Proof.
  cbv zeta.
  destruct (retrieve_samples_reads_slots_from_zero 2
              (Machine [bench_sample; bench_sample] [zero_sample; zero_sample]
                       2%nat false 0 [] [] (healthy_bench []))
              bench_flash_answers)
    as (m' & E & Hr & _).
  rewrite E. cbn [snd]. rewrite Hr. reflexivity.
Defined.

(** X11.  The address codec loses nothing but the top byte: two
    addresses that [convert_4byte_address_to_3byte_address] maps to the
    same three bytes agree on their low 24 bits. *)
Theorem address_codec_same_bytes_same_low_bits (A B : Z) (buf buf' : list Z) :
  length buf = 3%nat ->
  length buf' = 3%nat ->
  convert_4byte_address_to_3byte_address A buf =
  convert_4byte_address_to_3byte_address B buf' ->
  A mod 2 ^ 24 = B mod 2 ^ 24.
Proof.
  intros Ha Hb E. rewrite !convert_address_bytes in E by assumption.
  apply address_bytes_inj. exact E.
Qed.

Lemma address_codec_same_bytes_same_low_bits_witness :
  convert_4byte_address_to_3byte_address 0x01000020 [0; 0; 0] =
  convert_4byte_address_to_3byte_address 0x20 [9; 9; 9]
  /\ 0x01000020 mod 2 ^ 24 = 0x20 mod 2 ^ 24.
Proof.
  split; [reflexivity|].
  apply (address_codec_same_bytes_same_low_bits 0x01000020 0x20
           [0; 0; 0] [9; 9; 9]); reflexivity.
Defined.

(** ** Start-up, waiting and capture *)

Section Control.
Context {W : Type} `{Platform W}.
Variable cfg : config.

Lemma never_returns_bind {A B} (c : M W A) (k : A -> M W B) :
  (forall a, never_returns (k a)) -> never_returns (bind c k).
Proof.
  intros Hk m b. unfold bind.
  destruct (c m) as [[a| |] m1]; cbn [fst]; [apply Hk|discriminate..].
Qed.

Lemma never_returns_capture_episode (fuel : nat) (l : sample_locals)
    (flash_addr : Z) :
  never_returns (capture_episode cfg fuel l flash_addr).
Proof.
  unfold capture_episode.
  repeat (apply never_returns_bind; intros ?).
  intros m0 r. discriminate.
Qed.

Lemma never_returns_impact_wait_loop (fuel polls : nat) (l : sample_locals)
    (flash_addr : Z) :
  never_returns (impact_wait_loop cfg fuel polls l flash_addr).
Proof.
  revert l. induction polls as [|polls IH]; intros l.
  - intros m0 r. discriminate.
  - cbn [impact_wait_loop].
    apply never_returns_bind; intros _.
    apply never_returns_bind; intros high_g.
    destruct (impact_threshold_met _ _);
      [apply never_returns_capture_episode|apply IH].
Qed.

(** X17.  [main] never returns: whatever the hardware does, a run ends
    parked in a wait-for-event loop or is still polling when the model
    stops following it; the [return 0] is not reached. *)
Theorem main_never_returns (fuel : nat) (m : machine W) :
  fst (main cfg fuel m) <> Ret tt
  /\ (fst (main cfg fuel m) = Halt \/ fst (main cfg fuel m) = Stall).
Proof.
  assert (Hn : never_returns (main cfg fuel)).
  { unfold main. cbv zeta.
    repeat (apply never_returns_bind; intros ?).
    apply never_returns_impact_wait_loop. }
  split; [apply Hn|].
  specialize (Hn m). destruct (fst (main cfg fuel m)) as [[]| |]; auto.
  exfalso. apply (Hn tt). reflexivity.
Qed.

Lemma mt25ql256aba_startup_test_run (m : machine W) :
  let rd := mt25ql256aba_read_op MT25QL256ABA_READ_ID [] [0; 0; 0] (world m) in
  let r := fst (fst rd) in
  let val := snd (fst rd) in
  let ok := (byte_at val 0 =? 0x20) && (byte_at val 1 =? 0xBA) &&
            (byte_at val 2 =? 0x19) in
  exists (lines : list log_line) (w' : W),
    mt25ql256aba_startup_test m =
      (if ok then Ret tt else Halt,
       with_world
         (with_flash_bus (with_nrf_log m (nrf_log m ++ lines))
            (flash_bus m ++ [FlashRead MT25QL256ABA_READ_ID [] 3]))
         w')
    /\ (ok = false -> last lines = Some (LOG "FLASH READ TEST FAIL" []))
    /\ (ok = true ->
        lines =
        [LOG "" []; LOG "PERFORMING FLASH TEST...." []] ++
        (if r <? 0 then [LOG "SPI WRITE READ FAIL" []] else []) ++
        [ LOG "1: device id = 0x%x (0x20)" [0x20];
          LOG "2:memory type = 0x%x (0xBA)" [0xBA];
          LOG "3:memory capacity = 0x%x (0x19)" [0x19] ]).
Proof.
  cbv zeta. destruct m as [ss fo bi md pv lg fb w].
  unfold mt25ql256aba_startup_test.
  erewrite bind_run by reflexivity.
  erewrite bind_run by reflexivity.
  erewrite bind_run by apply flash_read_op_run.
  machine_simpl.
  destruct (mt25ql256aba_read_op MT25QL256ABA_READ_ID [] [0; 0; 0] w)
    as [[r val] w1].
  cbn [fst snd length]. unfold spi_ret_check.
  destruct (r <? 0);
    (erewrite bind_run by reflexivity);
    (erewrite bind_run by reflexivity);
    (destruct (Z.eqb_spec (byte_at val 0) 32) as [E0|E0]; cbn [negb andb];
     [|eexists _, _; split;
       [unfold bind, NRF_LOG_INFO, wait_forever; machine_simpl;
        rewrite <- !app_assoc; reflexivity
       |split; [intros _; reflexivity|discriminate]]]);
    (erewrite bind_run by reflexivity);
    (erewrite bind_run by reflexivity);
    (erewrite bind_run by reflexivity);
    (destruct (Z.eqb_spec (byte_at val 1) 186) as [E1|E1]; cbn [negb andb];
     [|eexists _, _; split;
       [unfold bind, NRF_LOG_INFO, wait_forever; machine_simpl;
        rewrite <- !app_assoc; reflexivity
       |split; [intros _; reflexivity|discriminate]]]);
    (erewrite bind_run by reflexivity);
    (erewrite bind_run by reflexivity);
    (erewrite bind_run by reflexivity);
    (destruct (Z.eqb_spec (byte_at val 2) 25) as [E2|E2]; cbn [negb andb];
     eexists _, _; (split;
       [unfold bind, NRF_LOG_INFO, wait_forever, ret, hw_, hw; machine_simpl;
        rewrite <- !app_assoc; reflexivity
       |split; [try discriminate; intros _; reflexivity
               |try discriminate; intros _; rewrite ?E0, ?E1, ?E2; reflexivity]])).
Qed.

(** X15.  [mt25ql256aba_startup_test] issues one READ ID of three bytes
    and nothing else on the flash bus.  It returns exactly when the
    three bytes are 0x20, 0xBA and 0x19, having printed the three values
    (after the SPI failure line when the status was negative, which by
    itself stops nothing); otherwise it parks the core, the last line
    printed being the failure line.  The buffers are not touched. *)
Theorem flash_startup_test_checks_three_bytes (m : machine W) :
  let rd := mt25ql256aba_read_op MT25QL256ABA_READ_ID [] [0; 0; 0] (world m) in
  let r := fst (fst rd) in
  let val := snd (fst rd) in
  let ok := (byte_at val 0 =? 0x20) && (byte_at val 1 =? 0xBA) &&
            (byte_at val 2 =? 0x19) in
  let run := mt25ql256aba_startup_test m in
  fst run = (if ok then Ret tt else Halt)
  /\ flash_bus (snd run) = flash_bus m ++ [FlashRead 0x9E [] 3]
  /\ (ok = false ->
      last (nrf_log (snd run)) = Some (LOG "FLASH READ TEST FAIL" []))
  /\ (ok = true ->
      nrf_log (snd run) =
      nrf_log m ++
      [LOG "" []; LOG "PERFORMING FLASH TEST...." []] ++
      (if r <? 0 then [LOG "SPI WRITE READ FAIL" []] else []) ++
      [ LOG "1: device id = 0x%x (0x20)" [0x20];
        LOG "2:memory type = 0x%x (0xBA)" [0xBA];
        LOG "3:memory capacity = 0x%x (0x19)" [0x19] ])
  /\ g_sample_set_buf (snd run) = g_sample_set_buf m
  /\ g_flash_output_buf (snd run) = g_flash_output_buf m
  /\ g_buf_index (snd run) = g_buf_index m.
Proof.
  cbv zeta.
  destruct (mt25ql256aba_startup_test_run m) as (lines & w' & E & Hf & Ht).
  cbv zeta in E, Hf, Ht. rewrite E. cbn [fst snd]. machine_simpl.
  split; [reflexivity|]. split; [reflexivity|]. split.
  - intros Hok. rewrite last_app, (Hf Hok). reflexivity.
  - split; [|auto]. intros Hok. rewrite (Ht Hok). reflexivity.
Qed.

(** X16.  With a flash that does not identify itself as expected,
    [main] parks in the flash test: the only access to the flash is the
    READ ID, the last line printed is the failure line, and no sensor is
    tested or initialised, nothing is sampled and nothing stored. *)
Theorem main_parks_on_flash_identity_mismatch (fuel : nat) (m : machine W) :
  let w0 := board_init (world m) in
  let val := snd (fst (mt25ql256aba_read_op MT25QL256ABA_READ_ID [] [0; 0; 0]
                                            w0)) in
  (byte_at val 0 =? 0x20) && (byte_at val 1 =? 0xBA) &&
  (byte_at val 2 =? 0x19) = false ->
  let run := main cfg fuel m in
  fst run = Halt
  /\ flash_bus (snd run) = flash_bus m ++ [FlashRead 0x9E [] 3]
  /\ last (nrf_log (snd run)) = Some (LOG "FLASH READ TEST FAIL" [])
  /\ g_sample_set_buf (snd run) = g_sample_set_buf m
  /\ g_flash_output_buf (snd run) = g_flash_output_buf m
  /\ g_buf_index (snd run) = g_buf_index m.
Proof.
  cbv zeta. intros Hbad. unfold main. cbv zeta.
  erewrite bind_run by reflexivity.
  erewrite bind_run by reflexivity.
  erewrite bind_run by reflexivity.
  erewrite bind_run by reflexivity.
  match goal with |- context [bind (startup_tests cfg) _ ?m0] =>
    destruct (mt25ql256aba_startup_test_run m0) as (lines & w' & E & Hf & _)
  end.
  cbv zeta in E, Hf. destruct m as [ss fo bi md pv lg fb w].
  machine_simpl. cbn [fst snd] in E, Hf. rewrite Hbad in E.
  specialize (Hf Hbad).
  erewrite bind_halt; [|unfold startup_tests; erewrite bind_halt by exact E;
                        reflexivity].
  cbn [fst snd]. machine_simpl.
  split; [reflexivity|]. split; [reflexivity|].
  split; [rewrite last_app, Hf; reflexivity|]. auto.
Qed.

Lemma read_sensor_data_loop_run (fuel : nat) (m : machine W) :
  exists (vals : list Z) (w' : W),
    (length vals <= fuel)%nat
    /\ Forall (fun v => 0 <= v < 65536) vals
    /\ (vals = [] -> w' = world m)
    /\ read_sensor_data_loop cfg fuel m =
       (if default (prox_val m) (last vals) <=? PROX_THRESHOLD cfg
        then Stall else Ret tt,
        with_world
          (with_nrf_log
             (with_prox_val m (default (prox_val m) (last vals)))
             (nrf_log m ++ map (fun v => LOG "Proximity: %d" [v]) vals))
          w').
Proof.
  revert m. induction fuel as [|fuel IH]; intros m.
  - exists [], (world m). cbn [read_sensor_data_loop last default map length].
    unfold bind, get. rewrite app_nil_r.
    split; [lia|]. split; [constructor|]. split; [reflexivity|].
    destruct (prox_val m <=? PROX_THRESHOLD cfg); destruct m; reflexivity.
  - cbn [read_sensor_data_loop]. unfold bind at 1. unfold get at 1.
    destruct (prox_val m <=? PROX_THRESHOLD cfg) eqn:Hp.
    + erewrite bind_run by reflexivity.
      erewrite bind_run by reflexivity.
      erewrite bind_run by reflexivity.
      set (v := Z.lor _ _ mod 65536).
      match goal with |- context [read_sensor_data_loop cfg fuel ?m0] =>
        destruct (IH m0) as (vals & w' & Hl & Hv & _ & E)
      end.
      exists (v :: vals), w'. rewrite E. clear E.
      destruct m as [ss fo bi md pv lg fb w]. machine_simpl.
      assert (Hlast : default v (last vals) = default pv (last (v :: vals))).
      { destruct vals as [|z vals]; [reflexivity|].
        rewrite last_cons_cons.
        destruct (last (z :: vals)) eqn:El; [reflexivity|].
        apply last_None in El. discriminate El. }
      rewrite Hlast.
      split; [cbn [length]; lia|]. split.
      { constructor; [apply Z.mod_pos_bound; lia|exact Hv]. }
      split; [discriminate|].
      cbn [map]. rewrite <- app_assoc. reflexivity.
    + exists [], (world m). cbn [last default map length].
      rewrite app_nil_r, Hp.
      split; [lia|]. split; [constructor|]. split; [reflexivity|].
      destruct m; reflexivity.
Qed.

(** X18.  [read_sensor_data] clears the transfer-completion flag and
    then returns exactly when the proximity value is above
    [PROX_THRESHOLD], and is still polling exactly when it is not;
    called with the value already above the threshold it makes no
    transfer and prints nothing, clearing the flag being all it does.
    Each poll prints one line with the 16-bit value read, the value
    kept is the last one read, and the sample buffer, its length and the
    flash bus are untouched. *)
Theorem read_sensor_data_waits_for_threshold (fuel : nat) (m : machine W) :
  let run := read_sensor_data cfg fuel m in
  (fst run = Ret tt <-> PROX_THRESHOLD cfg < prox_val (snd run))
  /\ (fst run = Stall <-> prox_val (snd run) <= PROX_THRESHOLD cfg)
  /\ (PROX_THRESHOLD cfg < prox_val m ->
      run = (Ret tt, with_world m (twi_xfer_done_clear (world m))))
  /\ (exists vals : list Z,
        (length vals <= fuel)%nat
        /\ Forall (fun v => 0 <= v < 65536) vals
        /\ nrf_log (snd run) =
           nrf_log m ++ map (fun v => LOG "Proximity: %d" [v]) vals
        /\ prox_val (snd run) = default (prox_val m) (last vals)
        /\ (vals = [] -> world (snd run) = twi_xfer_done_clear (world m)))
  /\ g_sample_set_buf (snd run) = g_sample_set_buf m
  /\ g_buf_index (snd run) = g_buf_index m
  /\ flash_bus (snd run) = flash_bus m.
Proof.
  cbv zeta. unfold read_sensor_data.
  erewrite bind_run by reflexivity.
  set (m0 := with_world m _).
  assert (Hpv : prox_val m0 = prox_val m) by (destruct m; reflexivity).
  assert (Habove : PROX_THRESHOLD cfg < prox_val m ->
                   read_sensor_data_loop cfg fuel m0 = (Ret tt, m0)).
  { intros Habove. destruct fuel; cbn [read_sensor_data_loop];
      unfold bind at 1; unfold get at 1; rewrite Hpv;
      destruct (Z.leb_spec (prox_val m) (PROX_THRESHOLD cfg)); try lia;
      reflexivity. }
  destruct (read_sensor_data_loop_run fuel m0)
    as (vals & w' & Hl & Hv & Hw & E).
  split; [|split; [|split; [exact Habove|]]].
  - rewrite E. cbn [fst snd]. machine_simpl.
    destruct (Z.leb_spec (default (prox_val m0) (last vals))
                         (PROX_THRESHOLD cfg));
      split; intros; (discriminate || lia || reflexivity).
  - rewrite E. cbn [fst snd]. machine_simpl.
    destruct (Z.leb_spec (default (prox_val m0) (last vals))
                         (PROX_THRESHOLD cfg));
      split; intros; (discriminate || lia || reflexivity).
  - rewrite E. cbn [fst snd]. machine_simpl.
    split.
    + exists vals. rewrite Hpv. subst m0. destruct m; machine_simpl.
      repeat split; auto.
    + subst m0. destruct m; machine_simpl. auto.
Qed.

Lemma read_g_measurement_done_run (m : machine W) :
  let due := fst (measurement_timer_due (world m)) in
  read_g_measurement_done m =
  (Ret (due || g_measurement_done m),
   with_g_measurement_done
     (with_world m (snd (measurement_timer_due (world m))))
     (due || g_measurement_done m)).
Proof.
  cbv zeta. unfold read_g_measurement_done.
  erewrite bind_run by reflexivity.
  destruct m as [ss fo bi md pv lg fb w]. machine_simpl.
  destruct (fst (measurement_timer_due w)); reflexivity.
Qed.

Lemma append_sample_frame (m : machine W) (s : impact_sample_t) :
  g_measurement_done (append_sample cfg m s) = g_measurement_done m
  /\ flash_bus (append_sample cfg m s) = flash_bus m
  /\ g_flash_output_buf (append_sample cfg m s) = g_flash_output_buf m.
Proof. unfold append_sample. destruct (_ <? _)%nat; auto. Qed.

Lemma capture_loop_run (fuel : nat) (l : sample_locals) (m : machine W) :
  (g_buf_index m <= MAX_SAMPLE_BUF_LENGTH cfg)%nat ->
  exists k : nat,
    (k <= fuel)%nat
    /\ g_buf_index (snd (capture_loop cfg fuel l m)) =
       Nat.min (g_buf_index m + k) (MAX_SAMPLE_BUF_LENGTH cfg)
    /\ (forall i, (i < g_buf_index m)%nat ->
          g_sample_set_buf (snd (capture_loop cfg fuel l m)) !! i =
          g_sample_set_buf m !! i)
    /\ nrf_log (snd (capture_loop cfg fuel l m)) = nrf_log m
    /\ flash_bus (snd (capture_loop cfg fuel l m)) = flash_bus m
    /\ g_flash_output_buf (snd (capture_loop cfg fuel l m)) =
       g_flash_output_buf m
    /\ ((exists l', fst (capture_loop cfg fuel l m) = Ret l') /\
        g_measurement_done (snd (capture_loop cfg fuel l m)) = true
        \/ fst (capture_loop cfg fuel l m) = Stall /\ k = fuel /\
           g_measurement_done (snd (capture_loop cfg fuel l m)) = false).
Proof.
  revert l m. induction fuel as [|fuel IH]; intros l m Hle.
  - exists 0%nat. cbn [capture_loop].
    rewrite (bind_run _ _ _ _ _ (read_g_measurement_done_run m)).
    destruct (_ || _) eqn:Hd; unfold ret, stall; cbn [fst snd]; machine_simpl;
      (split; [lia|]); (split; [lia|]); (split; [reflexivity|]);
      (split; [reflexivity|]); (split; [reflexivity|]);
      (split; [reflexivity|]); [left|right]; eauto.
  - cbn [capture_loop].
    rewrite (bind_run _ _ _ _ _ (read_g_measurement_done_run m)).
    destruct (_ || _) eqn:Hd.
    + exists 0%nat. unfold ret. cbn [fst snd]. machine_simpl.
      split; [lia|]. split; [lia|]. repeat (split; [reflexivity|]).
      left. eauto.
    + set (m0 := with_g_measurement_done _ false).
      destruct (sample_impact_data_run cfg l m0) as (r & w' & _ & E).
      rewrite (bind_run _ _ _ _ _ E).
      set (m1 := append_sample cfg (with_world m0 w') (converted r)) in *.
      destruct (append_sample_frame (with_world m0 w') (converted r))
        as (Hd1 & Hb1 & Ho1). fold m1 in Hd1, Hb1, Ho1.
      assert (Hidx : g_buf_index m1 =
                     Nat.min (S (g_buf_index m)) (MAX_SAMPLE_BUF_LENGTH cfg)).
      { subst m1. rewrite append_sample_index; subst m0; machine_simpl; auto. }
      match goal with |- context [capture_loop cfg fuel ?l1 m1] =>
        destruct (IH l1 m1) as (k & Hk & Hi & He & Hl & Hb & Ho & Hres);
          [lia|]
      end.
      exists (S k). split; [lia|]. split; [lia|].
      split.
      { intros i Hlt. rewrite He by lia. subst m1.
        rewrite append_sample_earlier by (subst m0; machine_simpl; lia).
        subst m0. reflexivity. }
      split; [rewrite Hl; subst m1; rewrite append_sample_log; subst m0;
              reflexivity|].
      split; [rewrite Hb, Hb1; subst m0; reflexivity|].
      split; [rewrite Ho, Ho1; subst m0; reflexivity|].
      destruct Hres as [Hr|(Hs & -> & Hf)]; [left; exact Hr|right; auto].
Qed.

(** X19.  The capture loop of [main]: from a buffer within its capacity
    it takes [k] samples, leaving [min (n + k) C] records, never more
    than the capacity and never fewer than before; the records already
    in the buffer stay as they were; it returns only with
    [g_measurement_done] set, is still sampling only with the flag
    clear, never parks the core, prints nothing and does not touch the
    flash. *)
Theorem capture_loop_bounded_until_flag (fuel : nat) (l : sample_locals)
    (m : machine W) :
  (g_buf_index m <= MAX_SAMPLE_BUF_LENGTH cfg)%nat ->
  let run := capture_loop cfg fuel l m in
  (exists k : nat,
     (k <= fuel)%nat /\
     g_buf_index (snd run) =
     Nat.min (g_buf_index m + k) (MAX_SAMPLE_BUF_LENGTH cfg))
  /\ (g_buf_index m <= g_buf_index (snd run) <= MAX_SAMPLE_BUF_LENGTH cfg)%nat
  /\ (forall i, (i < g_buf_index m)%nat ->
        g_sample_set_buf (snd run) !! i = g_sample_set_buf m !! i)
  /\ (forall l', fst run = Ret l' -> g_measurement_done (snd run) = true)
  /\ (fst run = Stall -> g_measurement_done (snd run) = false)
  /\ fst run <> Halt
  /\ nrf_log (snd run) = nrf_log m
  /\ flash_bus (snd run) = flash_bus m.
Proof.
  intros Hle. cbv zeta.
  destruct (capture_loop_run fuel l m Hle)
    as (k & Hk & Hi & He & Hl & Hb & Ho & Hres).
  split; [exists k; auto|]. split; [lia|]. split; [exact He|].
  destruct Hres as [[[l' Hr] Hd]|(Hs & _ & Hd)].
  - rewrite Hr. repeat split; auto; discriminate.
  - rewrite Hs. repeat split; auto; discriminate.
Qed.

(** X20.  [mt25ql256aba_erase] waits for the flash to be ready and then
    issues write enable, one 4 KiB subsector erase at device address 0
    and write disable, nothing more: it does not wait for the erase to
    finish, prints nothing, and erases no other subsector. *)
Theorem erase_clears_first_subsector_only (fuel : nat) (m : machine W) :
  flash_answers_within (W := W) fuel ->
  exists (k : nat) (w' : W),
    (1 <= k <= fuel)%nat
    /\ mt25ql256aba_erase fuel m =
       (Ret tt,
        with_world
          (with_flash_bus m
             (flash_bus m ++ replicate k status_read ++
              [ FlashWriteEnable;
                FlashWrite MT25QL256ABA_ERASE_4KB_SUBSECTOR [0; 0; 0] [];
                FlashWriteDisable ]))
          w').
Proof.
  intros Hready. unfold mt25ql256aba_erase. cbv zeta.
  destruct m as [ss fo bi md pv lg fb w].
  destruct (check_ready_flag_answered_reads fuel
              (Machine ss fo bi md pv lg fb w) Hready) as (k & Hk & E).
  erewrite bind_run by exact E.
  erewrite bind_run by apply flash_write_enable_run.
  erewrite bind_run by apply flash_write_op_run.
  erewrite bind_run by apply flash_write_disable_run.
  exists k. eexists. split; [exact Hk|].
  machine_simpl. unfold ret.
  rewrite <- !app_assoc. reflexivity.
Qed.

End Control.

Lemma main_parks_on_flash_identity_mismatch_witness :
  let w := Bench 0 false [0x20; 0xBA; 0x18] [] [0xAD; 0x1D; 0xFA] [] [] 0 None in
  let run := main (bench_config 2 3) 2 (reset_machine (bench_config 2 3) w) in
  fst run = Halt /\ flash_bus (snd run) = [FlashRead 0x9E [] 3].
Proof.
  cbv zeta.
  destruct (main_parks_on_flash_identity_mismatch (bench_config 2 3) 2
              (reset_machine (bench_config 2 3)
                 (Bench 0 false [0x20; 0xBA; 0x18] [] [0xAD; 0x1D; 0xFA]
                        [] [] 0 None)))
    as (Hh & Hb & _).
  - reflexivity.
  - split; [exact Hh|exact Hb].
Defined.

Lemma flash_startup_test_checks_three_bytes_witness :
  let m := reset_machine (bench_config 2 3) (healthy_bench []) in
  fst (mt25ql256aba_startup_test m) = Ret tt
  /\ nrf_log (snd (mt25ql256aba_startup_test m)) =
     [ LOG "" []; LOG "PERFORMING FLASH TEST...." [];
       LOG "1: device id = 0x%x (0x20)" [0x20];
       LOG "2:memory type = 0x%x (0xBA)" [0xBA];
       LOG "3:memory capacity = 0x%x (0x19)" [0x19] ].
Proof.
  cbv zeta.
  destruct (flash_startup_test_checks_three_bytes
              (reset_machine (bench_config 2 3) (healthy_bench [])))
    as (Hr & _ & _ & Hl & _).
  split; [exact Hr|]. rewrite Hl by reflexivity. reflexivity.
Defined.

Lemma capture_loop_bounded_until_flag_witness :
  let cfg := bench_config 2 3 in
  let l := SampleLocals (adxl_data zero_sample) (icm_data zero_sample)
                        (ds_data zero_sample) in
  let m := reset_machine cfg (bench_set_timer (healthy_bench []) (Some 4%nat)) in
  let run := capture_loop cfg 9 l m in
  (g_buf_index (snd run) <= 2)%nat
  /\ g_measurement_done (snd run) = true
  /\ nrf_log (snd run) = [].
Proof.
  cbv zeta.
  destruct (capture_loop_bounded_until_flag (bench_config 2 3) 9
              (SampleLocals (adxl_data zero_sample) (icm_data zero_sample)
                            (ds_data zero_sample))
              (reset_machine (bench_config 2 3)
                 (bench_set_timer (healthy_bench []) (Some 4%nat))))
    as (_ & Hb & _ & Hd & _ & _ & Hl & _).
  - cbn. lia.
  - split; [apply Hb|]. split; [|exact Hl].
    eapply Hd. vm_compute. reflexivity.
Defined.

Lemma erase_clears_first_subsector_only_witness :
  let m := reset_machine (bench_config 2 3) (healthy_bench []) in
  flash_bus (snd (mt25ql256aba_erase 2 m)) =
  [ status_read; FlashWriteEnable; FlashWrite 0x20 [0; 0; 0] [];
    FlashWriteDisable ].
Proof.
  cbv zeta.
  destruct (erase_clears_first_subsector_only 2
              (reset_machine (bench_config 2 3) (healthy_bench []))
              bench_flash_answers)
    as (k & w' & Hk & E).
  rewrite E. cbn [snd]. machine_simpl.
  vm_compute in E. injection E as Hbus _.
  destruct k as [|[|[|k]]]; try discriminate Hbus; try lia. reflexivity.
Defined.

Lemma read_sensor_data_waits_for_threshold_witness :
  let cfg := bench_config 2 3 in
  let m := reset_machine cfg (healthy_bench []) in
  fst (read_sensor_data cfg 3 m) = Ret tt
  /\ prox_val (snd (read_sensor_data cfg 3 m)) = 0x1212.
Proof.
  cbv zeta.
  destruct (read_sensor_data_waits_for_threshold (bench_config 2 3) 3
              (reset_machine (bench_config 2 3) (healthy_bench [])))
    as (Hr & _).
  split; [apply Hr; vm_compute; reflexivity|]. vm_compute. reflexivity.
Defined.

(** ** A capture episode *)

Section Episode.
Context {W : Type} `{Platform W}.
Variable cfg : config.

(** X21.  A capture episode, from the threshold being met to the core
    being parked.  While the capture loop is still sampling, nothing has
    gone to the flash.  Once the loop has returned (the measurement
    flag was set), the episode ends parked; the buffer and its length
    are as the capture left them, within the capacity; the flash has
    been programmed with exactly one page per buffered record, record
    [k] at the device address of [base + 32 * k], and with nothing
    else; and the last line printed is the closing banner of the
    report. *)
Theorem capture_episode_stores_the_buffer (fuel : nat) (l : sample_locals)
    (base : Z) (m : machine W) :
  flash_answers_within (W := W) fuel ->
  is_uint32 base ->
  (g_buf_index m <= MAX_SAMPLE_BUF_LENGTH cfg)%nat ->
  let m0 :=
    with_world
      (with_nrf_log m (nrf_log m ++ [LOG "" []; LOG "BEGIN MEASUREMENT" []]))
      (app_timer_start (IMPACT_DURATION cfg) (world m)) in
  let cap := capture_loop cfg fuel l m0 in
  let run := capture_episode cfg fuel l base m in
  (fst cap = Stall ->
     fst run = Stall /\ flash_bus (snd run) = flash_bus m)
  /\ (forall l', fst cap = Ret l' ->
        fst run = Halt
        /\ g_measurement_done (snd cap) = true
        /\ g_buf_index (snd run) = g_buf_index (snd cap)
        /\ g_sample_set_buf (snd run) = g_sample_set_buf (snd cap)
        /\ (g_buf_index (snd run) <= MAX_SAMPLE_BUF_LENGTH cfg)%nat
        /\ page_programs (flash_bus (snd run)) =
           page_programs (flash_bus m) ++
           map (fun k => (flash_slot base k,
                          flash_image (sample_at (g_sample_set_buf (snd cap)) k)))
               (seq 0 (g_buf_index (snd cap)))
        /\ last (nrf_log (snd run)) =
           Some (LOG (CRLF ++ "====================DATA OUTPUT FINISH==================") [])).
Proof.
  intros Hready Hbase Hle. cbv zeta.
  set (m0 := with_world _ _).
  assert (Hle0 : (g_buf_index m0 <= MAX_SAMPLE_BUF_LENGTH cfg)%nat)
    by (subst m0; destruct m; exact Hle).
  destruct (capture_loop_run cfg fuel l m0 Hle0)
    as (k & Hk & Hi & He & Hl & Hb & Ho & Hres).
  assert (Hstart : capture_episode cfg fuel l base m =
            bind (capture_loop cfg fuel l)
              (fun _ =>
                 hw_ app_timer_stop;;;
                 set_g_measurement_done false;;;
                 mt25ql256aba_store_samples fuel base;;;
                 mt25ql256aba_retrieve_samples fuel;;;
                 serial_output_flash_data;;;
                 wait_forever)%prog m0).
  { unfold capture_episode.
    erewrite bind_run by reflexivity.
    erewrite bind_run by reflexivity.
    erewrite bind_run by reflexivity.
    subst m0. destruct m; machine_simpl. rewrite <- app_assoc. reflexivity. }
  rewrite Hstart. clear Hstart.
  destruct (capture_loop cfg fuel l m0) as [res m1] eqn:Ecap.
  cbn [fst snd] in *.
  split.
  - intros ->. rewrite (bind_stall _ _ _ _ Ecap). cbn [fst snd].
    split; [reflexivity|]. rewrite Hb. subst m0. destruct m; reflexivity.
  - intros l' ->.
    destruct Hres as [[_ Hdone]|[Hs _]]; [|discriminate Hs].
    rewrite (bind_run _ _ _ _ _ Ecap).
    erewrite bind_run by reflexivity.
    erewrite bind_run by reflexivity.
    set (m2 := with_g_measurement_done _ false).
    destruct (store_samples_run fuel base m2 Hready Hbase)
      as (m3 & E3 & Hs3 & Hi3 & Hp3).
    rewrite (bind_run _ _ _ _ _ E3).
    assert (Htail : exists mF : machine W,
              (mt25ql256aba_retrieve_samples fuel;;;
               serial_output_flash_data;;;
               wait_forever)%prog m3 = (@Halt unit, mF)
              /\ g_buf_index mF = g_buf_index m3
              /\ g_sample_set_buf mF = g_sample_set_buf m3
              /\ page_programs (flash_bus mF) = page_programs (flash_bus m3)
              /\ last (nrf_log mF) =
                 Some (LOG (CRLF ++ "====================DATA OUTPUT FINISH==================") [])).
    { unfold mt25ql256aba_retrieve_samples.
      unfold bind at 1.
      erewrite bind_run by reflexivity.
      erewrite bind_run by reflexivity.
      erewrite bind_run by reflexivity.
      match goal with |- context [bind (retrieve_samples_loop fuel 0 ?n _) _ ?m4] =>
        destruct (retrieve_samples_loop_bus fuel n 0 [0; 0; 0] m4 Hready)
          as (a' & m5 & E5 & _ & Hp5 & Hs5 & Hi5 & _); [reflexivity|]
      end.
      change (uint32 (32 * Z.of_nat 0)) with 0 in E5.
      rewrite (bind_run _ _ _ _ _ E5). unfold ret at 1.
      rewrite (bind_run _ _ _ _ _ (serial_output_flash_data_run m5)).
      unfold wait_forever. eexists. split; [reflexivity|].
      machine_simpl.
      split; [exact Hi5|]. split; [exact Hs5|]. split; [exact Hp5|].
      rewrite !app_assoc. apply last_snoc. }
    destruct Htail as (mF & EF & HiF & HsF & HpF & HlF).
    rewrite EF. cbn [fst snd].
    assert (Hs2 : g_sample_set_buf m2 = g_sample_set_buf m1)
      by (subst m2; destruct m1; reflexivity).
    assert (Hi2 : g_buf_index m2 = g_buf_index m1)
      by (subst m2; destruct m1; reflexivity).
    assert (Hb2 : flash_bus m2 = flash_bus m).
    { transitivity (flash_bus m1); [subst m2; destruct m1; reflexivity|].
      rewrite Hb. subst m0. destruct m; reflexivity. }
    split; [reflexivity|]. split; [exact Hdone|].
    split; [congruence|]. split; [congruence|].
    split; [rewrite HiF, Hi3, Hi2, Hi; lia|].
    split; [|exact HlF].
    rewrite HpF, Hp3, Hs2, Hi2, Hb2. reflexivity.
Qed.

End Episode.

Lemma capture_episode_stores_the_buffer_witness :
  let cfg := bench_config 2 1 in
  let l := SampleLocals (adxl_data zero_sample) (icm_data zero_sample)
                        (ds_data zero_sample) in
  let m := reset_machine cfg (healthy_bench [adxl372.Build 40 0 0]) in
  let run := capture_episode cfg 2 l 0 m in
  fst run = Halt
  /\ g_buf_index (snd run) = 1%nat
  /\ map fst (page_programs (flash_bus (snd run))) = [[0; 0; 0]].
Proof.
  cbv zeta.
  destruct (capture_episode_stores_the_buffer (bench_config 2 1) 2
              (SampleLocals (adxl_data zero_sample) (icm_data zero_sample)
                            (ds_data zero_sample))
              0
              (reset_machine (bench_config 2 1)
                             (healthy_bench [adxl372.Build 40 0 0]))
              bench_flash_answers)
    as [_ Hret].
  - unfold is_uint32. lia.
  - cbn. lia.
  - edestruct Hret as (Hh & _ & Hi & _ & _ & Hp & _).
    + vm_compute. reflexivity.
    + split; [exact Hh|]. split.
      * rewrite Hi. vm_compute. reflexivity.
      * rewrite Hp. vm_compute. reflexivity.
Defined.
